(** * ConvertController: a shallow embedding and its properties

    The controller of [packages/core/src/controllers/ConvertController.ts]
    is a flat record of observable state together with the procedures that
    update it. The procedures talk to sibling controllers (the price and
    quote API client, the wallet connection, the account, the router, the
    notification component); those are kept abstract and reached through
    an explicit interface.

    Layout:
    - [JS]: the JavaScript values and built-ins the controller relies on
      (truthiness, [parseFloat], [Math.round], number printing, [BigInt]);
    - the data model ([TokenInfo], [ConvertControllerState], ...);
    - the interface to the siblings ([Request], [Effect], [Env]);
    - [Prog]: a free monad for the controller's procedures (state access,
      awaited requests, async calls that are not awaited, timers,
      exceptions) and its interpreter;
    - [ConvertController]: the procedures, named as in the source;
    - the properties.

    What the model fixes:
    - a number is a binary64 float and its arithmetic is the kernel's; a
      string is a string of bytes;
    - a [Record<string, T>] is a finite map: [o[k]] reads an own property
      and no order of insertion is kept;
    - an awaited promise settles before anything else runs; a call that is
      not awaited runs up to its first [await], and the rest of it is taken
      up by the event loop afterwards, oldest first;
    - what a sibling answers may depend on the request and on the moment
      it is sent, nothing else is assumed of it;
    - [subscribe] and [subscribeKey] belong to the reactive store and have
      no counterpart here. *)

From Stdlib Require Import ZArith String Ascii List DecimalString.
From Stdlib Require Import Floats.PrimFloat Floats.SpecFloat Floats.FloatOps.
From Stdlib Require Import Floats.FloatAxioms.
From stdpp Require Import gmap strings list fin_maps.

(* ===================================================================== *)
(** * JavaScript values and built-ins *)
(* ===================================================================== *)

Module JS.

Local Open Scope Z_scope.

(** A JavaScript [number] is an IEEE 754 binary64 value: the kernel's
    primitive [float]. A [bigint] is an unbounded integer: [Z]. Strings
    are byte strings. *)
Abbreviation number := float.
Abbreviation bigint := Z.

(** ** Truthiness *)

(** [!!s] for a string: every string but the empty one. *)
Definition truthy_string (s : string) : bool :=
  match s with
  | EmptyString => false
  | String _ _ => true
  end.

(** [!!x] for a number: every number but [0], [-0] and [NaN]. *)
Definition truthy_number (x : number) : bool :=
  negb (PrimFloat.eqb x zero || is_nan x).

(** [!!v] for an optional value. *)
Definition truthy_opt {A} (truthy : A -> bool) (v : option A) : bool :=
  match v with
  | Some a => truthy a
  | None => false
  end.

(** [v || d] for an optional string [v] and a string [d]. *)
Definition or_string (v : option string) (d : string) : string :=
  match v with
  | Some s => if truthy_string s then s else d
  | None => d
  end.

(** ** Reading characters *)

Definition is_digit (c : ascii) : bool :=
  let n := N_of_ascii c in ((48 <=? n) && (n <=? 57))%N.

Definition digit_value (c : ascii) : Z := Z.of_N (N_of_ascii c) - 48.

(** The white space of [StrWhiteSpaceChar] that fits a byte: TAB, LF, VT,
    FF, CR and SP. *)
Definition is_space (c : ascii) : bool :=
  let n := N_of_ascii c in (((9 <=? n) && (n <=? 13)) || (n =? 32))%N.

Fixpoint skip_space (s : string) : string :=
  match s with
  | String c r => if is_space c then skip_space r else s
  | EmptyString => s
  end.

(** [take_digits s acc n] reads the decimal digits at the front of [s]:
    the value read (continuing [acc]), the number of digits read (added
    to [n]) and what is left of [s]. *)
Fixpoint take_digits (s : string) (acc : Z) (n : Z) : Z * Z * string :=
  match s with
  | String c r =>
      if is_digit c then take_digits r (10 * acc + digit_value c) (n + 1)
      else (acc, n, s)
  | EmptyString => (acc, n, s)
  end.

(** An optional sign: [true] for a minus. *)
Definition take_sign (s : string) : bool * string :=
  match s with
  | String "-" r => (true, r)
  | String "+" r => (false, r)
  | _ => (false, s)
  end.

(** ** From a decimal to the nearest number *)

(** [of_decimal neg m e] is the number nearest to [(-1)^neg * m * 10^e]
    (ties to even), for [0 <= m]. The two early exits avoid computing a
    power of ten whose result is known: beyond [10^400] every non-zero
    value overflows, and a value below [2^-1076] rounds to zero. *)
Definition of_decimal (neg : bool) (m e : Z) : number :=
  match m with
  | Zpos p =>
      if 400 <? e then (if neg then neg_infinity else infinity)
      else if (e <? 0) && (Z.log2 m + 1 + 3 * e <? -1076)
      then (if neg then neg_zero else zero)
      else
        let num := Z.to_pos (m * 10 ^ Z.max e 0) in
        let den := Z.to_pos (10 ^ Z.max (- e) 0) in
        SF2Prim (SFdiv prec emax (S754_finite neg num 0) (S754_finite false den 0))
  | _ => if neg then neg_zero else zero
  end.

(** The exponent part [e[+-]digits] at the front of [s], or [0] when [s]
    does not start with a complete one. *)
Definition take_exponent (s : string) : Z :=
  match s with
  | String c r =>
      if (Ascii.eqb c "e" || Ascii.eqb c "E")%bool then
        let '(neg, r1) := take_sign r in
        let '(v, n, _) := take_digits r1 0 0 in
        if n =? 0 then 0 else if neg then - v else v
      else 0
  | EmptyString => 0
  end.

(** ** [parseFloat] *)

(** [parseFloat(s)]: leading white space is skipped, the longest prefix
    that is a [StrDecimalLiteral] is read, and [NaN] is the answer when
    there is none. *)
Definition parseFloat (s : string) : number :=
  let '(neg, s0) := take_sign (skip_space s) in
  if String.prefix "Infinity" s0 then (if neg then neg_infinity else infinity)
  else
    let '(ip, ni, s1) := take_digits s0 0 0 in
    let '(m, nf, s2) :=
      match s1 with
      | String "." r => take_digits r ip 0
      | _ => (ip, 0, s1)
      end in
    if ni + nf =? 0 then nan
    else of_decimal neg m (take_exponent s2 - nf).

(** A string is numeric when it parses as a number, that is when
    [parseFloat] does not answer [NaN]. *)
Definition is_numeric_string (s : string) : bool := negb (is_nan (parseFloat s)).

(** ** [Math.round] and the conversions between numbers and integers *)

(** [Math.round(x)]: the integer nearest to [x], the larger one on a tie;
    that is [floor (x + 1/2)] computed exactly. A result of zero keeps
    the sign of [x]; integers, zeros, infinities and [NaN] are returned
    as they are. *)
Definition Math_round (x : number) : number :=
  match Prim2SF x with
  | S754_finite s m e =>
      if 0 <=? e then x
      else
        let v := if s then Z.neg m else Z.pos m in
        let r := (2 * v + 2 ^ (- e)) / 2 ^ (1 - e) in
        if r =? 0 then (if s then neg_zero else zero)
        else SF2Prim (binary_normalize prec emax r 0 false)
  | _ => x
  end.

(** [Number(z)] for a bigint: the nearest number, ties to even. *)
Definition Number_of_bigint (z : bigint) : number :=
  SF2Prim (binary_normalize prec emax z 0 false).

(** The value of [x] when it is an integer ([Number.isInteger]). *)
Definition integer_value (x : number) : option Z :=
  match Prim2SF x with
  | S754_zero _ => Some 0
  | S754_finite s m e =>
      let v := if s then Z.neg m else Z.pos m in
      if 0 <=? e then Some (v * 2 ^ e)
      else if Z.pos m mod 2 ^ (- e) =? 0 then Some (v / 2 ^ (- e))
      else None
  | _ => None
  end.

(** ** Printing a number: [Number.prototype.toString] in radix 10 *)

(** The decimal digits of a natural number. *)
Definition digits_of (n : Z) : string :=
  NilZero.string_of_uint (N.to_uint (Z.to_N n)).

Fixpoint zeros (n : nat) : string :=
  match n with
  | O => EmptyString
  | S k => String "0" (zeros k)
  end.

(** [10^n <= num/den], for positive [num] and [den]. *)
Definition reaches_pow10 (num den n : Z) : bool :=
  if 0 <=? n then den * 10 ^ n <=? num else den <=? num * 10 ^ (- n).

(** The [n] with [10^(n-1) <= num/den < 10^n], searched from an estimate
    taken from the sizes in bits. *)
Definition decimal_exponent (num den : Z) : Z :=
  let est := ((Z.log2 num - Z.log2 den) * 30103) / 100000 in
  let candidates := map (fun i => est - 2 + Z.of_nat i) (seq 0 8) in
  match List.find (fun n => negb (reaches_pow10 num den n)) candidates with
  | Some n => n
  | None => est
  end.

(** For [x = num/den > 0] and [k] digits: the integers [s] just below and
    just above [x / 10^(n-k)] that print back to [x], the nearer one
    first when both do (the even one on a tie). *)
Definition candidates_with (x : number) (num den n k : Z) : list Z :=
  let t := n - k in
  let a := num * 10 ^ Z.max (- t) 0 in
  let b := den * 10 ^ Z.max t 0 in
  let lo := a / b in
  let r := a mod b in
  let back s := PrimFloat.eqb (of_decimal false s t) x in
  let lo_first := (2 * r <? b) || ((2 * r =? b) && Z.even lo) in
  filter (fun s => Is_true (back s)) (if lo_first then [lo; lo + 1] else [lo + 1; lo]).

(** The shortest digits: the least [k] for which some integer [s] of [k]
    digits has [s * 10^(n-k)] print back to [x]; [fuel] bounds the search
    ([17] digits always identify a binary64 value). *)
Fixpoint shortest_from (fuel : nat) (x : number) (num den n k : Z) : Z * Z :=
  match candidates_with x num den n k with
  | s :: _ => (s, n - k)
  | [] =>
      match fuel with
      | O => (num * 10 ^ Z.max (k - n) 0 / (den * 10 ^ Z.max (n - k) 0), n - k)
      | S fuel' => shortest_from fuel' x num den n (k + 1)
      end
  end.

(** Trailing zeros move from the digits to the exponent. *)
Fixpoint strip_zeros (fuel : nat) (s t : Z) : Z * Z :=
  match fuel with
  | O => (s, t)
  | S fuel' => if (s mod 10 =? 0) && (0 <? s) then strip_zeros fuel' (s / 10) (t + 1) else (s, t)
  end.

(** The text of a positive finite number with digits [d] (there are [k]
    of them) and decimal exponent [n], as [Number::toString] lays it
    out. *)
Definition layout (d : string) (n : Z) : string :=
  let k := Z.of_nat (String.length d) in
  if (k <=? n) && (n <=? 21) then d +:+ zeros (Z.to_nat (n - k))
  else if (0 <? n) && (n <=? 21) then
    substring 0 (Z.to_nat n) d +:+ "." +:+ substring (Z.to_nat n) (Z.to_nat (k - n)) d
  else if (-6 <? n) && (n <=? 0) then "0." +:+ zeros (Z.to_nat (- n)) +:+ d
  else
    let e := n - 1 in
    let exponent := (if e <? 0 then "-" else "+") +:+ digits_of (Z.abs e) in
    if k =? 1 then d +:+ "e" +:+ exponent
    else substring 0 1 d +:+ "." +:+ substring 1 (Z.to_nat (k - 1)) d +:+ "e" +:+ exponent.

Definition Number_toString (x : number) : string :=
  match Prim2SF x with
  | S754_nan => "NaN"
  | S754_zero _ => "0"
  | S754_infinity s => if s then "-Infinity" else "Infinity"
  | S754_finite s m e =>
      let num := Z.pos m * 2 ^ Z.max e 0 in
      let den := 2 ^ Z.max (- e) 0 in
      let n := decimal_exponent num den in
      let '(d, t) := shortest_from 17 (abs x) num den n 1 in
      let '(d, t) := strip_zeros 20 d t in
      let text := digits_of d in
      (if s then "-" else "") +:+ layout text (t + Z.of_nat (String.length text))
  end.

(** ** [BigInt] *)

Definition is_hex_digit (c : ascii) : bool :=
  let n := N_of_ascii c in
  (is_digit c || ((97 <=? n) && (n <=? 102)) || ((65 <=? n) && (n <=? 70)))%N.

Definition hex_digit_value (c : ascii) : Z :=
  let n := Z.of_N (N_of_ascii c) in
  if is_digit c then n - 48 else if 97 <=? n then n - 87 else n - 55.

(** The value of [s] read in [radix] when every character of the
    non-empty [s] is a digit below [radix]. *)
Fixpoint all_digits (radix : Z) (s : string) (acc : Z) : option Z :=
  match s with
  | EmptyString => Some acc
  | String c r =>
      if is_hex_digit c && (hex_digit_value c <? radix)
      then all_digits radix r (radix * acc + hex_digit_value c)
      else None
  end.

Definition integer_literal (radix : Z) (s : string) : option Z :=
  match s with
  | EmptyString => None
  | _ => all_digits radix s 0
  end.

Fixpoint rev_string (s acc : string) : string :=
  match s with
  | EmptyString => acc
  | String c r => rev_string r (String c acc)
  end.

Definition trim (s : string) : string :=
  rev_string (skip_space (rev_string (skip_space s) EmptyString)) EmptyString.

(** [BigInt(s)] for a string ([StringToBigInt]): white space around is
    dropped; the empty string is [0n]; a signed decimal integer, or an
    unsigned one with prefix [0x], [0o] or [0b], is its value; anything
    else is a [SyntaxError] ([None]). *)
Definition BigInt_of_string (s : string) : option bigint :=
  match trim s with
  | EmptyString => Some 0
  | String "0" (String c r) as t =>
      if (Ascii.eqb c "x" || Ascii.eqb c "X")%bool then integer_literal 16 r
      else if (Ascii.eqb c "o" || Ascii.eqb c "O")%bool then integer_literal 8 r
      else if (Ascii.eqb c "b" || Ascii.eqb c "B")%bool then integer_literal 2 r
      else integer_literal 10 t
  | String "-" r => Z.opp <$> integer_literal 10 r
  | String "+" r => integer_literal 10 r
  | t => integer_literal 10 t
  end.

(** What the API hands over where the controller calls [BigInt(...)]: the
    declarations of those responses are not part of this file, so the
    field may hold a string, a number or a bigint. *)
Inductive numeric :=
| of_string (s : string)
| of_number (x : number)
| of_bigint (z : bigint).

(** [BigInt(v)]: [None] when it throws (a [SyntaxError] for a string that
    is no integer literal, a [RangeError] for a number that is no
    integer). *)
Definition BigInt (v : numeric) : option bigint :=
  match v with
  | of_string s => BigInt_of_string s
  | of_number x => integer_value x
  | of_bigint z => Some z
  end.

End JS.

Import JS.

(* ===================================================================== *)
(** * The data model *)
(* ===================================================================== *)

(** The template-literal type [`0x${string}`]: the string ["0x"] followed
    by any string. *)
Record HexString := Hex { hex_suffix : string }.

Definition hex_string (h : HexString) : string := "0x" +:+ hex_suffix h.

Definition CURRENT_CHAIN_ADDRESS : string := "0xeeeeeeeeeeeeeeeeeeeeeeeeeeeeeeeeeeeeeeee".
Definition DEFAULT_SLIPPAGE_TOLERANCE : string := "0.5".

Inductive PriceDifferenceDirection := up | down | none.

Module TransactionParams.
Record t := {
  data : HexString;
  to : HexString;
  gas : bigint;
  gasPrice : bigint;
  value : bigint
}.
End TransactionParams.

(** What is thrown or what a promise rejects with. [TransactionError] adds
    [shortMessage] to [Error]; the handlers read it with [error?.shortMessage],
    which is [undefined] for any other value. *)
Record JsError := {
  error_name : string;
  message : string;
  shortMessage : option string
}.

Definition Error (msg : string) : JsError :=
  {| error_name := "Error"; message := msg; shortMessage := None |}.

Definition TransactionError (msg : string) (short : option string) : JsError :=
  {| error_name := "TransactionError"; message := msg; shortMessage := short |}.

(** What [BigInt(v)] throws when it does; the text of the message is the
    engine's own and is left empty. *)
Definition BigIntError (v : numeric) : JsError :=
  {| error_name := match v with of_string _ => "SyntaxError" | _ => "RangeError" end;
     message := ""; shortMessage := None |}.

Module TokenInfo.
Record t := {
  address : HexString;
  symbol : string;
  name : string;
  decimals : number;
  logoURI : string;
  domainVersion : option string;
  eip2612 : option bool;
  isFoT : option bool;
  tags : option (list string)
}.
End TokenInfo.

Module TokenInfoWithPrice.
Record t := {
  info : TokenInfo.t;
  price : string
}.
End TokenInfoWithPrice.

(** [TokenInfoWithBalance extends TokenInfo]: the fields of [TokenInfo]
    (kept together as [info]) and the two it adds. *)
Module TokenInfoWithBalance.
Record t := {
  info : TokenInfo.t;
  balance : string;
  price : string
}.
End TokenInfoWithBalance.

(** The observable state, field by field as in the interface. An optional
    field ([loading?: boolean]) or a field that admits [undefined] is an
    [option]; a [Record<string, T>] is a finite map from strings. *)
Record ConvertControllerState := {
  initialized : bool;
  loadingPrices : bool;
  loading : option bool;
  approvalTransaction : option TransactionParams.t;
  convertLoading : bool;
  convertTransaction : option TransactionParams.t;
  transactionLoading : option bool;
  transactionError : option string;
  sourceToken : option TokenInfo.t;
  sourceTokenAmount : string;
  sourceTokenPriceInUSD : number;
  toToken : option TokenInfo.t;
  toTokenAmount : string;
  toTokenPriceInUSD : number;
  networkPrice : string;
  networkAddress : option string;
  inputError : option string;
  slippage : string;
  tokens : option (gmap string TokenInfo.t);
  popularTokens : option (gmap string TokenInfo.t);
  foundTokens : option (list TokenInfo.t);
  myTokensWithBalance : option (gmap string TokenInfoWithBalance.t);
  tokensPriceMap : gmap string string;
  gasFee : bigint;
  gasPriceInUSD : option number;
  priceImpact : option number;
  maxSlippage : option number
}.

(** The value of [state] when the module is loaded. *)
Definition initial_state : ConvertControllerState := {|
  initialized := false;
  loading := Some false;
  loadingPrices := false;
  approvalTransaction := None;
  convertLoading := false;
  convertTransaction := None;
  transactionError := None;
  transactionLoading := Some false;
  sourceToken := None;
  sourceTokenAmount := "";
  sourceTokenPriceInUSD := 0;
  toToken := None;
  toTokenAmount := "";
  toTokenPriceInUSD := 0;
  networkPrice := "0";
  networkAddress := Some CURRENT_CHAIN_ADDRESS;
  inputError := None;
  slippage := DEFAULT_SLIPPAGE_TOLERANCE;
  tokens := None;
  popularTokens := None;
  foundTokens := None;
  myTokensWithBalance := None;
  tokensPriceMap := ∅;
  gasFee := 0%Z;
  gasPriceInUSD := Some 0%float;
  priceImpact := None;
  maxSlippage := None
|}.

(** ** Assignments to one field: [state.f = v] *)

Definition set_initialized (v : bool) (s : ConvertControllerState) : ConvertControllerState :=
  {| initialized := v; loadingPrices := loadingPrices s;
     loading := loading s; approvalTransaction := approvalTransaction s;
     convertLoading := convertLoading s;
     convertTransaction := convertTransaction s;
     transactionLoading := transactionLoading s;
     transactionError := transactionError s; sourceToken := sourceToken s;
     sourceTokenAmount := sourceTokenAmount s;
     sourceTokenPriceInUSD := sourceTokenPriceInUSD s; toToken := toToken s;
     toTokenAmount := toTokenAmount s;
     toTokenPriceInUSD := toTokenPriceInUSD s;
     networkPrice := networkPrice s; networkAddress := networkAddress s;
     inputError := inputError s; slippage := slippage s; tokens := tokens s;
     popularTokens := popularTokens s; foundTokens := foundTokens s;
     myTokensWithBalance := myTokensWithBalance s;
     tokensPriceMap := tokensPriceMap s; gasFee := gasFee s;
     gasPriceInUSD := gasPriceInUSD s; priceImpact := priceImpact s;
     maxSlippage := maxSlippage s |}.

Definition set_loading (v : option bool) (s : ConvertControllerState) : ConvertControllerState :=
  {| initialized := initialized s; loadingPrices := loadingPrices s;
     loading := v; approvalTransaction := approvalTransaction s;
     convertLoading := convertLoading s;
     convertTransaction := convertTransaction s;
     transactionLoading := transactionLoading s;
     transactionError := transactionError s; sourceToken := sourceToken s;
     sourceTokenAmount := sourceTokenAmount s;
     sourceTokenPriceInUSD := sourceTokenPriceInUSD s; toToken := toToken s;
     toTokenAmount := toTokenAmount s;
     toTokenPriceInUSD := toTokenPriceInUSD s;
     networkPrice := networkPrice s; networkAddress := networkAddress s;
     inputError := inputError s; slippage := slippage s; tokens := tokens s;
     popularTokens := popularTokens s; foundTokens := foundTokens s;
     myTokensWithBalance := myTokensWithBalance s;
     tokensPriceMap := tokensPriceMap s; gasFee := gasFee s;
     gasPriceInUSD := gasPriceInUSD s; priceImpact := priceImpact s;
     maxSlippage := maxSlippage s |}.

Definition set_approvalTransaction (v : option TransactionParams.t) (s : ConvertControllerState) : ConvertControllerState :=
  {| initialized := initialized s; loadingPrices := loadingPrices s;
     loading := loading s; approvalTransaction := v;
     convertLoading := convertLoading s;
     convertTransaction := convertTransaction s;
     transactionLoading := transactionLoading s;
     transactionError := transactionError s; sourceToken := sourceToken s;
     sourceTokenAmount := sourceTokenAmount s;
     sourceTokenPriceInUSD := sourceTokenPriceInUSD s; toToken := toToken s;
     toTokenAmount := toTokenAmount s;
     toTokenPriceInUSD := toTokenPriceInUSD s;
     networkPrice := networkPrice s; networkAddress := networkAddress s;
     inputError := inputError s; slippage := slippage s; tokens := tokens s;
     popularTokens := popularTokens s; foundTokens := foundTokens s;
     myTokensWithBalance := myTokensWithBalance s;
     tokensPriceMap := tokensPriceMap s; gasFee := gasFee s;
     gasPriceInUSD := gasPriceInUSD s; priceImpact := priceImpact s;
     maxSlippage := maxSlippage s |}.

Definition set_convertLoading (v : bool) (s : ConvertControllerState) : ConvertControllerState :=
  {| initialized := initialized s; loadingPrices := loadingPrices s;
     loading := loading s; approvalTransaction := approvalTransaction s;
     convertLoading := v; convertTransaction := convertTransaction s;
     transactionLoading := transactionLoading s;
     transactionError := transactionError s; sourceToken := sourceToken s;
     sourceTokenAmount := sourceTokenAmount s;
     sourceTokenPriceInUSD := sourceTokenPriceInUSD s; toToken := toToken s;
     toTokenAmount := toTokenAmount s;
     toTokenPriceInUSD := toTokenPriceInUSD s;
     networkPrice := networkPrice s; networkAddress := networkAddress s;
     inputError := inputError s; slippage := slippage s; tokens := tokens s;
     popularTokens := popularTokens s; foundTokens := foundTokens s;
     myTokensWithBalance := myTokensWithBalance s;
     tokensPriceMap := tokensPriceMap s; gasFee := gasFee s;
     gasPriceInUSD := gasPriceInUSD s; priceImpact := priceImpact s;
     maxSlippage := maxSlippage s |}.

Definition set_convertTransaction (v : option TransactionParams.t) (s : ConvertControllerState) : ConvertControllerState :=
  {| initialized := initialized s; loadingPrices := loadingPrices s;
     loading := loading s; approvalTransaction := approvalTransaction s;
     convertLoading := convertLoading s; convertTransaction := v;
     transactionLoading := transactionLoading s;
     transactionError := transactionError s; sourceToken := sourceToken s;
     sourceTokenAmount := sourceTokenAmount s;
     sourceTokenPriceInUSD := sourceTokenPriceInUSD s; toToken := toToken s;
     toTokenAmount := toTokenAmount s;
     toTokenPriceInUSD := toTokenPriceInUSD s;
     networkPrice := networkPrice s; networkAddress := networkAddress s;
     inputError := inputError s; slippage := slippage s; tokens := tokens s;
     popularTokens := popularTokens s; foundTokens := foundTokens s;
     myTokensWithBalance := myTokensWithBalance s;
     tokensPriceMap := tokensPriceMap s; gasFee := gasFee s;
     gasPriceInUSD := gasPriceInUSD s; priceImpact := priceImpact s;
     maxSlippage := maxSlippage s |}.

Definition set_transactionLoading (v : option bool) (s : ConvertControllerState) : ConvertControllerState :=
  {| initialized := initialized s; loadingPrices := loadingPrices s;
     loading := loading s; approvalTransaction := approvalTransaction s;
     convertLoading := convertLoading s;
     convertTransaction := convertTransaction s; transactionLoading := v;
     transactionError := transactionError s; sourceToken := sourceToken s;
     sourceTokenAmount := sourceTokenAmount s;
     sourceTokenPriceInUSD := sourceTokenPriceInUSD s; toToken := toToken s;
     toTokenAmount := toTokenAmount s;
     toTokenPriceInUSD := toTokenPriceInUSD s;
     networkPrice := networkPrice s; networkAddress := networkAddress s;
     inputError := inputError s; slippage := slippage s; tokens := tokens s;
     popularTokens := popularTokens s; foundTokens := foundTokens s;
     myTokensWithBalance := myTokensWithBalance s;
     tokensPriceMap := tokensPriceMap s; gasFee := gasFee s;
     gasPriceInUSD := gasPriceInUSD s; priceImpact := priceImpact s;
     maxSlippage := maxSlippage s |}.

Definition set_transactionError (v : option string) (s : ConvertControllerState) : ConvertControllerState :=
  {| initialized := initialized s; loadingPrices := loadingPrices s;
     loading := loading s; approvalTransaction := approvalTransaction s;
     convertLoading := convertLoading s;
     convertTransaction := convertTransaction s;
     transactionLoading := transactionLoading s; transactionError := v;
     sourceToken := sourceToken s; sourceTokenAmount := sourceTokenAmount s;
     sourceTokenPriceInUSD := sourceTokenPriceInUSD s; toToken := toToken s;
     toTokenAmount := toTokenAmount s;
     toTokenPriceInUSD := toTokenPriceInUSD s;
     networkPrice := networkPrice s; networkAddress := networkAddress s;
     inputError := inputError s; slippage := slippage s; tokens := tokens s;
     popularTokens := popularTokens s; foundTokens := foundTokens s;
     myTokensWithBalance := myTokensWithBalance s;
     tokensPriceMap := tokensPriceMap s; gasFee := gasFee s;
     gasPriceInUSD := gasPriceInUSD s; priceImpact := priceImpact s;
     maxSlippage := maxSlippage s |}.

Definition set_sourceToken (v : option TokenInfo.t) (s : ConvertControllerState) : ConvertControllerState :=
  {| initialized := initialized s; loadingPrices := loadingPrices s;
     loading := loading s; approvalTransaction := approvalTransaction s;
     convertLoading := convertLoading s;
     convertTransaction := convertTransaction s;
     transactionLoading := transactionLoading s;
     transactionError := transactionError s; sourceToken := v;
     sourceTokenAmount := sourceTokenAmount s;
     sourceTokenPriceInUSD := sourceTokenPriceInUSD s; toToken := toToken s;
     toTokenAmount := toTokenAmount s;
     toTokenPriceInUSD := toTokenPriceInUSD s;
     networkPrice := networkPrice s; networkAddress := networkAddress s;
     inputError := inputError s; slippage := slippage s; tokens := tokens s;
     popularTokens := popularTokens s; foundTokens := foundTokens s;
     myTokensWithBalance := myTokensWithBalance s;
     tokensPriceMap := tokensPriceMap s; gasFee := gasFee s;
     gasPriceInUSD := gasPriceInUSD s; priceImpact := priceImpact s;
     maxSlippage := maxSlippage s |}.

Definition set_sourceTokenAmount (v : string) (s : ConvertControllerState) : ConvertControllerState :=
  {| initialized := initialized s; loadingPrices := loadingPrices s;
     loading := loading s; approvalTransaction := approvalTransaction s;
     convertLoading := convertLoading s;
     convertTransaction := convertTransaction s;
     transactionLoading := transactionLoading s;
     transactionError := transactionError s; sourceToken := sourceToken s;
     sourceTokenAmount := v;
     sourceTokenPriceInUSD := sourceTokenPriceInUSD s; toToken := toToken s;
     toTokenAmount := toTokenAmount s;
     toTokenPriceInUSD := toTokenPriceInUSD s;
     networkPrice := networkPrice s; networkAddress := networkAddress s;
     inputError := inputError s; slippage := slippage s; tokens := tokens s;
     popularTokens := popularTokens s; foundTokens := foundTokens s;
     myTokensWithBalance := myTokensWithBalance s;
     tokensPriceMap := tokensPriceMap s; gasFee := gasFee s;
     gasPriceInUSD := gasPriceInUSD s; priceImpact := priceImpact s;
     maxSlippage := maxSlippage s |}.

Definition set_sourceTokenPriceInUSD (v : number) (s : ConvertControllerState) : ConvertControllerState :=
  {| initialized := initialized s; loadingPrices := loadingPrices s;
     loading := loading s; approvalTransaction := approvalTransaction s;
     convertLoading := convertLoading s;
     convertTransaction := convertTransaction s;
     transactionLoading := transactionLoading s;
     transactionError := transactionError s; sourceToken := sourceToken s;
     sourceTokenAmount := sourceTokenAmount s; sourceTokenPriceInUSD := v;
     toToken := toToken s; toTokenAmount := toTokenAmount s;
     toTokenPriceInUSD := toTokenPriceInUSD s;
     networkPrice := networkPrice s; networkAddress := networkAddress s;
     inputError := inputError s; slippage := slippage s; tokens := tokens s;
     popularTokens := popularTokens s; foundTokens := foundTokens s;
     myTokensWithBalance := myTokensWithBalance s;
     tokensPriceMap := tokensPriceMap s; gasFee := gasFee s;
     gasPriceInUSD := gasPriceInUSD s; priceImpact := priceImpact s;
     maxSlippage := maxSlippage s |}.

Definition set_toToken (v : option TokenInfo.t) (s : ConvertControllerState) : ConvertControllerState :=
  {| initialized := initialized s; loadingPrices := loadingPrices s;
     loading := loading s; approvalTransaction := approvalTransaction s;
     convertLoading := convertLoading s;
     convertTransaction := convertTransaction s;
     transactionLoading := transactionLoading s;
     transactionError := transactionError s; sourceToken := sourceToken s;
     sourceTokenAmount := sourceTokenAmount s;
     sourceTokenPriceInUSD := sourceTokenPriceInUSD s; toToken := v;
     toTokenAmount := toTokenAmount s;
     toTokenPriceInUSD := toTokenPriceInUSD s;
     networkPrice := networkPrice s; networkAddress := networkAddress s;
     inputError := inputError s; slippage := slippage s; tokens := tokens s;
     popularTokens := popularTokens s; foundTokens := foundTokens s;
     myTokensWithBalance := myTokensWithBalance s;
     tokensPriceMap := tokensPriceMap s; gasFee := gasFee s;
     gasPriceInUSD := gasPriceInUSD s; priceImpact := priceImpact s;
     maxSlippage := maxSlippage s |}.

Definition set_toTokenAmount (v : string) (s : ConvertControllerState) : ConvertControllerState :=
  {| initialized := initialized s; loadingPrices := loadingPrices s;
     loading := loading s; approvalTransaction := approvalTransaction s;
     convertLoading := convertLoading s;
     convertTransaction := convertTransaction s;
     transactionLoading := transactionLoading s;
     transactionError := transactionError s; sourceToken := sourceToken s;
     sourceTokenAmount := sourceTokenAmount s;
     sourceTokenPriceInUSD := sourceTokenPriceInUSD s; toToken := toToken s;
     toTokenAmount := v; toTokenPriceInUSD := toTokenPriceInUSD s;
     networkPrice := networkPrice s; networkAddress := networkAddress s;
     inputError := inputError s; slippage := slippage s; tokens := tokens s;
     popularTokens := popularTokens s; foundTokens := foundTokens s;
     myTokensWithBalance := myTokensWithBalance s;
     tokensPriceMap := tokensPriceMap s; gasFee := gasFee s;
     gasPriceInUSD := gasPriceInUSD s; priceImpact := priceImpact s;
     maxSlippage := maxSlippage s |}.

Definition set_toTokenPriceInUSD (v : number) (s : ConvertControllerState) : ConvertControllerState :=
  {| initialized := initialized s; loadingPrices := loadingPrices s;
     loading := loading s; approvalTransaction := approvalTransaction s;
     convertLoading := convertLoading s;
     convertTransaction := convertTransaction s;
     transactionLoading := transactionLoading s;
     transactionError := transactionError s; sourceToken := sourceToken s;
     sourceTokenAmount := sourceTokenAmount s;
     sourceTokenPriceInUSD := sourceTokenPriceInUSD s; toToken := toToken s;
     toTokenAmount := toTokenAmount s; toTokenPriceInUSD := v;
     networkPrice := networkPrice s; networkAddress := networkAddress s;
     inputError := inputError s; slippage := slippage s; tokens := tokens s;
     popularTokens := popularTokens s; foundTokens := foundTokens s;
     myTokensWithBalance := myTokensWithBalance s;
     tokensPriceMap := tokensPriceMap s; gasFee := gasFee s;
     gasPriceInUSD := gasPriceInUSD s; priceImpact := priceImpact s;
     maxSlippage := maxSlippage s |}.

Definition set_networkPrice (v : string) (s : ConvertControllerState) : ConvertControllerState :=
  {| initialized := initialized s; loadingPrices := loadingPrices s;
     loading := loading s; approvalTransaction := approvalTransaction s;
     convertLoading := convertLoading s;
     convertTransaction := convertTransaction s;
     transactionLoading := transactionLoading s;
     transactionError := transactionError s; sourceToken := sourceToken s;
     sourceTokenAmount := sourceTokenAmount s;
     sourceTokenPriceInUSD := sourceTokenPriceInUSD s; toToken := toToken s;
     toTokenAmount := toTokenAmount s;
     toTokenPriceInUSD := toTokenPriceInUSD s; networkPrice := v;
     networkAddress := networkAddress s; inputError := inputError s;
     slippage := slippage s; tokens := tokens s;
     popularTokens := popularTokens s; foundTokens := foundTokens s;
     myTokensWithBalance := myTokensWithBalance s;
     tokensPriceMap := tokensPriceMap s; gasFee := gasFee s;
     gasPriceInUSD := gasPriceInUSD s; priceImpact := priceImpact s;
     maxSlippage := maxSlippage s |}.

Definition set_inputError (v : option string) (s : ConvertControllerState) : ConvertControllerState :=
  {| initialized := initialized s; loadingPrices := loadingPrices s;
     loading := loading s; approvalTransaction := approvalTransaction s;
     convertLoading := convertLoading s;
     convertTransaction := convertTransaction s;
     transactionLoading := transactionLoading s;
     transactionError := transactionError s; sourceToken := sourceToken s;
     sourceTokenAmount := sourceTokenAmount s;
     sourceTokenPriceInUSD := sourceTokenPriceInUSD s; toToken := toToken s;
     toTokenAmount := toTokenAmount s;
     toTokenPriceInUSD := toTokenPriceInUSD s;
     networkPrice := networkPrice s; networkAddress := networkAddress s;
     inputError := v; slippage := slippage s; tokens := tokens s;
     popularTokens := popularTokens s; foundTokens := foundTokens s;
     myTokensWithBalance := myTokensWithBalance s;
     tokensPriceMap := tokensPriceMap s; gasFee := gasFee s;
     gasPriceInUSD := gasPriceInUSD s; priceImpact := priceImpact s;
     maxSlippage := maxSlippage s |}.

Definition set_tokens (v : option (gmap string TokenInfo.t)) (s : ConvertControllerState) : ConvertControllerState :=
  {| initialized := initialized s; loadingPrices := loadingPrices s;
     loading := loading s; approvalTransaction := approvalTransaction s;
     convertLoading := convertLoading s;
     convertTransaction := convertTransaction s;
     transactionLoading := transactionLoading s;
     transactionError := transactionError s; sourceToken := sourceToken s;
     sourceTokenAmount := sourceTokenAmount s;
     sourceTokenPriceInUSD := sourceTokenPriceInUSD s; toToken := toToken s;
     toTokenAmount := toTokenAmount s;
     toTokenPriceInUSD := toTokenPriceInUSD s;
     networkPrice := networkPrice s; networkAddress := networkAddress s;
     inputError := inputError s; slippage := slippage s; tokens := v;
     popularTokens := popularTokens s; foundTokens := foundTokens s;
     myTokensWithBalance := myTokensWithBalance s;
     tokensPriceMap := tokensPriceMap s; gasFee := gasFee s;
     gasPriceInUSD := gasPriceInUSD s; priceImpact := priceImpact s;
     maxSlippage := maxSlippage s |}.

Definition set_popularTokens (v : option (gmap string TokenInfo.t)) (s : ConvertControllerState) : ConvertControllerState :=
  {| initialized := initialized s; loadingPrices := loadingPrices s;
     loading := loading s; approvalTransaction := approvalTransaction s;
     convertLoading := convertLoading s;
     convertTransaction := convertTransaction s;
     transactionLoading := transactionLoading s;
     transactionError := transactionError s; sourceToken := sourceToken s;
     sourceTokenAmount := sourceTokenAmount s;
     sourceTokenPriceInUSD := sourceTokenPriceInUSD s; toToken := toToken s;
     toTokenAmount := toTokenAmount s;
     toTokenPriceInUSD := toTokenPriceInUSD s;
     networkPrice := networkPrice s; networkAddress := networkAddress s;
     inputError := inputError s; slippage := slippage s; tokens := tokens s;
     popularTokens := v; foundTokens := foundTokens s;
     myTokensWithBalance := myTokensWithBalance s;
     tokensPriceMap := tokensPriceMap s; gasFee := gasFee s;
     gasPriceInUSD := gasPriceInUSD s; priceImpact := priceImpact s;
     maxSlippage := maxSlippage s |}.

Definition set_foundTokens (v : option (list TokenInfo.t)) (s : ConvertControllerState) : ConvertControllerState :=
  {| initialized := initialized s; loadingPrices := loadingPrices s;
     loading := loading s; approvalTransaction := approvalTransaction s;
     convertLoading := convertLoading s;
     convertTransaction := convertTransaction s;
     transactionLoading := transactionLoading s;
     transactionError := transactionError s; sourceToken := sourceToken s;
     sourceTokenAmount := sourceTokenAmount s;
     sourceTokenPriceInUSD := sourceTokenPriceInUSD s; toToken := toToken s;
     toTokenAmount := toTokenAmount s;
     toTokenPriceInUSD := toTokenPriceInUSD s;
     networkPrice := networkPrice s; networkAddress := networkAddress s;
     inputError := inputError s; slippage := slippage s; tokens := tokens s;
     popularTokens := popularTokens s; foundTokens := v;
     myTokensWithBalance := myTokensWithBalance s;
     tokensPriceMap := tokensPriceMap s; gasFee := gasFee s;
     gasPriceInUSD := gasPriceInUSD s; priceImpact := priceImpact s;
     maxSlippage := maxSlippage s |}.

Definition set_myTokensWithBalance (v : option (gmap string TokenInfoWithBalance.t)) (s : ConvertControllerState) : ConvertControllerState :=
  {| initialized := initialized s; loadingPrices := loadingPrices s;
     loading := loading s; approvalTransaction := approvalTransaction s;
     convertLoading := convertLoading s;
     convertTransaction := convertTransaction s;
     transactionLoading := transactionLoading s;
     transactionError := transactionError s; sourceToken := sourceToken s;
     sourceTokenAmount := sourceTokenAmount s;
     sourceTokenPriceInUSD := sourceTokenPriceInUSD s; toToken := toToken s;
     toTokenAmount := toTokenAmount s;
     toTokenPriceInUSD := toTokenPriceInUSD s;
     networkPrice := networkPrice s; networkAddress := networkAddress s;
     inputError := inputError s; slippage := slippage s; tokens := tokens s;
     popularTokens := popularTokens s; foundTokens := foundTokens s;
     myTokensWithBalance := v; tokensPriceMap := tokensPriceMap s;
     gasFee := gasFee s; gasPriceInUSD := gasPriceInUSD s;
     priceImpact := priceImpact s; maxSlippage := maxSlippage s |}.

Definition set_tokensPriceMap (v : gmap string string) (s : ConvertControllerState) : ConvertControllerState :=
  {| initialized := initialized s; loadingPrices := loadingPrices s;
     loading := loading s; approvalTransaction := approvalTransaction s;
     convertLoading := convertLoading s;
     convertTransaction := convertTransaction s;
     transactionLoading := transactionLoading s;
     transactionError := transactionError s; sourceToken := sourceToken s;
     sourceTokenAmount := sourceTokenAmount s;
     sourceTokenPriceInUSD := sourceTokenPriceInUSD s; toToken := toToken s;
     toTokenAmount := toTokenAmount s;
     toTokenPriceInUSD := toTokenPriceInUSD s;
     networkPrice := networkPrice s; networkAddress := networkAddress s;
     inputError := inputError s; slippage := slippage s; tokens := tokens s;
     popularTokens := popularTokens s; foundTokens := foundTokens s;
     myTokensWithBalance := myTokensWithBalance s; tokensPriceMap := v;
     gasFee := gasFee s; gasPriceInUSD := gasPriceInUSD s;
     priceImpact := priceImpact s; maxSlippage := maxSlippage s |}.

Definition set_gasFee (v : bigint) (s : ConvertControllerState) : ConvertControllerState :=
  {| initialized := initialized s; loadingPrices := loadingPrices s;
     loading := loading s; approvalTransaction := approvalTransaction s;
     convertLoading := convertLoading s;
     convertTransaction := convertTransaction s;
     transactionLoading := transactionLoading s;
     transactionError := transactionError s; sourceToken := sourceToken s;
     sourceTokenAmount := sourceTokenAmount s;
     sourceTokenPriceInUSD := sourceTokenPriceInUSD s; toToken := toToken s;
     toTokenAmount := toTokenAmount s;
     toTokenPriceInUSD := toTokenPriceInUSD s;
     networkPrice := networkPrice s; networkAddress := networkAddress s;
     inputError := inputError s; slippage := slippage s; tokens := tokens s;
     popularTokens := popularTokens s; foundTokens := foundTokens s;
     myTokensWithBalance := myTokensWithBalance s;
     tokensPriceMap := tokensPriceMap s; gasFee := v;
     gasPriceInUSD := gasPriceInUSD s; priceImpact := priceImpact s;
     maxSlippage := maxSlippage s |}.

Definition set_gasPriceInUSD (v : option number) (s : ConvertControllerState) : ConvertControllerState :=
  {| initialized := initialized s; loadingPrices := loadingPrices s;
     loading := loading s; approvalTransaction := approvalTransaction s;
     convertLoading := convertLoading s;
     convertTransaction := convertTransaction s;
     transactionLoading := transactionLoading s;
     transactionError := transactionError s; sourceToken := sourceToken s;
     sourceTokenAmount := sourceTokenAmount s;
     sourceTokenPriceInUSD := sourceTokenPriceInUSD s; toToken := toToken s;
     toTokenAmount := toTokenAmount s;
     toTokenPriceInUSD := toTokenPriceInUSD s;
     networkPrice := networkPrice s; networkAddress := networkAddress s;
     inputError := inputError s; slippage := slippage s; tokens := tokens s;
     popularTokens := popularTokens s; foundTokens := foundTokens s;
     myTokensWithBalance := myTokensWithBalance s;
     tokensPriceMap := tokensPriceMap s; gasFee := gasFee s;
     gasPriceInUSD := v; priceImpact := priceImpact s;
     maxSlippage := maxSlippage s |}.

Definition set_priceImpact (v : option number) (s : ConvertControllerState) : ConvertControllerState :=
  {| initialized := initialized s; loadingPrices := loadingPrices s;
     loading := loading s; approvalTransaction := approvalTransaction s;
     convertLoading := convertLoading s;
     convertTransaction := convertTransaction s;
     transactionLoading := transactionLoading s;
     transactionError := transactionError s; sourceToken := sourceToken s;
     sourceTokenAmount := sourceTokenAmount s;
     sourceTokenPriceInUSD := sourceTokenPriceInUSD s; toToken := toToken s;
     toTokenAmount := toTokenAmount s;
     toTokenPriceInUSD := toTokenPriceInUSD s;
     networkPrice := networkPrice s; networkAddress := networkAddress s;
     inputError := inputError s; slippage := slippage s; tokens := tokens s;
     popularTokens := popularTokens s; foundTokens := foundTokens s;
     myTokensWithBalance := myTokensWithBalance s;
     tokensPriceMap := tokensPriceMap s; gasFee := gasFee s;
     gasPriceInUSD := gasPriceInUSD s; priceImpact := v;
     maxSlippage := maxSlippage s |}.

Definition set_maxSlippage (v : option number) (s : ConvertControllerState) : ConvertControllerState :=
  {| initialized := initialized s; loadingPrices := loadingPrices s;
     loading := loading s; approvalTransaction := approvalTransaction s;
     convertLoading := convertLoading s;
     convertTransaction := convertTransaction s;
     transactionLoading := transactionLoading s;
     transactionError := transactionError s; sourceToken := sourceToken s;
     sourceTokenAmount := sourceTokenAmount s;
     sourceTokenPriceInUSD := sourceTokenPriceInUSD s; toToken := toToken s;
     toTokenAmount := toTokenAmount s;
     toTokenPriceInUSD := toTokenPriceInUSD s;
     networkPrice := networkPrice s; networkAddress := networkAddress s;
     inputError := inputError s; slippage := slippage s; tokens := tokens s;
     popularTokens := popularTokens s; foundTokens := foundTokens s;
     myTokensWithBalance := myTokensWithBalance s;
     tokensPriceMap := tokensPriceMap s; gasFee := gasFee s;
     gasPriceInUSD := gasPriceInUSD s; priceImpact := priceImpact s;
     maxSlippage := v |}.

(* ===================================================================== *)
(** * The sibling controllers *)
(* ===================================================================== *)

(** The controller reaches [ConvertApiController], [ConnectionController],
    [AccountController], [SnackController], [RouterController] and
    [ConstantsUtil]. None of them is part of this file; they appear here as
    an interface: the requests that return a promise, the calls made for
    their effect, and what is read from them synchronously. *)

Record TokenListResponse := { res_tokens : gmap string TokenInfo.t }.

(** [getGasPrice()]: only [res.instant.maxFeePerGas] is read. *)
Record GasPriceResponse := { instant_maxFeePerGas : numeric }.

Module ApprovalData.
Record t := {
  to : HexString;
  data : HexString;
  gasPrice : numeric;
  value : numeric
}.
End ApprovalData.

(** [getConvertData(...)]: only [response.tx] is read. *)
Module ConvertTx.
Record t := {
  data : HexString;
  to : HexString;
  gas : numeric;
  gasPrice : numeric;
  value : numeric
}.
End ConvertTx.

Module AllowanceArgs.
Record t := {
  fromAddress : string;
  sourceTokenAddress : HexString;
  sourceTokenAmount : string;
  sourceTokenDecimals : number
}.
End AllowanceArgs.

Module ConvertDataArgs.
Record t := {
  fromAddress : string;
  sourceTokenAddress : HexString;
  sourceTokenAmount : string;
  toTokenAddress : HexString;
  decimals : number
}.
End ConvertDataArgs.

Module EstimateGasArgs.
Record t := {
  address : string;
  to : HexString;
  data : HexString
}.
End EstimateGasArgs.

(** The argument of [ConnectionController.sendTransaction]; the approval
    path passes no [gas]. *)
Module SendTransactionArgs.
Record t := {
  address : string;
  to : HexString;
  data : HexString;
  gas : option bigint;
  gasPrice : bigint;
  value : bigint
}.
End SendTransactionArgs.

(** The requests that return a promise, indexed by what the promise
    resolves to. *)
Inductive Request : Type -> Type :=
| Api_getTokenList : Request TokenListResponse
| Api_getTokenPriceWithAddresses (addresses : list string) : Request (gmap string string)
| Api_getMyTokensWithBalance : Request (option (gmap string TokenInfoWithBalance.t))
| Api_getGasPrice : Request GasPriceResponse
| Api_checkConvertAllowance (args : AllowanceArgs.t) : Request bool
| Api_getConvertApprovalData (sourceTokenAddress : HexString) : Request ApprovalData.t
| Api_getConvertData (args : ConvertDataArgs.t) : Request ConvertTx.t
| Connection_getEstimatedGas (args : EstimateGasArgs.t) : Request bigint
| Connection_sendTransaction (args : SendTransactionArgs.t) : Request (option string).

(** How a promise settles. *)
Inductive Response (X : Type) : Type :=
| Resolved (x : X)
| Rejected (e : JsError).
Arguments Resolved {X} x.
Arguments Rejected {X} e.

(** The calls made for their effect only. *)
Inductive Effect :=
| Snack_showError (msg : string)
| Router_replace (view : string).

(** What crosses the border of the controller, in order. *)
Inductive Event :=
| Requested {X : Type} (r : Request X)
| Emitted (e : Effect).

(** What the controller reads synchronously from its siblings. *)
Record Surroundings := {
  account_address : option string;           (* AccountController.state.address *)
  formatUnits : bigint -> number -> string;  (* ConnectionController.formatUnits *)
  POPULAR_TOKENS : list string               (* ConstantsUtil.POPULAR_TOKENS *)
}.

(** The world around the controller: what it reads, and how each request
    settles. The answer may depend on the request and on how many events
    came before it, so that the same request can be answered differently at
    different times. *)
Record Env := {
  surroundings : Surroundings;
  respond : forall X : Type, Request X -> nat -> Response X
}.

(* ===================================================================== *)
(** * Procedures *)
(* ===================================================================== *)

(** A procedure of the controller is a tree of the steps it can take. The
    tree is finite: the controller has no loop and no recursion. *)
Inductive Prog (A : Type) : Type :=
| Ret (a : A)                                   (* return a *)
| Throw (e : JsError)                           (* throw e *)
| Get (k : ConvertControllerState -> Prog A)    (* read state *)
| Put (s : ConvertControllerState) (k : Prog A) (* write state *)
| Ask (k : Surroundings -> Prog A)              (* read a sibling *)
| Await (X : Type) (r : Request X) (k : Response X -> Prog A)
                                                (* await a sibling's promise *)
| Tick (k : Prog A)                             (* await a settled promise *)
| Emit (e : Effect) (k : Prog A)                (* call a sibling for effect *)
| Spawn (p : Prog unit) (k : Prog A)            (* call an async function, no await *)
| SetTimeout (p : Prog unit) (ms : number) (k : Prog A).
Arguments Ret {A} a.
Arguments Throw {A} e.
Arguments Get {A} k.
Arguments Put {A} s k.
Arguments Ask {A} k.
Arguments Await {A X} r k.
Arguments Tick {A} k.
Arguments Emit {A} e k.
Arguments Spawn {A} p k.
Arguments SetTimeout {A} p ms k.

Fixpoint bind {A B : Type} (p : Prog A) (f : A -> Prog B) : Prog B :=
  match p with
  | Ret a => f a
  | Throw e => Throw e
  | Get k => Get (fun s => bind (k s) f)
  | Put s k => Put s (bind k f)
  | Ask k => Ask (fun c => bind (k c) f)
  | Await r k => Await r (fun x => bind (k x) f)
  | Tick k => Tick (bind k f)
  | Emit e k => Emit e (bind k f)
  | Spawn q k => Spawn q (bind k f)
  | SetTimeout q ms k => SetTimeout q ms (bind k f)
  end.

Declare Scope prog_scope.
Delimit Scope prog_scope with prog.
Bind Scope prog_scope with Prog.
Notation "x <- p ;; q" := (bind p (fun x => q))
  (at level 100, p at next level, q at level 200, right associativity) : prog_scope.
Notation "p ;; q" := (bind p (fun _ => q))
  (at level 100, q at level 200, right associativity) : prog_scope.
Open Scope prog_scope.

Definition get : Prog ConvertControllerState := Get Ret.
Definition modify (f : ConvertControllerState -> ConvertControllerState) : Prog unit :=
  Get (fun s => Put (f s) (Ret tt)).
Definition ask : Prog Surroundings := Ask Ret.
Definition emit (e : Effect) : Prog unit := Emit e (Ret tt).
Definition spawn {A} (p : Prog A) : Prog unit := Spawn (p ;; Ret tt) (Ret tt).
Definition setTimeout (p : Prog unit) (ms : number) : Prog unit := SetTimeout p ms (Ret tt).

(** [await r] for a sibling's promise outside any [try]: a rejection is
    thrown. *)
Definition request {X} (r : Request X) : Prog X :=
  Await r (fun x => match x with Resolved v => Ret v | Rejected e => Throw e end).

(** [await p] for a call [p] of one of the controller's own async
    functions: the caller resumes in a later job even when [p] finished
    without waiting. *)
Definition await {A} (p : Prog A) : Prog A := x <- p ;; Tick (Ret x).

(** ** Running a procedure *)

Inductive Outcome (A : Type) : Type :=
| Returned (a : A)
| Thrown (e : JsError).
Arguments Returned {A} a.
Arguments Thrown {A} e.

(** The controller's state together with the history of the run: the
    events so far (oldest first), the continuations of the calls that were
    started and not awaited, the timers set, and the rejections nobody
    handles. *)
Record World := {
  state : ConvertControllerState;
  trace : list Event;
  pending : list (Prog unit);
  timers : list (number * Prog unit);
  unhandled : list JsError
}.

Definition with_state (s : ConvertControllerState) (w : World) : World :=
  {| state := s; trace := trace w; pending := pending w; timers := timers w;
     unhandled := unhandled w |}.
Definition log (e : Event) (w : World) : World :=
  {| state := state w; trace := trace w ++ [e]; pending := pending w;
     timers := timers w; unhandled := unhandled w |}.
Definition defer (p : Prog unit) (w : World) : World :=
  {| state := state w; trace := trace w; pending := pending w ++ [p];
     timers := timers w; unhandled := unhandled w |}.
Definition add_timer (ms : number) (p : Prog unit) (w : World) : World :=
  {| state := state w; trace := trace w; pending := pending w;
     timers := timers w ++ [(ms, p)]; unhandled := unhandled w |}.
Definition report (e : JsError) (w : World) : World :=
  {| state := state w; trace := trace w; pending := pending w;
     timers := timers w; unhandled := unhandled w ++ [e] |}.
Definition clear_pending (w : World) : World :=
  {| state := state w; trace := trace w; pending := [];
     timers := timers w; unhandled := unhandled w |}.

Definition new_world (s : ConvertControllerState) : World :=
  {| state := s; trace := []; pending := []; timers := []; unhandled := [] |}.

Section Run.

Variable env : Env.

(** The answer to [r] when it is sent in world [w]. *)
Definition answer {X} (r : Request X) (w : World) : Response X :=
  respond env X r (length (trace w)).

(** [start p w]: an async function called without [await]. It runs up to
    its first [await]; a request it waits for is sent at once, and what
    comes after is put aside until the event loop gets to it. An
    exception ends it as a rejected promise nobody looks at. *)
Fixpoint start (p : Prog unit) (w : World) : World :=
  match p with
  | Ret _ => w
  | Throw e => report e w
  | Get k => start (k (state w)) w
  | Put s k => start k (with_state s w)
  | Ask k => start (k (surroundings env)) w
  | Await r k => defer (k (answer r w)) (log (Requested r) w)
  | Tick k => defer k w
  | Emit e k => start k (log (Emitted e) w)
  | Spawn q k => start k (start q w)
  | SetTimeout q ms k => start k (add_timer ms q w)
  end.

(** [exec p w]: the procedure [p] run from world [w] until it returns or
    throws, every promise it awaits settling before anything else runs. *)
Fixpoint exec {A} (p : Prog A) (w : World) : Outcome A * World :=
  match p with
  | Ret a => (Returned a, w)
  | Throw e => (Thrown e, w)
  | Get k => exec (k (state w)) w
  | Put s k => exec k (with_state s w)
  | Ask k => exec (k (surroundings env)) w
  | Await r k => exec (k (answer r w)) (log (Requested r) w)
  | Tick k => exec k w
  | Emit e k => exec k (log (Emitted e) w)
  | Spawn q k => exec k (start q w)
  | SetTimeout q ms k => exec k (add_timer ms q w)
  end.

(** One job of the event loop run to its end; an exception is a
    rejection nobody handles. *)
Definition finish (w : World) (job : Prog unit) : World :=
  match exec job w with
  | (Returned _, w') => w'
  | (Thrown e, w') => report e w'
  end.

(** The event loop takes up what was put aside, oldest first. *)
Definition settle (w : World) : World :=
  foldl finish (clear_pending w) (pending w).

(** The timers fire, oldest first. *)
Definition fire_timers (w : World) : World :=
  foldl finish
    {| state := state w; trace := trace w; pending := pending w; timers := [];
       unhandled := unhandled w |}
    (snd <$> timers w).

End Run.

(* ===================================================================== *)
(** * The controller *)
(* ===================================================================== *)

(** What [getParams] returns. *)
Module Params.
Record t := {
  fromAddress : string;
  sourceTokenAddress : option HexString;
  toTokenAddress : option HexString;
  toTokenAmount : string;
  toTokenDecimals : option number;
  sourceTokenAmount : string;
  sourceTokenDecimals : option number
}.
End Params.

(** [Object.entries(o)] for a record used as a map. A finite map keeps no
    order of insertion; nothing below depends on the order. *)
Definition object_entries {V} (o : gmap string V) : list (string * V) := map_to_list o.

Module ConvertController.

(** The procedures follow the source; a procedure that another one calls
    comes before its caller. *)

Definition getParams : Prog Params.t :=
  c <- ask ;;
  match account_address c with
  | Some address =>
      if truthy_string address then
        s <- get ;;
        Ret {| Params.fromAddress := address;
               Params.sourceTokenAddress := TokenInfo.address <$> sourceToken s;
               Params.toTokenAddress := TokenInfo.address <$> toToken s;
               Params.toTokenAmount := toTokenAmount s;
               Params.toTokenDecimals := TokenInfo.decimals <$> toToken s;
               Params.sourceTokenAmount := sourceTokenAmount s;
               Params.sourceTokenDecimals := TokenInfo.decimals <$> sourceToken s |}
      else Throw (Error "No address found to swap the tokens from.")
  | None => Throw (Error "No address found to swap the tokens from.")
  end.

Definition getAddressPrice (address : string) : Prog number :=
  s <- get ;;
  let existPrice := tokensPriceMap s !! address in
  if truthy_opt truthy_string existPrice then Ret (parseFloat (default "" existPrice))
  else
    prices <- request (Api_getTokenPriceWithAddresses [address]) ;;
    let price := or_string (prices !! address) "0" in
    modify (fun s => set_tokensPriceMap (<[address := price]> (tokensPriceMap s)) s) ;;
    Ret (parseFloat price).

Definition setTokenPriceToMap (address : string) : Prog string :=
  prices <- request (Api_getTokenPriceWithAddresses [address]) ;;
  let price := or_string (prices !! address) "0" in
  modify (fun s => set_tokensPriceMap (<[address := price]> (tokensPriceMap s)) s) ;;
  (if String.eqb address CURRENT_CHAIN_ADDRESS then modify (set_networkPrice price)
   else Ret tt) ;;
  Ret price.

Definition setSourceToken (sourceToken : option TokenInfo.t) : Prog unit :=
  match sourceToken with
  | None => Ret tt
  | Some token =>
      modify (set_sourceToken (Some token)) ;;
      s <- get ;;
      let address := hex_string (TokenInfo.address token) in
      if truthy_string address
         && negb (truthy_opt truthy_string (tokensPriceMap s !! address))
      then spawn (setTokenPriceToMap address)
      else Ret tt
  end.

Definition checkSourceTokenValues (address amount : string) : Prog unit :=
  s <- get ;;
  let balance :=
    or_string (TokenInfoWithBalance.balance <$> (myTokensWithBalance s ≫= (.!! address))) "0" in
  price <- await (getAddressPrice address) ;;
  let balancePriceInUSD := (parseFloat balance * price)%float in
  let amountPriceInUSD := (parseFloat amount * price)%float in
  let insufficientBalance := (balancePriceInUSD <? amountPriceInUSD)%float in
  modify (set_sourceTokenPriceInUSD price) ;;
  modify (set_inputError (if insufficientBalance then Some "Insufficient balance" else None)) ;;
  if insufficientBalance then
    modify (set_toTokenAmount "0") ;;
    modify (set_toTokenPriceInUSD 0)
  else Ret tt.

Definition setSourceTokenAmount (amount : string) : Prog unit :=
  p <- getParams ;;
  modify (set_sourceTokenAmount amount) ;;
  match Params.sourceTokenAddress p with
  | Some sourceTokenAddress =>
      if truthy_string (hex_string sourceTokenAddress)
      then spawn (checkSourceTokenValues (hex_string sourceTokenAddress) amount)
      else Throw (Error "No source token address found")
  | None => Throw (Error "No source token address found")
  end.

Definition setToTokenAmount (amount : string) : Prog unit :=
  modify (set_toTokenAmount amount).

Definition checkToTokenValues (address : string) : Prog unit :=
  price <- await (setTokenPriceToMap address) ;;
  modify (set_toTokenPriceInUSD (parseFloat price)).

Definition setToToken (toToken : option TokenInfo.t) : Prog unit :=
  match toToken with
  | None => Ret tt
  | Some token =>
      let address := hex_string (TokenInfo.address token) in
      if negb (truthy_string address) then Ret tt
      else
        modify (set_toToken (Some token)) ;;
        s <- get ;;
        if truthy_opt truthy_string (tokensPriceMap s !! address)
        then modify (set_toTokenPriceInUSD (parseFloat (or_string (tokensPriceMap s !! address) "0")))
        else spawn (checkToTokenValues address)
  end.

Definition setLoading (isLoading : bool) : Prog unit :=
  modify (set_loading (Some isLoading)).

(** [{ ...state.toToken }] is a copy with the same fields. *)
Definition switchTokens : Prog unit :=
  s <- get ;;
  let newSourceToken := toToken s in
  let newToToken := sourceToken s in
  setSourceToken newSourceToken ;;
  setToToken newToToken ;;
  modify (set_sourceTokenAmount "") ;;
  modify (set_toTokenAmount "").

Definition clearFoundTokens : Prog unit := modify (set_foundTokens None).

Definition clearTokens : Prog unit := modify (set_tokens None).

Definition resetState : Prog unit :=
  modify (set_sourceToken None) ;;
  modify (set_toToken None) ;;
  modify (set_sourceTokenAmount "0") ;;
  modify (set_toTokenAmount "0") ;;
  modify (set_sourceTokenPriceInUSD 0) ;;
  modify (set_toTokenPriceInUSD 0) ;;
  modify (set_gasPriceInUSD (Some 0%float)).

Definition clearMyTokens : Prog unit := modify (set_myTokensWithBalance None).

Definition clearError : Prog unit := modify (set_transactionError None).

(** The entries are sorted by symbol before the fold; the order only
    fixes the order in which the result enumerates. *)
Definition getTokenList : Prog (option (gmap string TokenInfo.t)) :=
  res <- request Api_getTokenList ;;
  c <- ask ;;
  modify (set_tokens (Some (res_tokens res))) ;;
  modify (set_popularTokens (Some (
    foldl (fun limitedTokens '(tokenAddress, tokenInfo) =>
             if bool_decide (TokenInfo.symbol tokenInfo ∈ POPULAR_TOKENS c)
             then <[tokenAddress := tokenInfo]> limitedTokens
             else limitedTokens)
          ∅ (object_entries (res_tokens res))))) ;;
  s <- get ;;
  Ret (tokens s).

Definition getNetworkTokenPrice : Prog unit :=
  prices <- request (Api_getTokenPriceWithAddresses [CURRENT_CHAIN_ADDRESS]) ;;
  let price := or_string (prices !! CURRENT_CHAIN_ADDRESS) "0" in
  modify (fun s => set_tokensPriceMap (<[CURRENT_CHAIN_ADDRESS := price]> (tokensPriceMap s)) s) ;;
  modify (set_networkPrice price).

Definition getMyTokensWithBalance : Prog unit :=
  res <- request Api_getMyTokensWithBalance ;;
  match res with
  | None => Ret tt
  | Some res =>
      modify (set_tokensPriceMap (
        foldl (fun prices '(tokenAddress, tokenInfo) =>
                 <[tokenAddress := TokenInfoWithBalance.price tokenInfo]> prices)
              ∅ (object_entries res))) ;;
      modify (set_myTokensWithBalance (Some res))
  end.

Definition initializeState : Prog unit :=
  s <- get ;;
  if negb (initialized s) then
    await getTokenList ;;
    await getNetworkTokenPrice ;;
    await getMyTokensWithBalance ;;
    modify (set_initialized true)
  else Ret tt.

Definition calculatePriceDifference (s : ConvertControllerState)
  : number * PriceDifferenceDirection :=
  let sourceTokenValue := (parseFloat (sourceTokenAmount s) * sourceTokenPriceInUSD s)%float in
  let toTokenValue := (parseFloat (toTokenAmount s) * toTokenPriceInUSD s)%float in
  if negb (truthy_number sourceTokenValue) || negb (truthy_number toTokenValue)
  then (0%float, none)
  else
    let priceChange := (sourceTokenValue - toTokenValue)%float in
    let changeInPercentage := (priceChange / toTokenValue * 100)%float in
    (changeInPercentage,
     if (0 <? changeInPercentage)%float then up
     else if (changeInPercentage <? 0)%float then down
     else none).

(** [BigInt(v)] as a step: it returns the integer or throws. *)
Definition toBigInt (v : numeric) : Prog bigint :=
  match BigInt v with
  | Some z => Ret z
  | None => Throw (BigIntError v)
  end.

Definition setGasFee : Prog unit :=
  res <- request Api_getGasPrice ;;
  fee <- toBigInt (instant_maxFeePerGas res) ;;
  modify (set_gasFee fee).

Definition calculateGasPriceInEther (gas gasPrice : bigint) : number :=
  let totalGasCostInWei := (gasPrice * gas)%Z in
  (Number_of_bigint totalGasCostInWei / 1e18)%float.

(** Nothing inside the [try] of the source can throw; its [catch] has no
    counterpart. *)
Definition calculateGasPriceInUSD (s : ConvertControllerState) (gas gasPrice : bigint) : number :=
  let totalGasCostInEther := calculateGasPriceInEther gas gasPrice in
  let networkPriceNumber := parseFloat (networkPrice s) in
  (totalGasCostInEther * networkPriceNumber)%float.

Definition calculatePriceImpact (s : ConvertControllerState)
    (_toTokenAmount : string) (_gasPriceInUSD : option number) : number :=
  let gasPriceInUSD := default 0%float _gasPriceInUSD in
  let sourceTokenAmount := parseFloat (sourceTokenAmount s) in
  let toTokenAmount := parseFloat _toTokenAmount in
  let sourceTokenPrice := sourceTokenPriceInUSD s in
  let toTokenPrice := toTokenPriceInUSD s in
  let totalSourceCostUSD := (sourceTokenAmount * sourceTokenPrice)%float in
  let adjustedTotalSourceCostUSD := (totalSourceCostUSD + gasPriceInUSD)%float in
  let effectivePriceIncludingGas := (adjustedTotalSourceCostUSD / toTokenAmount)%float in
  ((effectivePriceIncludingGas - toTokenPrice) / toTokenPrice * 100)%float.

Definition calculateMaxSlippage (s : ConvertControllerState) : number :=
  let fromTokenAmount := parseFloat (sourceTokenAmount s) in
  let slippageToleranceDecimal := (parseFloat (slippage s) / 100)%float in
  (fromTokenAmount * slippageToleranceDecimal)%float.

Definition getToAmount (s : ConvertControllerState) : string :=
  let toTokenConvertedAmount :=
    if truthy_number (sourceTokenPriceInUSD s) && truthy_number (toTokenPriceInUSD s)
    then (1 / toTokenPriceInUSD s * sourceTokenPriceInUSD s)%float
    else 0%float in
  let scaleFactor := 10000000000%float in
  let scaledNumber := (toTokenConvertedAmount * scaleFactor)%float in
  Number_toString (Math_round scaledNumber).

Definition setToTokenAmountValue
    (toTokenAmount : string) (toTokenDecimals : number) (toTokenAddress : string) : Prog unit :=
  if negb (truthy_string toTokenAddress) || negb (truthy_string toTokenAmount) then Ret tt
  else
    units <- toBigInt (of_string toTokenAmount) ;;
    c <- ask ;;
    let amount := formatUnits c units toTokenDecimals in
    s <- get ;;
    let sourceTokenAmount := parseFloat (sourceTokenAmount s) in
    let sourceTokenPrice := sourceTokenPriceInUSD s in
    let toTokenPrice := parseFloat (or_string (tokensPriceMap s !! toTokenAddress) "0") in
    let toTokenAmountValue := (sourceTokenAmount * sourceTokenPrice / toTokenPrice)%float in
    modify (set_toTokenAmount amount) ;;
    modify (set_toTokenPriceInUSD toTokenPrice) ;;
    modify (set_toTokenAmount (Number_toString toTokenAmountValue)).

Definition setTransactionDetails (gas gasPrice : bigint) : Prog unit :=
  p <- getParams ;;
  match Params.toTokenAddress p with
  | Some toTokenAddress =>
      if negb (truthy_string (hex_string toTokenAddress)) then Ret tt
      else
        s <- get ;;
        let toTokenPrice := or_string (tokensPriceMap s !! hex_string toTokenAddress) "0" in
        modify (set_toTokenPriceInUSD (parseFloat toTokenPrice)) ;;
        modify (fun s => set_gasPriceInUSD (Some (calculateGasPriceInUSD s gas gasPrice)) s) ;;
        modify (fun s => set_priceImpact
                  (Some (calculatePriceImpact s (Params.toTokenAmount p) (gasPriceInUSD s))) s) ;;
        modify (fun s => set_maxSlippage (Some (calculateMaxSlippage s)) s)
  | None => Ret tt
  end.

Definition createTokenAllowance : Prog TransactionParams.t :=
  p <- getParams ;;
  match Params.sourceTokenAddress p with
  | Some sourceTokenAddress =>
      if negb (truthy_string (hex_string sourceTokenAddress))
      then Throw (Error ">>> createTokenAllowance - No source token address found.")
      else
        modify (set_loading (Some true)) ;;
        transaction <- request (Api_getConvertApprovalData sourceTokenAddress) ;;
        gasLimit <- request (Connection_getEstimatedGas
                      {| EstimateGasArgs.address := Params.fromAddress p;
                         EstimateGasArgs.to := ApprovalData.to transaction;
                         EstimateGasArgs.data := ApprovalData.data transaction |}) ;;
        gasPrice <- toBigInt (ApprovalData.gasPrice transaction) ;;
        value <- toBigInt (ApprovalData.value transaction) ;;
        Ret {| TransactionParams.data := ApprovalData.data transaction;
               TransactionParams.to := ApprovalData.to transaction;
               TransactionParams.gas := gasLimit;
               TransactionParams.gasPrice := gasPrice;
               TransactionParams.value := value |}
  | None => Throw (Error ">>> createTokenAllowance - No source token address found.")
  end.

Definition createConvert : Prog TransactionParams.t :=
  p <- getParams ;;
  match Params.sourceTokenAddress p, Params.toTokenAddress p, Params.sourceTokenDecimals p with
  | Some sourceTokenAddress, Some toTokenAddress, Some sourceTokenDecimals =>
      if negb (truthy_string (Params.sourceTokenAmount p))
         || negb (truthy_string (hex_string sourceTokenAddress))
         || negb (truthy_string (hex_string toTokenAddress))
         || negb (truthy_number sourceTokenDecimals)
      then Throw (Error ">>> createConvert: Invalid values to start converting")
      else
        gasLimit <- request (Connection_getEstimatedGas
                      {| EstimateGasArgs.address := Params.fromAddress p;
                         EstimateGasArgs.to := toTokenAddress;
                         EstimateGasArgs.data := Hex "" |}) ;;
        modify (fun s => set_gasPriceInUSD (Some (calculateGasPriceInUSD s gasLimit (gasFee s))) s) ;;
        response <- request (Api_getConvertData
                      {| ConvertDataArgs.fromAddress := Params.fromAddress p;
                         ConvertDataArgs.sourceTokenAddress := sourceTokenAddress;
                         ConvertDataArgs.sourceTokenAmount := Params.sourceTokenAmount p;
                         ConvertDataArgs.toTokenAddress := toTokenAddress;
                         ConvertDataArgs.decimals := sourceTokenDecimals |}) ;;
        gas <- toBigInt (ConvertTx.gas response) ;;
        gasPrice <- toBigInt (ConvertTx.gasPrice response) ;;
        value <- toBigInt (ConvertTx.value response) ;;
        Ret {| TransactionParams.data := ConvertTx.data response;
               TransactionParams.to := ConvertTx.to response;
               TransactionParams.gas := gas;
               TransactionParams.gasPrice := gasPrice;
               TransactionParams.value := value |}
  | _, _, _ => Throw (Error ">>> createConvert: Invalid values to start converting")
  end.

(** The condition under which [makeChecks] returns at once. *)
Definition makeChecks_returns_early (p : Params.t) : bool :=
  negb (truthy_opt (fun a => truthy_string (hex_string a)) (Params.sourceTokenAddress p))
  || negb (truthy_string (Params.sourceTokenAmount p))
  || (parseFloat (Params.sourceTokenAmount p) =? 0)%float
  || negb (truthy_opt truthy_number (Params.sourceTokenDecimals p))
  || negb (truthy_opt truthy_number (Params.toTokenDecimals p))
  || negb (truthy_opt (fun a => truthy_string (hex_string a)) (Params.toTokenAddress p)).

(** 2. Make checks for allowance and convert if needed. *)
Definition makeChecks : Prog unit :=
  p <- getParams ;;
  if makeChecks_returns_early p then Ret tt
  else
    match Params.sourceTokenAddress p, Params.sourceTokenDecimals p,
          Params.toTokenDecimals p, Params.toTokenAddress p with
    | Some sourceTokenAddress, Some sourceTokenDecimals,
      Some toTokenDecimals, Some toTokenAddress =>
        modify (set_loading (Some true)) ;;
        hasAllowance <- request (Api_checkConvertAllowance
                          {| AllowanceArgs.fromAddress := Params.fromAddress p;
                             AllowanceArgs.sourceTokenAddress := sourceTokenAddress;
                             AllowanceArgs.sourceTokenAmount := Params.sourceTokenAmount p;
                             AllowanceArgs.sourceTokenDecimals := sourceTokenDecimals |}) ;;
        s <- get ;;
        let toAmount := getToAmount s in
        (if hasAllowance : bool then
           modify (set_approvalTransaction None) ;;
           transaction <- await createConvert ;;
           modify (set_convertTransaction (Some transaction)) ;;
           setToTokenAmountValue toAmount toTokenDecimals (hex_string toTokenAddress) ;;
           setTransactionDetails (TransactionParams.gas transaction)
                                 (TransactionParams.gasPrice transaction)
         else
           transaction <- await createTokenAllowance ;;
           modify (set_approvalTransaction (Some transaction)) ;;
           setToTokenAmountValue toAmount toTokenDecimals (hex_string toTokenAddress) ;;
           setTransactionDetails (TransactionParams.gas transaction)
                                 (TransactionParams.gasPrice transaction)) ;;
        modify (set_loading (Some false))
    | _, _, _, _ => Ret tt
    end.

(** 1. Call convert token when amount is set. *)
Definition convertTokens : Prog unit :=
  p <- getParams ;;
  if negb (truthy_opt (fun a => truthy_string (hex_string a)) (Params.sourceTokenAddress p))
     || negb (truthy_opt (fun a => truthy_string (hex_string a)) (Params.toTokenAddress p))
  then Ret tt
  else
    modify (set_convertLoading true) ;;
    await makeChecks.

(** The [try] holds the awaited request and two assignments, the [catch]
    two assignments and a notification: the request is the only step
    that can fail, so the handler is chosen by how the request settles. *)
Definition sendTransactionForApproval (data : TransactionParams.t) : Prog unit :=
  p <- getParams ;;
  modify (set_transactionLoading (Some true)) ;;
  Await (Connection_sendTransaction
           {| SendTransactionArgs.address := Params.fromAddress p;
              SendTransactionArgs.to := TransactionParams.to data;
              SendTransactionArgs.data := TransactionParams.data data;
              SendTransactionArgs.gas := None;
              SendTransactionArgs.value := TransactionParams.value data;
              SendTransactionArgs.gasPrice := TransactionParams.gasPrice data |})
    (fun settled =>
       match settled with
       | Resolved _ =>
           modify (set_approvalTransaction None) ;;
           modify (set_transactionLoading (Some false))
       | Rejected error =>
           modify (set_transactionError (shortMessage error)) ;;
           modify (set_transactionLoading (Some false)) ;;
           emit (Snack_showError (or_string (shortMessage error) "Transaction errror"))
       end).

Definition sendTransactionForConvert (data : option TransactionParams.t)
  : Prog (option string) :=
  match data with
  | None => Ret None
  | Some data =>
      p <- getParams ;;
      modify (set_transactionLoading (Some true)) ;;
      Await (Connection_sendTransaction
               {| SendTransactionArgs.address := Params.fromAddress p;
                  SendTransactionArgs.to := TransactionParams.to data;
                  SendTransactionArgs.data := TransactionParams.data data;
                  SendTransactionArgs.gas := Some (TransactionParams.gas data);
                  SendTransactionArgs.gasPrice := TransactionParams.gasPrice data;
                  SendTransactionArgs.value := TransactionParams.value data |})
        (fun settled =>
           match settled with
           | Resolved transactionHash =>
               modify (set_transactionLoading (Some false)) ;;
               emit (Router_replace "Transactions") ;;
               setTimeout resetState 1000 ;;
               Ret transactionHash
           | Rejected error =>
               modify (set_transactionError (shortMessage error)) ;;
               modify (set_transactionLoading (Some false)) ;;
               emit (Snack_showError (or_string (shortMessage error) "Transaction error")) ;;
               Ret None
           end)
  end.

End ConvertController.

(** ** Reading off a run *)

(** How the run of [p] from [w] ends, and the world it leaves. *)
Definition outcome {A} (env : Env) (p : Prog A) (w : World) : Outcome A := fst (exec env p w).
Definition after {A} (env : Env) (p : Prog A) (w : World) : World := snd (exec env p w).

(** A wallet is connected: [AccountController.state.address] is a
    non-empty string. *)
Definition connected (env : Env) : bool :=
  truthy_opt truthy_string (account_address (surroundings env)).

(** The address of the connected wallet. *)
Definition wallet_address (env : Env) : string :=
  default "" (account_address (surroundings env)).

(** What [getParams] returns for the wallet [address] in state [s]. *)
Definition params_of (address : string) (s : ConvertControllerState) : Params.t :=
  {| Params.fromAddress := address;
     Params.sourceTokenAddress := TokenInfo.address <$> sourceToken s;
     Params.toTokenAddress := TokenInfo.address <$> toToken s;
     Params.toTokenAmount := toTokenAmount s;
     Params.toTokenDecimals := TokenInfo.decimals <$> toToken s;
     Params.sourceTokenAmount := sourceTokenAmount s;
     Params.sourceTokenDecimals := TokenInfo.decimals <$> sourceToken s |}.

(** What [getParams] throws without a wallet. *)
Definition no_address : JsError := Error "No address found to swap the tokens from.".

(** The request [sendTransactionForApproval] sends for [data] from the
    wallet [address], and the one [sendTransactionForConvert] sends. *)
Definition approval_submission (address : string) (data : TransactionParams.t)
  : Request (option string) :=
  Connection_sendTransaction
    {| SendTransactionArgs.address := address;
       SendTransactionArgs.to := TransactionParams.to data;
       SendTransactionArgs.data := TransactionParams.data data;
       SendTransactionArgs.gas := None;
       SendTransactionArgs.gasPrice := TransactionParams.gasPrice data;
       SendTransactionArgs.value := TransactionParams.value data |}.

Definition convert_submission (address : string) (data : TransactionParams.t)
  : Request (option string) :=
  Connection_sendTransaction
    {| SendTransactionArgs.address := address;
       SendTransactionArgs.to := TransactionParams.to data;
       SendTransactionArgs.data := TransactionParams.data data;
       SendTransactionArgs.gas := Some (TransactionParams.gas data);
       SendTransactionArgs.gasPrice := TransactionParams.gasPrice data;
       SendTransactionArgs.value := TransactionParams.value data |}.

(** The balance [checkSourceTokenValues] reads for [address] in state [s]:
    the stored one, or ["0"] when there is none. *)
Definition balance_of (s : ConvertControllerState) (address : string) : string :=
  or_string (TokenInfoWithBalance.balance <$> (myTokensWithBalance s ≫= (.!! address))) "0".

(** The balance, valued at [price], is strictly below the [amount], valued
    at [price]. *)
Definition insufficient_balance (balance amount : string) (price : number) : bool :=
  (parseFloat balance * price <? parseFloat amount * price)%float.

(** What [getTokenList] keeps of the listed [tokens] as popular. *)
Definition popular_among (c : Surroundings) (tokens : gmap string TokenInfo.t)
  : gmap string TokenInfo.t :=
  foldl (fun limitedTokens '(tokenAddress, tokenInfo) =>
           if bool_decide (TokenInfo.symbol tokenInfo ∈ POPULAR_TOKENS c)
           then <[tokenAddress := tokenInfo]> limitedTokens
           else limitedTokens)
        ∅ (object_entries tokens).


(** The guard of [createConvert]: it throws when this holds of what
    [getParams] returned. *)
Definition createConvert_invalid (p : Params.t) : bool :=
  negb (truthy_string (Params.sourceTokenAmount p))
  || negb (truthy_opt (fun a => truthy_string (hex_string a)) (Params.sourceTokenAddress p))
  || negb (truthy_opt (fun a => truthy_string (hex_string a)) (Params.toTokenAddress p))
  || negb (truthy_opt truthy_number (Params.sourceTokenDecimals p)).

Definition invalid_convert : JsError :=
  Error ">>> createConvert: Invalid values to start converting".

Definition no_source_token : JsError := Error "No source token address found".

Definition no_allowance_source : JsError :=
  Error ">>> createTokenAllowance - No source token address found.".

(** [p] starts no call of its own without awaiting it. *)
Fixpoint spawn_free {A} (p : Prog A) : Prop :=
  match p with
  | Ret _ => True
  | Throw _ => True
  | Get k => forall s, spawn_free (k s)
  | Put _ k => spawn_free k
  | Ask k => forall c, spawn_free (k c)
  | Await _ k => forall x, spawn_free (k x)
  | Tick k => spawn_free k
  | Emit _ k => spawn_free k
  | Spawn _ _ => False
  | SetTimeout _ _ k => spawn_free k
  end.

(** ** What a run leaves alone *)

(** [p] leaves [R] alone: whatever the siblings answer and however the
    run of [p] ends, the state it leaves is related by [R] to the state
    it started from. *)
Definition frames {A} (R : relation ConvertControllerState) (p : Prog A) : Prop :=
  forall (env : Env) (w : World), R (state w) (state (after env p w)).

(** The field [f] is what it was. *)
Definition unchanged {A} (f : ConvertControllerState -> A) : relation ConvertControllerState :=
  fun s s' => f s' = f s.

(* ===================================================================== *)
(** * Sample data *)
(* ===================================================================== *)

Module Sample.

Definition usdc : TokenInfo.t := {|
  TokenInfo.address := Hex "a0b86991c6218b36c1d19d4a2e9eb0ce3606eb48";
  TokenInfo.symbol := "USDC";
  TokenInfo.name := "USD Coin";
  TokenInfo.decimals := 6;
  TokenInfo.logoURI := "https://tokens.example/usdc.png";
  TokenInfo.domainVersion := None;
  TokenInfo.eip2612 := Some true;
  TokenInfo.isFoT := None;
  TokenInfo.tags := None
|}.

Definition dai : TokenInfo.t := {|
  TokenInfo.address := Hex "6b175474e89094c44da98b954eedeac495271d0f";
  TokenInfo.symbol := "DAI";
  TokenInfo.name := "Dai Stablecoin";
  TokenInfo.decimals := 18;
  TokenInfo.logoURI := "https://tokens.example/dai.png";
  TokenInfo.domainVersion := None;
  TokenInfo.eip2612 := None;
  TokenInfo.isFoT := None;
  TokenInfo.tags := Some ["stablecoin"]
|}.

Definition usdc_address : string := hex_string (TokenInfo.address usdc).
Definition dai_address : string := hex_string (TokenInfo.address dai).

Definition wallet : string := "0x52908400098527886e0f7030069857d2e4169ee7".

Definition my_tokens : gmap string TokenInfoWithBalance.t :=
  {[ usdc_address := {| TokenInfoWithBalance.info := usdc;
                        TokenInfoWithBalance.balance := "100";
                        TokenInfoWithBalance.price := "1" |} ]}.

Definition prices : gmap string string :=
  {[ usdc_address := "1"; dai_address := "0.5" ]}.

Definition convert_tx : ConvertTx.t := {|
  ConvertTx.data := Hex "12aa3caf";
  ConvertTx.to := Hex "1111111254eeb25477b68fb85ed929f73a960582";
  ConvertTx.gas := of_number 150000;
  ConvertTx.gasPrice := of_string "20000000000";
  ConvertTx.value := of_string "0"
|}.

Definition approval : ApprovalData.t := {|
  ApprovalData.to := TokenInfo.address usdc;
  ApprovalData.data := Hex "095ea7b3";
  ApprovalData.gasPrice := of_string "20000000000";
  ApprovalData.value := of_string "0"
|}.

Definition params : TransactionParams.t := {|
  TransactionParams.data := Hex "12aa3caf";
  TransactionParams.to := Hex "1111111254eeb25477b68fb85ed929f73a960582";
  TransactionParams.gas := 150000;
  TransactionParams.gasPrice := 20000000000;
  TransactionParams.value := 0
|}.

Definition user_rejected : JsError :=
  TransactionError "User rejected the request. Details: ..." (Some "User rejected the request.").

(** A wallet is connected or not. *)
Definition around (address : option string) : Surroundings := {|
  account_address := address;
  formatUnits := fun value _ => digits_of value;
  POPULAR_TOKENS := ["ETH"; "USDC"; "DAI"]
|}.

(** Siblings that answer every request, whenever it is sent: the
    allowance is [allowance], and a transaction is refused by the user
    when [refuse] is set. *)
Definition responder (allowance refuse : bool) (X : Type) (r : Request X) (_ : nat)
  : Response X :=
  match r in Request X return Response X with
  | Api_getTokenList =>
      Resolved {| res_tokens := {[ usdc_address := usdc; dai_address := dai ]} |}
  | Api_getTokenPriceWithAddresses _ => Resolved prices
  | Api_getMyTokensWithBalance => Resolved (Some my_tokens)
  | Api_getGasPrice => Resolved {| instant_maxFeePerGas := of_string "30000000000" |}
  | Api_checkConvertAllowance _ => Resolved allowance
  | Api_getConvertApprovalData _ => Resolved approval
  | Api_getConvertData _ => Resolved convert_tx
  | Connection_getEstimatedGas _ => Resolved 21000%Z
  | Connection_sendTransaction _ =>
      if refuse then Rejected user_rejected else Resolved (Some "0x9fc76417374aa880d4449a1f7f31ec597f00b1f6f3dd2d66f4c9c6c445836d8b")
  end.

Definition env (address : option string) (allowance refuse : bool) : Env :=
  {| surroundings := around address; respond := responder allowance refuse |}.

(** A price API that knows no price. *)
Definition priceless : Env := {|
  surroundings := around (Some wallet);
  respond := fun X r n =>
    match r in Request X return Response X with
    | Api_getTokenPriceWithAddresses _ => Resolved ∅
    | r' => responder true false _ r' n
    end
|}.

(** The state after the user picked both tokens and typed an amount. *)
Definition ready (amount : string) : ConvertControllerState :=
  set_tokensPriceMap prices
    (set_myTokensWithBalance (Some my_tokens)
      (set_sourceTokenPriceInUSD 1
        (set_toTokenPriceInUSD 0.5
          (set_sourceTokenAmount amount
            (set_toToken (Some dai)
              (set_sourceToken (Some usdc) initial_state)))))).

End Sample.

(** ** More to state properties with *)

(** [tokenInfo] is one of the popular tokens. *)
Definition is_popular (c : Surroundings) (tokenInfo : TokenInfo.t) : bool :=
  bool_decide (TokenInfo.symbol tokenInfo ∈ POPULAR_TOKENS c).

(** Once [loading] is [true] it is still [true]. *)
Definition stays_loading : relation ConvertControllerState :=
  fun s s' => loading s = Some true -> loading s' = Some true.

(** The request [makeChecks] opens with, for the wallet [address], the
    source token [token] and the [amount] typed. *)
Definition allowance_request (address : string) (token : TokenInfo.t) (amount : string)
  : Request bool :=
  Api_checkConvertAllowance
    {| AllowanceArgs.fromAddress := address;
       AllowanceArgs.sourceTokenAddress := TokenInfo.address token;
       AllowanceArgs.sourceTokenAmount := amount;
       AllowanceArgs.sourceTokenDecimals := TokenInfo.decimals token |}.

(** An event that only asks: a request to the API or for a gas estimate.
    Submitting a transaction, notifying and navigating are not. *)
Definition only_asks (e : Event) : Prop :=
  match e with
  | Requested r =>
      match r with
      | Connection_sendTransaction _ => False
      | _ => True
      end
  | Emitted _ => False
  end.

(** Whatever the siblings answer, the events of a run of [p] are all
    [P]. *)
Definition emits_only {A} (P : Event -> Prop) (p : Prog A) : Prop :=
  forall (env : Env) (w : World),
    exists events : list Event,
      trace (after env p w) = trace w ++ events /\ Forall P events.

(** The texts [Number::toString] gives to the values that are no finite
    number. *)
Definition not_finite_text (s : string) : bool :=
  String.eqb s "Infinity" || String.eqb s "-Infinity" || String.eqb s "NaN".

(** The state differs from [s] at most in [gasPriceInUSD]. *)
Definition at_most_gas_price : relation ConvertControllerState :=
  fun s s' => s' = s \/ exists g, s' = set_gasPriceInUSD g s.

(** The state differs from [s] at most in that [loading] is [true]. *)
Definition at_most_loading : relation ConvertControllerState :=
  fun s s' => s' = s \/ s' = set_loading (Some true) s.

(** A second set of sample data: a token that is not popular, and
    siblings that fail. *)
Module Scenario.

Definition shib : TokenInfo.t := {|
  TokenInfo.address := Hex "95ad61b0a150d79219dcf64e1e6cc01f0b64c4ce";
  TokenInfo.symbol := "SHIB";
  TokenInfo.name := "Shiba Inu";
  TokenInfo.decimals := 18;
  TokenInfo.logoURI := "https://tokens.example/shib.png";
  TokenInfo.domainVersion := None;
  TokenInfo.eip2612 := None;
  TokenInfo.isFoT := None;
  TokenInfo.tags := None
|}.

Definition shib_address : string := hex_string (TokenInfo.address shib).

Definition listed : gmap string TokenInfo.t :=
  {[ Sample.usdc_address := Sample.usdc; Sample.dai_address := Sample.dai;
     shib_address := shib ]}.

Definition network_down : JsError := Error "Failed to fetch".

(** Siblings that answer as in [Sample.responder], but list three tokens. *)
Definition listing : Env := {|
  surroundings := Sample.around (Some Sample.wallet);
  respond := fun X r n =>
    match r in Request X return Response X with
    | Api_getTokenList => Resolved {| res_tokens := listed |}
    | r' => Sample.responder true false _ r' n
    end
|}.

(** Bitcoin against a token worth a billionth of a dollar. *)
Definition far_apart : ConvertControllerState :=
  set_sourceTokenPriceInUSD 60000 (set_toTokenPriceInUSD 1e-9 (Sample.ready "1")).

(** A token with no decimals. *)
Definition whole : TokenInfo.t := {|
  TokenInfo.address := Hex "b8c77482e45f1f44de1745f52c74426c631bdd52";
  TokenInfo.symbol := "TICKET";
  TokenInfo.name := "Ticket";
  TokenInfo.decimals := 0;
  TokenInfo.logoURI := "https://tokens.example/ticket.png";
  TokenInfo.domainVersion := None;
  TokenInfo.eip2612 := None;
  TokenInfo.isFoT := None;
  TokenInfo.tags := None
|}.

(** The price API is down. *)
Definition no_prices : Env := {|
  surroundings := Sample.around (Some Sample.wallet);
  respond := fun X r n =>
    match r in Request X return Response X with
    | Api_getTokenPriceWithAddresses _ => Rejected network_down
    | r' => Sample.responder true false _ r' n
    end
|}.

(** The quote API is down: no convert data. *)
Definition no_quote : Env := {|
  surroundings := Sample.around (Some Sample.wallet);
  respond := fun X r n =>
    match r in Request X return Response X with
    | Api_getConvertData _ => Rejected network_down
    | r' => Sample.responder true false _ r' n
    end
|}.

End Scenario.

(* ===================================================================== *)
(** * Properties *)
(* ===================================================================== *)

(** The built-ins are kept folded while a procedure is run on a symbolic
    world. *)
Arguments parseFloat : simpl never.
Arguments Number_toString : simpl never.
Arguments Math_round : simpl never.
Arguments Number_of_bigint : simpl never.
Arguments BigInt : simpl never.
Arguments hex_string : simpl never.
Arguments String.eqb : simpl never.

(** ** The interpreter *)

Section Interpreter.

Variable env : Env.

Lemma exec_bind {A B} (p : Prog A) (f : A -> Prog B) (w : World) :
  exec env (bind p f) w =
  match exec env p w with
  | (Returned a, w') => exec env (f a) w'
  | (Thrown e, w') => (Thrown e, w')
  end.
Proof.
  revert w. induction p; intros w; simpl; auto.
Qed.

Lemma exec_get (w : World) : exec env get w = (Returned (state w), w).
Proof. reflexivity. Qed.

Lemma exec_modify (f : ConvertControllerState -> ConvertControllerState) (w : World) :
  exec env (modify f) w = (Returned tt, with_state (f (state w)) w).
Proof. reflexivity. Qed.

Lemma exec_await {A} (p : Prog A) (w : World) : exec env (await p) w = exec env p w.
Proof.
  unfold await. rewrite exec_bind. destruct (exec env p w) as [[a|e] w']; reflexivity.
Qed.

Lemma exec_request {X} (r : Request X) (w : World) :
  exec env (request r) w =
  (match answer env r w with Resolved x => Returned x | Rejected e => Thrown e end,
   log (Requested r) w).
Proof. simpl. destruct (answer env r w); reflexivity. Qed.

End Interpreter.

(** ** Facts about values *)

Lemma hex_string_truthy (h : HexString) : truthy_string (hex_string h) = true.
Proof. reflexivity. Qed.

Lemma parseFloat_zero : parseFloat "0" = 0%float.
Proof. vm_compute. reflexivity. Qed.

Lemma with_state_same (w : World) : with_state (state w) w = w.
Proof. destruct w; reflexivity. Qed.

(** ** [getParams] *)

Lemma exec_getParams (env : Env) (w : World) :
  exec env ConvertController.getParams w =
  (if connected env
   then Returned (params_of (wallet_address env) (state w))
   else Thrown no_address, w).
Proof.
  unfold connected, wallet_address. simpl.
  destruct (account_address (surroundings env)) as [a|]; simpl; [|reflexivity].
  destruct (truthy_string a); reflexivity.
Qed.

Import ConvertController.

(** ** Errors of a transaction submission *)

Lemma exec_sendTransactionForApproval (env : Env) (w : World) (data : TransactionParams.t) :
  connected env = true ->
  exec env (sendTransactionForApproval data) w =
  let w1 := log (Requested (approval_submission (wallet_address env) data))
                (with_state (set_transactionLoading (Some true) (state w)) w) in
  match answer env (approval_submission (wallet_address env) data) w with
  | Resolved _ =>
      (Returned tt,
       with_state (set_transactionLoading (Some false)
                     (set_approvalTransaction None (state w1))) w1)
  | Rejected error =>
      (Returned tt,
       log (Emitted (Snack_showError (or_string (shortMessage error) "Transaction errror")))
         (with_state (set_transactionLoading (Some false)
                        (set_transactionError (shortMessage error) (state w1))) w1))
  end.
Proof.
  intros Hc. unfold sendTransactionForApproval.
  rewrite exec_bind, exec_getParams, Hc. cbn -[answer].
  change (answer env _ (with_state _ w))
    with (answer env (approval_submission (wallet_address env) data) w).
  destruct (answer env _ w); reflexivity.
Qed.

Lemma exec_sendTransactionForConvert (env : Env) (w : World) (data : TransactionParams.t) :
  connected env = true ->
  exec env (sendTransactionForConvert (Some data)) w =
  let w1 := log (Requested (convert_submission (wallet_address env) data))
                (with_state (set_transactionLoading (Some true) (state w)) w) in
  match answer env (convert_submission (wallet_address env) data) w with
  | Resolved transactionHash =>
      (Returned transactionHash,
       add_timer 1000 resetState
         (log (Emitted (Router_replace "Transactions"))
            (with_state (set_transactionLoading (Some false) (state w1)) w1)))
  | Rejected error =>
      (Returned None,
       log (Emitted (Snack_showError (or_string (shortMessage error) "Transaction error")))
         (with_state (set_transactionLoading (Some false)
                        (set_transactionError (shortMessage error) (state w1))) w1))
  end.
Proof.
  intros Hc. unfold sendTransactionForConvert.
  rewrite exec_bind, exec_getParams, Hc. cbn -[answer].
  change (answer env _ (with_state _ w))
    with (answer env (convert_submission (wallet_address env) data) w).
  destruct (answer env _ w); reflexivity.
Qed.

(** C1. When [ConnectionController.sendTransaction] rejects with [error],
    neither submission procedure throws: [sendTransactionForApproval]
    returns, [sendTransactionForConvert] returns [undefined]; in both,
    [transactionError] holds [error.shortMessage], [transactionLoading] is
    back to [false], and the only calls made are the submission and
    [SnackController.showError] with the short message or, when there is
    none, the fallback text. (The submission is only sent with a wallet
    connected: without one [getParams] throws before it.) *)
Theorem transaction_errors_are_caught
    (env : Env) (w : World) (data : TransactionParams.t) (error : JsError) :
  connected env = true ->
  (answer env (approval_submission (wallet_address env) data) w = Rejected error ->
   outcome env (sendTransactionForApproval data) w = Returned tt /\
   transactionError (state (after env (sendTransactionForApproval data) w))
     = shortMessage error /\
   transactionLoading (state (after env (sendTransactionForApproval data) w))
     = Some false /\
   trace (after env (sendTransactionForApproval data) w)
     = trace w ++ [Requested (approval_submission (wallet_address env) data);
                   Emitted (Snack_showError
                              (or_string (shortMessage error) "Transaction errror"))])
  /\
  (answer env (convert_submission (wallet_address env) data) w = Rejected error ->
   outcome env (sendTransactionForConvert (Some data)) w = Returned None /\
   transactionError (state (after env (sendTransactionForConvert (Some data)) w))
     = shortMessage error /\
   transactionLoading (state (after env (sendTransactionForConvert (Some data)) w))
     = Some false /\
   trace (after env (sendTransactionForConvert (Some data)) w)
     = trace w ++ [Requested (convert_submission (wallet_address env) data);
                   Emitted (Snack_showError
                              (or_string (shortMessage error) "Transaction error"))]).
Proof.
  intros Hc. split; intros Hrej; unfold outcome, after.
  - rewrite exec_sendTransactionForApproval by exact Hc. cbv zeta. rewrite Hrej.
    cbn. rewrite <- app_assoc. auto.
  - rewrite exec_sendTransactionForConvert by exact Hc. cbv zeta. rewrite Hrej.
    cbn. rewrite <- app_assoc. auto.
Qed.

(** A wallet is connected and the user refuses the transaction. *)
Lemma transaction_errors_are_caught_witness :
  let env := Sample.env (Some Sample.wallet) true true in
  let w := new_world (Sample.ready "10") in
  (outcome env (sendTransactionForApproval Sample.params) w = Returned tt /\
   transactionError (state (after env (sendTransactionForApproval Sample.params) w))
     = Some "User rejected the request.") /\
  (outcome env (sendTransactionForConvert (Some Sample.params)) w = Returned None /\
   transactionError (state (after env (sendTransactionForConvert (Some Sample.params)) w))
     = Some "User rejected the request.").
Proof.
  intros env w.
  destruct (transaction_errors_are_caught env w Sample.params Sample.user_rejected eq_refl)
    as [Happroval Hconvert].
  split.
  - destruct (Happroval eq_refl) as (H1 & H2 & _). split; [exact H1 | exact H2].
  - destruct (Hconvert eq_refl) as (H1 & H2 & _). split; [exact H1 | exact H2].
Defined.

(** ** Prices *)

Lemma exec_getAddressPrice (env : Env) (w : World) (address : string) :
  exec env (getAddressPrice address) w =
  if truthy_opt truthy_string (tokensPriceMap (state w) !! address)
  then (Returned (parseFloat (default "" (tokensPriceMap (state w) !! address))), w)
  else
    let w1 := log (Requested (Api_getTokenPriceWithAddresses [address])) w in
    match answer env (Api_getTokenPriceWithAddresses [address]) w with
    | Resolved prices =>
        let price := or_string (prices !! address) "0" in
        (Returned (parseFloat price),
         with_state (set_tokensPriceMap (<[address := price]> (tokensPriceMap (state w)))
                       (state w)) w1)
    | Rejected e => (Thrown e, w1)
    end.
Proof.
  unfold getAddressPrice. cbn -[answer].
  destruct (truthy_opt truthy_string (tokensPriceMap (state w) !! address)); [reflexivity|].
  cbn -[answer]. destruct (answer env _ w); reflexivity.
Qed.

Lemma exec_setTokenPriceToMap (env : Env) (w : World) (address : string) :
  exec env (setTokenPriceToMap address) w =
  let w1 := log (Requested (Api_getTokenPriceWithAddresses [address])) w in
  match answer env (Api_getTokenPriceWithAddresses [address]) w with
  | Resolved prices =>
      let price := or_string (prices !! address) "0" in
      let s1 := set_tokensPriceMap (<[address := price]> (tokensPriceMap (state w))) (state w) in
      (Returned price,
       with_state (if String.eqb address CURRENT_CHAIN_ADDRESS
                   then set_networkPrice price s1 else s1) w1)
  | Rejected e => (Thrown e, w1)
  end.
Proof.
  unfold setTokenPriceToMap. cbn -[answer].
  destruct (answer env _ w); [|reflexivity].
  cbn. destruct (String.eqb address CURRENT_CHAIN_ADDRESS); reflexivity.
Qed.

Lemma exec_getNetworkTokenPrice (env : Env) (w : World) :
  exec env getNetworkTokenPrice w =
  let w1 := log (Requested (Api_getTokenPriceWithAddresses [CURRENT_CHAIN_ADDRESS])) w in
  match answer env (Api_getTokenPriceWithAddresses [CURRENT_CHAIN_ADDRESS]) w with
  | Resolved prices =>
      let price := or_string (prices !! CURRENT_CHAIN_ADDRESS) "0" in
      (Returned tt,
       with_state (set_networkPrice price
                     (set_tokensPriceMap
                        (<[CURRENT_CHAIN_ADDRESS := price]> (tokensPriceMap (state w)))
                        (state w))) w1)
  | Rejected e => (Thrown e, w1)
  end.
Proof.
  unfold getNetworkTokenPrice. cbn -[answer].
  destruct (answer env _ w); reflexivity.
Qed.

(** C2. When the price API is asked for [address] and its answer holds no
    price for it, the price is zero: [getAddressPrice] (which asks only
    when it has no price stored for [address]) returns [0] and stores
    ["0"] under [address]; [setTokenPriceToMap] returns and stores ["0"],
    and sets [networkPrice] to ["0"] when [address] is the chain's;
    [getNetworkTokenPrice] stores ["0"] under the chain's address and in
    [networkPrice]. *)
Theorem price_defaults_to_zero
    (env : Env) (w : World) (address : string) (prices : gmap string string) :
  answer env (Api_getTokenPriceWithAddresses [address]) w = Resolved prices ->
  prices !! address = None ->
  (truthy_opt truthy_string (tokensPriceMap (state w) !! address) = false ->
   outcome env (getAddressPrice address) w = Returned 0%float /\
   tokensPriceMap (state (after env (getAddressPrice address) w)) !! address = Some "0")
  /\
  (outcome env (setTokenPriceToMap address) w = Returned "0" /\
   tokensPriceMap (state (after env (setTokenPriceToMap address) w)) !! address = Some "0" /\
   (address = CURRENT_CHAIN_ADDRESS ->
    networkPrice (state (after env (setTokenPriceToMap address) w)) = "0"))
  /\
  (address = CURRENT_CHAIN_ADDRESS ->
   outcome env getNetworkTokenPrice w = Returned tt /\
   tokensPriceMap (state (after env getNetworkTokenPrice w)) !! CURRENT_CHAIN_ADDRESS
     = Some "0" /\
   networkPrice (state (after env getNetworkTokenPrice w)) = "0").
Proof.
  intros Hanswer Hnone. unfold outcome, after.
  rewrite exec_getAddressPrice, exec_setTokenPriceToMap. split; [|split].
  - intros Hnew. rewrite Hnew, Hanswer. cbn. rewrite Hnone. cbn. split.
    + now rewrite parseFloat_zero.
    + apply lookup_insert_eq.
  - rewrite Hanswer. cbn. rewrite Hnone. cbn. split; [reflexivity|]. split.
    + destruct (String.eqb address CURRENT_CHAIN_ADDRESS); cbn; apply lookup_insert_eq.
    + intros ->. now rewrite String.eqb_refl.
  - intros ->. rewrite exec_getNetworkTokenPrice, Hanswer. cbn. rewrite Hnone. cbn.
    split; [reflexivity|]. split; [apply lookup_insert_eq | reflexivity].
Qed.

(** The price API knows no price and nothing is stored yet. *)
Lemma price_defaults_to_zero_witness :
  let w := new_world initial_state in
  (outcome Sample.priceless (getAddressPrice CURRENT_CHAIN_ADDRESS) w = Returned 0%float /\
   tokensPriceMap (state (after Sample.priceless (getAddressPrice CURRENT_CHAIN_ADDRESS) w))
     !! CURRENT_CHAIN_ADDRESS = Some "0") /\
  networkPrice (state (after Sample.priceless (setTokenPriceToMap CURRENT_CHAIN_ADDRESS) w))
    = "0" /\
  networkPrice (state (after Sample.priceless getNetworkTokenPrice w)) = "0".
Proof.
  intros w.
  destruct (price_defaults_to_zero Sample.priceless w CURRENT_CHAIN_ADDRESS ∅
              eq_refl eq_refl) as (Hget & (_ & _ & Hset) & Hnet).
  split; [exact (Hget eq_refl)|].
  split; [exact (Hset eq_refl)|].
  destruct (Hnet eq_refl) as (_ & _ & H). exact H.
Defined.

(** ** Resetting *)

(** C5 fails as stated: after [resetState] the amount is ["0"], not the
    [''] of the initial state. *)
Lemma resetState_amount_is_not_the_default :
  sourceTokenAmount
    (state (after (Sample.env None true false) resetState (new_world initial_state))) = "0"
  /\ sourceTokenAmount initial_state = ""
  /\ String.eqb
       (sourceTokenAmount
          (state (after (Sample.env None true false) resetState (new_world initial_state))))
       (sourceTokenAmount initial_state) = false.
Proof. repeat split. Qed.

(** C5, amended. [resetState] never throws; after it, from any state,
    [sourceToken], [toToken], [sourceTokenPriceInUSD], [toTokenPriceInUSD]
    and [gasPriceInUSD] hold the values of the initial state, while
    [sourceTokenAmount] and [toTokenAmount] hold ["0"]. *)
Theorem resetState_spec (env : Env) (w : World) :
  outcome env resetState w = Returned tt /\
  sourceToken (state (after env resetState w)) = sourceToken initial_state /\
  toToken (state (after env resetState w)) = toToken initial_state /\
  sourceTokenPriceInUSD (state (after env resetState w)) = sourceTokenPriceInUSD initial_state /\
  toTokenPriceInUSD (state (after env resetState w)) = toTokenPriceInUSD initial_state /\
  gasPriceInUSD (state (after env resetState w)) = gasPriceInUSD initial_state /\
  sourceTokenAmount (state (after env resetState w)) = "0" /\
  toTokenAmount (state (after env resetState w)) = "0".
Proof. repeat split. Qed.

(** The fields [resetState] does not assign keep their values. *)
Lemma resetState_keeps (env : Env) (w : World) :
  let s' := state (after env resetState w) in
  initialized s' = initialized (state w) /\
  loading s' = loading (state w) /\
  convertLoading s' = convertLoading (state w) /\
  transactionLoading s' = transactionLoading (state w) /\
  transactionError s' = transactionError (state w) /\
  approvalTransaction s' = approvalTransaction (state w) /\
  convertTransaction s' = convertTransaction (state w) /\
  tokensPriceMap s' = tokensPriceMap (state w) /\
  myTokensWithBalance s' = myTokensWithBalance (state w) /\
  networkPrice s' = networkPrice (state w) /\
  inputError s' = inputError (state w) /\
  trace (after env resetState w) = trace w.
Proof. repeat split. Qed.

(** ** Amounts *)

Lemma exec_setSourceTokenAmount (env : Env) (w : World) (amount : string) :
  exec env (setSourceTokenAmount amount) w =
  if connected env then
    let w1 := with_state (set_sourceTokenAmount amount (state w)) w in
    match sourceToken (state w) with
    | Some token =>
        (Returned tt,
         start env (checkSourceTokenValues (hex_string (TokenInfo.address token)) amount ;; Ret tt) w1)
    | None => (Thrown (Error "No source token address found"), w1)
    end
  else (Thrown no_address, w).
Proof.
  unfold setSourceTokenAmount. rewrite exec_bind, exec_getParams.
  destruct (connected env); [|reflexivity].
  destruct (sourceToken (state w)) as [token|] eqn:Hs.
  - cbn -[start checkSourceTokenValues]. rewrite Hs. reflexivity.
  - cbn. rewrite Hs. reflexivity.
Qed.

(** What [checkSourceTokenValues], started and not awaited, does before
    its first [await]: it reads, and it sends the price request when no
    price is stored. The state is as it was. *)
Lemma start_checkSourceTokenValues_state (env : Env) (w : World) (address amount : string) :
  state (start env (checkSourceTokenValues address amount ;; Ret tt) w) = state w.
Proof.
  unfold checkSourceTokenValues, await, getAddressPrice. cbn -[answer].
  destruct (truthy_opt truthy_string (tokensPriceMap (state w) !! address)); reflexivity.
Qed.

(** C6 fails as stated: [setToTokenAmount] stores a string that is no
    number. *)
Lemma setToTokenAmount_stores_a_non_number :
  is_numeric_string
    (toTokenAmount
       (state (after (Sample.env (Some Sample.wallet) true false)
                 (setToTokenAmount "abc") (new_world (Sample.ready "10"))))) = false.
Proof. vm_compute. reflexivity. Qed.

(** C6, amended. [setToTokenAmount] and [setSourceTokenAmount] store the
    string they are given as it is, without a check: right after the
    call, [toTokenAmount] (respectively [sourceTokenAmount], whenever a
    wallet is connected) is the argument, so the stored amount is a
    numeric string exactly when the argument is one. *)
Theorem amounts_are_stored_as_given (env : Env) (w : World) (amount : string) :
  (outcome env (setToTokenAmount amount) w = Returned tt /\
   toTokenAmount (state (after env (setToTokenAmount amount) w)) = amount /\
   is_numeric_string (toTokenAmount (state (after env (setToTokenAmount amount) w)))
     = is_numeric_string amount)
  /\
  (if connected env then
     sourceTokenAmount (state (after env (setSourceTokenAmount amount) w)) = amount /\
     is_numeric_string (sourceTokenAmount (state (after env (setSourceTokenAmount amount) w)))
       = is_numeric_string amount
   else
     outcome env (setSourceTokenAmount amount) w = Thrown no_address /\
     after env (setSourceTokenAmount amount) w = w).
Proof.
  split; [repeat split|].
  unfold outcome, after. rewrite exec_setSourceTokenAmount.
  destruct (connected env); [|split; reflexivity].
  assert (sourceTokenAmount
            (state (let w1 := with_state (set_sourceTokenAmount amount (state w)) w in
                    match sourceToken (state w) with
                    | Some token =>
                        (Returned tt,
                         start env (checkSourceTokenValues
                                      (hex_string (TokenInfo.address token)) amount ;; Ret tt) w1)
                    | None => (Thrown (Error "No source token address found"), w1)
                    end).2) = amount) as Hstored.
  { cbv zeta. destruct (sourceToken (state w)); [|reflexivity].
    cbn [snd]. rewrite start_checkSourceTokenValues_state. reflexivity. }
  split; [exact Hstored | now rewrite Hstored].
Qed.

(** The default amount and a word are not numeric; a decimal is. *)
Lemma numeric_strings :
  is_numeric_string "" = false /\ is_numeric_string "abc" = false /\
  is_numeric_string "0" = true /\ is_numeric_string "12.5" = true.
Proof. vm_compute. repeat split. Qed.

(** ** The user's tokens *)

(** The fold of [getMyTokensWithBalance] over the entries of an object:
    every key gets the price of its entry, the other keys keep what the
    accumulator holds. *)
Lemma reduce_prices_lookup
    (entries : list (string * TokenInfoWithBalance.t)) (acc : gmap string string)
    (address : string) :
  NoDup entries.*1 ->
  foldl (fun prices '(tokenAddress, tokenInfo) =>
           <[tokenAddress := TokenInfoWithBalance.price tokenInfo]> prices) acc entries
    !! address
  = match (list_to_map entries : gmap string TokenInfoWithBalance.t) !! address with
    | Some tokenInfo => Some (TokenInfoWithBalance.price tokenInfo)
    | None => acc !! address
    end.
Proof.
  revert acc. induction entries as [|[a i] entries IH]; intros acc Hnodup.
  - reflexivity.
  - rewrite fmap_cons in Hnodup. apply NoDup_cons in Hnodup as [Hfresh Hnodup].
    cbn [fst] in Hfresh. cbn [foldl].
    rewrite IH by exact Hnodup. cbn [list_to_map foldr fst snd uncurry].
    destruct (decide (a = address)) as [->|Hne].
    + rewrite (not_elem_of_list_to_map_1 entries address Hfresh).
      rewrite !lookup_insert_eq. reflexivity.
    + rewrite (lookup_insert_ne (list_to_map entries) a address) by exact Hne.
      destruct (list_to_map entries !! address); [reflexivity|].
      apply lookup_insert_ne. exact Hne.
Qed.

Lemma reduce_prices (res : gmap string TokenInfoWithBalance.t) :
  foldl (fun prices '(tokenAddress, tokenInfo) =>
           <[tokenAddress := TokenInfoWithBalance.price tokenInfo]> prices)
        ∅ (object_entries res)
  = TokenInfoWithBalance.price <$> res.
Proof.
  apply map_eq. intros address. unfold object_entries.
  rewrite reduce_prices_lookup by apply NoDup_fst_map_to_list.
  rewrite list_to_map_to_list, lookup_fmap.
  destruct (res !! address); reflexivity.
Qed.

Lemma exec_getMyTokensWithBalance (env : Env) (w : World) :
  exec env getMyTokensWithBalance w =
  let w1 := log (Requested Api_getMyTokensWithBalance) w in
  match answer env Api_getMyTokensWithBalance w with
  | Resolved (Some res) =>
      (Returned tt,
       with_state (set_myTokensWithBalance (Some res)
                     (set_tokensPriceMap (TokenInfoWithBalance.price <$> res) (state w))) w1)
  | Resolved None => (Returned tt, w1)
  | Rejected e => (Thrown e, w1)
  end.
Proof.
  unfold getMyTokensWithBalance. cbn -[answer].
  destruct (answer env _ w) as [[res|]|e]; try reflexivity.
  cbn. rewrite reduce_prices. reflexivity.
Qed.

(** C7. When [getMyTokensWithBalance] gets a response, whatever
    [tokensPriceMap] held before, afterwards it holds exactly one entry
    for each token of the response, from its address to its price, and
    nothing else: an address that is not in the response has no price any
    more. [myTokensWithBalance] is the response. *)
Theorem getMyTokensWithBalance_overwrites
    (env : Env) (w : World) (res : gmap string TokenInfoWithBalance.t) :
  answer env Api_getMyTokensWithBalance w = Resolved (Some res) ->
  outcome env getMyTokensWithBalance w = Returned tt /\
  (forall address : string,
     tokensPriceMap (state (after env getMyTokensWithBalance w)) !! address
     = TokenInfoWithBalance.price <$> res !! address) /\
  dom (tokensPriceMap (state (after env getMyTokensWithBalance w))) = dom res /\
  (forall address : string,
     res !! address = None ->
     tokensPriceMap (state (after env getMyTokensWithBalance w)) !! address = None) /\
  myTokensWithBalance (state (after env getMyTokensWithBalance w)) = Some res.
Proof.
  intros Hanswer. unfold outcome, after.
  rewrite exec_getMyTokensWithBalance, Hanswer. cbn.
  split; [reflexivity|]. split; [|split; [|split]].
  - intros address. apply lookup_fmap.
  - apply dom_fmap_L.
  - intros address Habsent. now rewrite lookup_fmap, Habsent.
  - reflexivity.
Qed.

(** The prices of two tokens and of the network token are stored, and the
    response holds one token. *)
Lemma getMyTokensWithBalance_overwrites_witness :
  let env := Sample.env (Some Sample.wallet) true false in
  let w := new_world (set_tokensPriceMap (<[CURRENT_CHAIN_ADDRESS := "3000"]> Sample.prices)
                        (Sample.ready "10")) in
  tokensPriceMap (state w) !! CURRENT_CHAIN_ADDRESS = Some "3000" /\
  tokensPriceMap (state (after env getMyTokensWithBalance w)) !! CURRENT_CHAIN_ADDRESS = None /\
  tokensPriceMap (state (after env getMyTokensWithBalance w)) !! Sample.usdc_address = Some "1" /\
  myTokensWithBalance (state (after env getMyTokensWithBalance w)) = Some Sample.my_tokens.
Proof.
  intros env w.
  destruct (getMyTokensWithBalance_overwrites env w Sample.my_tokens eq_refl)
    as (_ & Hlookup & _ & Hgone & Hmine).
  split; [reflexivity|]. split; [apply Hgone; reflexivity|].
  split; [rewrite Hlookup; reflexivity | exact Hmine].
Defined.

(** ** Selecting and switching tokens *)

(** What [setSourceToken] leaves in the fields a switch is about. *)
Lemma setSourceToken_fields (env : Env) (w : World) (token : option TokenInfo.t) :
  let w' := after env (setSourceToken token) w in
  outcome env (setSourceToken token) w = Returned tt /\
  sourceToken (state w') = match token with Some t => Some t | None => sourceToken (state w) end /\
  toToken (state w') = toToken (state w) /\
  sourceTokenAmount (state w') = sourceTokenAmount (state w) /\
  toTokenAmount (state w') = toTokenAmount (state w) /\
  tokensPriceMap (state w') = tokensPriceMap (state w).
Proof.
  unfold outcome, after, setSourceToken. destruct token as [t|]; [|repeat split].
  cbn -[answer]. rewrite hex_string_truthy. cbn -[answer].
  destruct (truthy_opt truthy_string _); repeat split.
Qed.

Lemma setToToken_fields (env : Env) (w : World) (token : option TokenInfo.t) :
  let w' := after env (setToToken token) w in
  outcome env (setToToken token) w = Returned tt /\
  toToken (state w') = match token with Some t => Some t | None => toToken (state w) end /\
  sourceToken (state w') = sourceToken (state w) /\
  sourceTokenAmount (state w') = sourceTokenAmount (state w) /\
  toTokenAmount (state w') = toTokenAmount (state w).
Proof.
  unfold outcome, after, setToToken. destruct token as [t|]; [|repeat split].
  rewrite hex_string_truthy. cbn -[answer].
  destruct (truthy_opt truthy_string _); repeat split.
Qed.

Lemma switchTokens_fields (env : Env) (w : World) :
  outcome env switchTokens w = Returned tt /\
  sourceToken (state (after env switchTokens w))
    = match toToken (state w) with Some t => Some t | None => sourceToken (state w) end /\
  toToken (state (after env switchTokens w))
    = match sourceToken (state w) with Some t => Some t | None => toToken (state w) end /\
  sourceTokenAmount (state (after env switchTokens w)) = "" /\
  toTokenAmount (state (after env switchTokens w)) = "".
Proof.
  unfold outcome, after, switchTokens.
  change (exec env (s <- get ;; _) w)
    with (exec env (setSourceToken (toToken (state w)) ;;
                    setToToken (sourceToken (state w)) ;;
                    modify (set_sourceTokenAmount "") ;;
                    modify (set_toTokenAmount "")) w).
  rewrite exec_bind.
  destruct (setSourceToken_fields env w (toToken (state w)))
    as (Hout1 & Hsrc1 & Hto1 & _).
  unfold outcome, after in Hout1, Hsrc1, Hto1.
  destruct (exec env (setSourceToken (toToken (state w))) w) as [o1 w1].
  cbn [fst snd] in Hout1, Hsrc1, Hto1. subst o1.
  rewrite exec_bind.
  destruct (setToToken_fields env w1 (sourceToken (state w)))
    as (Hout2 & Hto2 & Hsrc2 & _).
  unfold outcome, after in Hout2, Hsrc2, Hto2.
  destruct (exec env (setToToken (sourceToken (state w))) w1) as [o2 w2].
  cbn [fst snd] in Hout2, Hsrc2, Hto2. subst o2.
  cbn. rewrite Hsrc2, Hsrc1, Hto2, Hto1. repeat split.
Qed.

(** C8. [switchTokens] returns, swaps the selected tokens and clears both
    amounts. With both tokens set, the new [sourceToken] is the old
    [toToken] and the new [toToken] the old [sourceToken]. A side that was
    [undefined] is not carried over: when the old [toToken] was
    [undefined], [sourceToken] keeps its value, and when the old
    [sourceToken] was [undefined], [toToken] keeps its value. In every
    case both amounts are ['']. *)
Theorem switchTokens_spec (env : Env) (w : World) :
  let s := state w in
  let s' := state (after env switchTokens w) in
  outcome env switchTokens w = Returned tt /\
  (forall a b : TokenInfo.t,
     sourceToken s = Some a -> toToken s = Some b ->
     sourceToken s' = Some b /\ toToken s' = Some a) /\
  (toToken s = None -> sourceToken s' = sourceToken s) /\
  (sourceToken s = None -> toToken s' = toToken s) /\
  sourceTokenAmount s' = "" /\
  toTokenAmount s' = "".
Proof.
  cbv zeta. destruct (switchTokens_fields env w) as (Hout & Hsrc & Hto & Hsa & Hta).
  rewrite Hsrc, Hto. split; [exact Hout|]. split; [|split; [|split; [|split]]].
  - intros a b Ha Hb. rewrite Ha, Hb. split; reflexivity.
  - intros Hnone. rewrite Hnone. reflexivity.
  - intros Hnone. rewrite Hnone. reflexivity.
  - exact Hsa.
  - exact Hta.
Qed.

(** Both tokens are selected and an amount is typed. *)
Lemma switchTokens_spec_witness :
  let env := Sample.env (Some Sample.wallet) true false in
  let w := new_world (Sample.ready "10") in
  sourceToken (state w) = Some Sample.usdc /\ toToken (state w) = Some Sample.dai /\
  sourceToken (state (after env switchTokens w)) = Some Sample.dai /\
  toToken (state (after env switchTokens w)) = Some Sample.usdc /\
  sourceTokenAmount (state (after env switchTokens w)) = "".
Proof.
  intros env w.
  destruct (switchTokens_spec env w) as (_ & Hswap & _ & _ & Hamount & _).
  destruct (Hswap Sample.usdc Sample.dai eq_refl eq_refl) as [Hsrc Hto].
  repeat split; assumption.
Defined.

(** Only [sourceToken] is selected: it stays, and becomes [toToken] too. *)
Lemma switchTokens_one_side :
  let env := Sample.env (Some Sample.wallet) true false in
  let w := new_world (set_sourceToken (Some Sample.usdc) initial_state) in
  sourceToken (state (after env switchTokens w)) = Some Sample.usdc /\
  toToken (state (after env switchTokens w)) = Some Sample.usdc.
Proof. vm_compute. split; reflexivity. Qed.

(** ** The balance check *)

(** [getAddressPrice] changes [tokensPriceMap] at most. *)
Lemma getAddressPrice_keeps (env : Env) (w : World) (address : string) :
  let s' := state (after env (getAddressPrice address) w) in
  toTokenAmount s' = toTokenAmount (state w) /\
  toTokenPriceInUSD s' = toTokenPriceInUSD (state w) /\
  myTokensWithBalance s' = myTokensWithBalance (state w) /\
  inputError s' = inputError (state w) /\
  sourceTokenPriceInUSD s' = sourceTokenPriceInUSD (state w).
Proof.
  unfold after. rewrite exec_getAddressPrice.
  destruct (truthy_opt truthy_string _); [repeat split|].
  cbv zeta. destruct (answer env _ w); repeat split.
Qed.

Lemma exec_checkSourceTokenValues (env : Env) (w : World) (address amount : string) :
  exec env (checkSourceTokenValues address amount) w =
  match exec env (getAddressPrice address) w with
  | (Returned price, w1) =>
      let short := insufficient_balance (balance_of (state w) address) amount price in
      let s1 := set_inputError (if short then Some "Insufficient balance" else None)
                  (set_sourceTokenPriceInUSD price (state w1)) in
      (Returned tt,
       with_state (if short then set_toTokenPriceInUSD 0 (set_toTokenAmount "0" s1) else s1) w1)
  | (Thrown e, w1) => (Thrown e, w1)
  end.
Proof.
  unfold checkSourceTokenValues.
  rewrite exec_bind, exec_get. cbv beta iota zeta. rewrite exec_bind, exec_await.
  destruct (exec env (getAddressPrice address) w) as [[price|e] w1]; [|reflexivity].
  fold (balance_of (state w) address). unfold insufficient_balance. cbn.
  destruct (parseFloat (balance_of (state w) address) * price
            <? parseFloat amount * price)%float; reflexivity.
Qed.

(** C9. [checkSourceTokenValues] with the price [getAddressPrice] gives
    for [address]: it stores the price in [sourceTokenPriceInUSD]; when
    the balance stored for [address] (["0"] when there is none) times the
    price is strictly less than the amount times the price, [inputError]
    is ['Insufficient balance'], [toTokenAmount] is ['0'] and
    [toTokenPriceInUSD] is [0]; otherwise [inputError] is [undefined] and
    [toTokenAmount] and [toTokenPriceInUSD] are what they were. *)
Theorem checkSourceTokenValues_spec
    (env : Env) (w : World) (address amount : string) (price : number) :
  outcome env (getAddressPrice address) w = Returned price ->
  let s := state w in
  let s' := state (after env (checkSourceTokenValues address amount) w) in
  outcome env (checkSourceTokenValues address amount) w = Returned tt /\
  sourceTokenPriceInUSD s' = price /\
  (if (parseFloat (balance_of s address) * price <? parseFloat amount * price)%float
   then inputError s' = Some "Insufficient balance" /\
        toTokenAmount s' = "0" /\
        toTokenPriceInUSD s' = 0%float
   else inputError s' = None /\
        toTokenAmount s' = toTokenAmount s /\
        toTokenPriceInUSD s' = toTokenPriceInUSD s).
Proof.
  intros Hprice. cbv zeta.
  destruct (getAddressPrice_keeps env w address) as (Hta & Htp & _).
  unfold outcome, after in *. rewrite exec_checkSourceTokenValues.
  destruct (exec env (getAddressPrice address) w) as [o w1].
  cbn [fst snd] in *. subst o. cbv zeta. unfold insufficient_balance.
  destruct (_ <? _)%float; cbn; repeat split; assumption.
Qed.

(** The user holds 100 USDC: 1000 are too many, 10 are not. *)
Lemma checkSourceTokenValues_spec_witness :
  let env := Sample.env (Some Sample.wallet) true false in
  let w := new_world (Sample.ready "10") in
  (inputError (state (after env (checkSourceTokenValues Sample.usdc_address "1000") w))
     = Some "Insufficient balance" /\
   toTokenAmount (state (after env (checkSourceTokenValues Sample.usdc_address "1000") w))
     = "0") /\
  (inputError (state (after env (checkSourceTokenValues Sample.usdc_address "10") w)) = None /\
   toTokenAmount (state (after env (checkSourceTokenValues Sample.usdc_address "10") w))
     = "").
Proof.
  intros env w. split.
  - destruct (checkSourceTokenValues_spec env w Sample.usdc_address "1000" 1%float eq_refl)
      as (_ & _ & Hcase).
    vm_compute (_ <? _)%float in Hcase.
    destruct Hcase as (He & Ha & _). split; [exact He | exact Ha].
  - destruct (checkSourceTokenValues_spec env w Sample.usdc_address "10" 1%float eq_refl)
      as (_ & _ & Hcase).
    vm_compute (_ <? _)%float in Hcase.
    destruct Hcase as (He & Ha & _). split; [exact He | exact Ha].
Defined.

(** ** Initialisation *)

Lemma answer_with_state (env : Env) {X} (r : Request X) (s : ConvertControllerState) (w : World) :
  answer env r (with_state s w) = answer env r w.
Proof. reflexivity. Qed.

Lemma answer_log (env : Env) {X} (r : Request X) (e : Event) (w : World) :
  answer env r (log e w) = respond env X r (S (length (trace w))).
Proof.
  unfold answer. cbn. rewrite length_app. cbn. f_equal. lia.
Qed.

Lemma exec_getTokenList (env : Env) (w : World) :
  exec env getTokenList w =
  let w1 := log (Requested Api_getTokenList) w in
  match answer env Api_getTokenList w with
  | Resolved res =>
      (Returned (Some (res_tokens res)),
       with_state (set_popularTokens
                     (Some (popular_among (surroundings env) (res_tokens res)))
                     (set_tokens (Some (res_tokens res)) (state w))) w1)
  | Rejected e => (Thrown e, w1)
  end.
Proof.
  unfold getTokenList. cbn -[answer].
  destruct (answer env _ w); reflexivity.
Qed.




(** ** Operations that throw *)

(** C3 fails as stated: without a wallet, [getParams] throws. *)
Lemma getParams_throws_without_wallet :
  outcome (Sample.env None true false) getParams (new_world initial_state)
  = Thrown (Error "No address found to swap the tokens from.").
Proof. reflexivity. Qed.

Lemma exec_createTokenAllowance_guard (env : Env) (w : World) :
  (connected env = false -> exec env createTokenAllowance w = (Thrown no_address, w)) /\
  (connected env = true -> sourceToken (state w) = None ->
   exec env createTokenAllowance w = (Thrown no_allowance_source, w)).
Proof.
  unfold createTokenAllowance. rewrite exec_bind, exec_getParams. split.
  - intros ->. reflexivity.
  - intros -> Hnone. cbn. rewrite Hnone. reflexivity.
Qed.

Lemma exec_createConvert_guard (env : Env) (w : World) :
  (connected env = false -> exec env createConvert w = (Thrown no_address, w)) /\
  (connected env = true ->
   createConvert_invalid (params_of (wallet_address env) (state w)) = true ->
   exec env createConvert w = (Thrown invalid_convert, w)).
Proof.
  unfold createConvert. rewrite exec_bind, exec_getParams. split.
  - intros ->. reflexivity.
  - intros -> Hinvalid. unfold createConvert_invalid in Hinvalid. cbn in Hinvalid |- *.
    destruct (sourceToken (state w)) as [a|], (toToken (state w)) as [b|];
      cbn in Hinvalid |- *; try reflexivity.
    rewrite !hex_string_truthy in *. cbn in Hinvalid |- *.
    rewrite Hinvalid. reflexivity.
Qed.

(** C3, amended. Outside the two submission procedures the controller
    does throw, where the source says so. [getParams] throws exactly when
    no wallet is connected. [setSourceTokenAmount] throws exactly when no
    wallet is connected or no source token is selected.
    [createTokenAllowance] and [createConvert] throw without a wallet and
    when their guard fails. [getTokenList], [getNetworkTokenPrice] and
    [getMyTokensWithBalance] throw exactly when their request is
    rejected. The procedures that only assign to the state, and those
    that select tokens, return for every state and argument. *)
Theorem operations_that_throw (env : Env) (w : World) :
  (outcome env getParams w =
     if connected env then Returned (params_of (wallet_address env) (state w))
     else Thrown no_address)
  /\
  (forall amount : string,
     outcome env (setSourceTokenAmount amount) w =
       if connected env then
         match sourceToken (state w) with
         | Some _ => Returned tt
         | None => Thrown no_source_token
         end
       else Thrown no_address)
  /\
  (connected env = false ->
   outcome env createTokenAllowance w = Thrown no_address /\
   outcome env createConvert w = Thrown no_address)
  /\
  (connected env = true -> sourceToken (state w) = None ->
   outcome env createTokenAllowance w = Thrown no_allowance_source)
  /\
  (connected env = true ->
   createConvert_invalid (params_of (wallet_address env) (state w)) = true ->
   outcome env createConvert w = Thrown invalid_convert)
  /\
  (outcome env getTokenList w =
     match answer env Api_getTokenList w with
     | Resolved res => Returned (Some (res_tokens res))
     | Rejected e => Thrown e
     end)
  /\
  (outcome env getNetworkTokenPrice w =
     match answer env (Api_getTokenPriceWithAddresses [CURRENT_CHAIN_ADDRESS]) w with
     | Resolved _ => Returned tt
     | Rejected e => Thrown e
     end)
  /\
  (outcome env getMyTokensWithBalance w =
     match answer env Api_getMyTokensWithBalance w with
     | Resolved _ => Returned tt
     | Rejected e => Thrown e
     end)
  /\
  (forall amount : string, outcome env (setToTokenAmount amount) w = Returned tt) /\
  (forall isLoading : bool, outcome env (setLoading isLoading) w = Returned tt) /\
  (forall token : option TokenInfo.t, outcome env (setSourceToken token) w = Returned tt) /\
  (forall token : option TokenInfo.t, outcome env (setToToken token) w = Returned tt) /\
  outcome env switchTokens w = Returned tt /\
  outcome env clearFoundTokens w = Returned tt /\
  outcome env clearTokens w = Returned tt /\
  outcome env resetState w = Returned tt /\
  outcome env clearMyTokens w = Returned tt /\
  outcome env clearError w = Returned tt.
Proof.
  unfold outcome.
  split. { rewrite exec_getParams. now destruct (connected env). }
  split. { intros amount. rewrite exec_setSourceTokenAmount.
           destruct (connected env); [|reflexivity].
           now destruct (sourceToken (state w)). }
  split. { intros Hc.
           rewrite (proj1 (exec_createTokenAllowance_guard env w) Hc).
           rewrite (proj1 (exec_createConvert_guard env w) Hc). now split. }
  split. { intros Hc Hnone.
           now rewrite (proj2 (exec_createTokenAllowance_guard env w) Hc Hnone). }
  split. { intros Hc Hinvalid.
           now rewrite (proj2 (exec_createConvert_guard env w) Hc Hinvalid). }
  split. { rewrite exec_getTokenList. cbv zeta.
           now destruct (answer env Api_getTokenList w). }
  split. { rewrite exec_getNetworkTokenPrice. cbv zeta.
           now destruct (answer env _ w). }
  split. { rewrite exec_getMyTokensWithBalance. cbv zeta.
           now destruct (answer env Api_getMyTokensWithBalance w) as [[?|]|?]. }
  split; [reflexivity|]. split; [reflexivity|].
  split. { intros token. apply (setSourceToken_fields env w token). }
  split. { intros token. apply (setToToken_fields env w token). }
  split. { apply (switchTokens_fields env w). }
  repeat split.
Qed.

(** No wallet is connected; and a wallet is connected while no token is
    selected. *)
Lemma operations_that_throw_witness :
  let off := Sample.env None true false in
  let on := Sample.env (Some Sample.wallet) true false in
  let w := new_world initial_state in
  (outcome off createTokenAllowance w = Thrown no_address /\
   outcome off createConvert w = Thrown no_address) /\
  outcome on createTokenAllowance w = Thrown no_allowance_source /\
  outcome on createConvert w = Thrown invalid_convert /\
  outcome on (setSourceTokenAmount "1") w = Thrown no_source_token.
Proof.
  intros off on w.
  destruct (operations_that_throw off w) as (_ & _ & Hoff & _).
  destruct (operations_that_throw on w) as (_ & Hamount & _ & Hallowance & Hconvert & _).
  split; [exact (Hoff eq_refl)|].
  split; [exact (Hallowance eq_refl eq_refl)|].
  split; [exact (Hconvert eq_refl eq_refl)|].
  exact (Hamount "1").
Defined.

(** ** Calls that are not awaited *)

Lemma clear_pending_idle (w : World) : pending w = [] -> clear_pending w = w.
Proof. destruct w; cbn; intros ->; reflexivity. Qed.

(** With nothing else waiting, a call that is started and then taken up
    by the event loop ends where the same call, awaited, ends. *)
Lemma settle_start (env : Env) (p : Prog unit) (w : World) :
  spawn_free p -> pending w = [] ->
  settle env (start env p w) = finish env w p.
Proof.
  revert p w. unfold settle, finish. fix IH 1.
  intros [a|e|k|s k|k|X r k|k|e k|q k|q ms k] w Hfree Hidle;
    cbn [start exec spawn_free] in *.
  - destruct w; cbn in *; subst; reflexivity.
  - destruct w; cbn in *; subst; reflexivity.
  - apply IH; [apply Hfree | exact Hidle].
  - apply IH; [exact Hfree | exact Hidle].
  - apply IH; [apply Hfree | exact Hidle].
  - destruct w; cbn in *; subst; reflexivity.
  - destruct w; cbn in *; subst; reflexivity.
  - apply IH; [exact Hfree | exact Hidle].
  - contradiction.
  - apply IH; [exact Hfree | exact Hidle].
Qed.

Lemma spawn_free_bind {A B} (p : Prog A) (f : A -> Prog B) :
  spawn_free p -> (forall a, spawn_free (f a)) -> spawn_free (bind p f).
Proof.
  intros Hp Hf. induction p; cbn in *; auto.
Qed.

Ltac no_spawn :=
  repeat first
    [ apply spawn_free_bind; [|intros ?]
    | match goal with
      | |- spawn_free (if ?b then _ else _) => destruct b
      | |- spawn_free (match ?x with _ => _ end) => destruct x
      end
    | progress (cbn [spawn_free]; intros)
    | exact I ].

Lemma checkSourceTokenValues_spawn_free (address amount : string) :
  spawn_free (checkSourceTokenValues address amount ;; Ret tt).
Proof.
  unfold checkSourceTokenValues, await, getAddressPrice, request, modify, get.
  no_spawn.
Qed.

(** [setSourceTokenAmount] followed by the event loop: the amount is
    stored, and the balance check has run on the state that holds it. *)
Lemma setSourceTokenAmount_settled
    (env : Env) (w : World) (amount : string) (token : TokenInfo.t) :
  connected env = true -> sourceToken (state w) = Some token -> pending w = [] ->
  settle env (after env (setSourceTokenAmount amount) w)
  = finish env (with_state (set_sourceTokenAmount amount (state w)) w)
      (checkSourceTokenValues (hex_string (TokenInfo.address token)) amount ;; Ret tt).
Proof.
  intros Hc Htoken Hidle. unfold after.
  rewrite exec_setSourceTokenAmount, Hc, Htoken. cbn [snd].
  apply settle_start; [apply checkSourceTokenValues_spawn_free | exact Hidle].
Qed.

(** ** What a procedure leaves alone *)

Section Frames.

Variable R : relation ConvertControllerState.
Context `{!PreOrder R}.

Lemma frames_ret {A} (a : A) : frames R (Ret a).
Proof using Type*. intros env w. reflexivity. Qed.

Lemma frames_throw {A} (e : JsError) : frames R (@Throw A e).
Proof using Type*. intros env w. reflexivity. Qed.

Lemma frames_bind {A B} (p : Prog A) (f : A -> Prog B) :
  frames R p -> (forall a, frames R (f a)) -> frames R (bind p f).
Proof using Type*.
  intros Hp Hf env w. unfold after. rewrite exec_bind.
  specialize (Hp env w). unfold after in Hp.
  destruct (exec env p w) as [[a|e] w1]; cbn [snd] in *; [|exact Hp].
  transitivity (state w1); [exact Hp | apply (Hf a env w1)].
Qed.

Lemma frames_get : frames R get.
Proof using Type*. intros env w. reflexivity. Qed.

Lemma frames_ask : frames R ask.
Proof using Type*. intros env w. reflexivity. Qed.

Lemma frames_modify (f : ConvertControllerState -> ConvertControllerState) :
  (forall s, R s (f s)) -> frames R (modify f).
Proof using Type*. intros Hf env w. apply Hf. Qed.

Lemma frames_request {X} (r : Request X) : frames R (request r).
Proof using Type*.
  intros env w. unfold after. rewrite exec_request. reflexivity.
Qed.

Lemma frames_emit (e : Effect) : frames R (emit e).
Proof using Type*. intros env w. reflexivity. Qed.

Lemma frames_await {A} (p : Prog A) : frames R p -> frames R (await p).
Proof using Type*. intros Hp env w. unfold after. rewrite exec_await. apply Hp. Qed.

Lemma frames_toBigInt (v : numeric) : frames R (toBigInt v).
Proof using Type*. intros env w. unfold after, toBigInt. destruct (BigInt v); reflexivity. Qed.

End Frames.

(** A procedure built from steps that leave [R] alone leaves it alone:
    the proof follows the text of the procedure. *)
Ltac frame_step :=
  first
    [ apply frames_bind; [apply _ | | intros ?]
    | apply frames_await; [apply _ |]
    | apply frames_ret; apply _
    | apply frames_throw; apply _
    | apply frames_get; apply _
    | apply frames_ask; apply _
    | apply frames_request; apply _
    | apply frames_emit; apply _
    | apply frames_toBigInt; apply _
    | apply frames_modify; [apply _ | intros ?; hnf; reflexivity]
    | match goal with
      | |- frames _ (if ?b then _ else _) => destruct b
      | |- frames _ (match ?x with _ => _ end) => destruct x
      end ].
Ltac frame := repeat frame_step.

(** The relation "the field [f] is what it was". *)
Global Instance unchanged_preorder {A} (f : ConvertControllerState -> A) :
  PreOrder (unchanged f).
Proof.
  split; [intros s; reflexivity|].
  intros s1 s2 s3 H12 H23. unfold unchanged in *. congruence.
Qed.

Lemma getParams_frames (R : relation ConvertControllerState) `{!PreOrder R} :
  frames R getParams.
Proof. unfold getParams. frame. Qed.

Lemma makeChecks_keeps_convertLoading : frames (unchanged convertLoading) makeChecks.
Proof.
  unfold makeChecks, createConvert, createTokenAllowance, setToTokenAmountValue,
    setTransactionDetails.
  frame; apply getParams_frames; apply _.
Qed.

(** Past its guard, [convertTokens] leaves [convertLoading] set, however
    it ends. *)
Lemma convertTokens_sets_convertLoading (env : Env) (w : World) (a b : TokenInfo.t) :
  connected env = true ->
  sourceToken (state w) = Some a -> toToken (state w) = Some b ->
  convertLoading (state (after env convertTokens w)) = true.
Proof.
  intros Hc Ha Hb. unfold after, convertTokens.
  rewrite exec_bind, exec_getParams, Hc. unfold params_of.
  cbn [Params.sourceTokenAddress Params.toTokenAddress]. rewrite Ha, Hb.
  cbn [fmap option_fmap option_map truthy_opt]. rewrite !hex_string_truthy.
  cbn [negb orb]. rewrite exec_bind, exec_modify, exec_await.
  apply (makeChecks_keeps_convertLoading env
           (with_state (set_convertLoading true (state w)) w)).
Qed.

Lemma finish_state (env : Env) (w : World) (job : Prog unit) :
  state (finish env w job) = state (after env job w).
Proof.
  unfold finish, after. now destruct (exec env job w) as [[u|e] w'].
Qed.

Lemma checkSourceTokenValues_keeps_sourceTokenAmount (address amount : string) :
  frames (unchanged sourceTokenAmount) (checkSourceTokenValues address amount ;; Ret tt).
Proof.
  unfold checkSourceTokenValues, getAddressPrice. frame.
Qed.

(** The amount typed is still there when the balance check that
    [setSourceTokenAmount] started has run. *)
Lemma amount_survives_the_check
    (env : Env) (w : World) (amount : string) (token : TokenInfo.t) :
  connected env = true -> sourceToken (state w) = Some token -> pending w = [] ->
  sourceTokenAmount (state (settle env (after env (setSourceTokenAmount amount) w))) = amount.
Proof.
  intros Hc Htoken Hidle.
  rewrite (setSourceTokenAmount_settled env w amount token Hc Htoken Hidle).
  rewrite finish_state.
  apply (checkSourceTokenValues_keeps_sourceTokenAmount _ _ env
           (with_state (set_sourceTokenAmount amount (state w)) w)).
Qed.

(** The user holds 100 USDC and types 1000: the call returns at once with
    the amount stored; the check reports the balance as insufficient once
    the event loop has run it. *)
Example typing_more_than_the_balance :
  let env := Sample.env (Some Sample.wallet) true false in
  let w := after env (setSourceTokenAmount "1000") (new_world (Sample.ready "10")) in
  (sourceTokenAmount (state w) = "1000" /\ inputError (state w) = None /\
   length (pending w) = 1) /\
  (sourceTokenAmount (state (settle env w)) = "1000" /\
   inputError (state (settle env w)) = Some "Insufficient balance" /\
   toTokenAmount (state (settle env w)) = "0" /\
   pending (settle env w) = [] /\ unhandled (settle env w) = []).
Proof. vm_compute. repeat split. Qed.

(** ** The loading flags *)

(** [createTokenAllowance], past its guard, sets [loading] and leaves it
    set, however it ends: clearing it is left to [makeChecks]. *)
Lemma createTokenAllowance_sets_loading (env : Env) (w : World) (a : TokenInfo.t) :
  connected env = true -> sourceToken (state w) = Some a ->
  loading (state (after env createTokenAllowance w)) = Some true.
Proof.
  intros Hc Ha. unfold after, createTokenAllowance.
  rewrite exec_bind, exec_getParams, Hc. unfold params_of.
  cbn [Params.sourceTokenAddress Params.fromAddress]. rewrite Ha.
  cbn [fmap option_fmap option_map]. rewrite hex_string_truthy. cbn [negb].
  rewrite exec_bind, exec_modify.
  lazymatch goal with
  | |- loading (state (exec env ?rest ?w1).2) = _ =>
      assert (frames (unchanged loading) rest) as Hrest by frame;
      transitivity (loading (state w1)); [exact (Hrest env w1) | reflexivity]
  end.
Qed.

(** C4 fails as stated: [convertTokens] completes, with both tokens
    selected and the allowance granted, and [convertLoading] is still
    [true] (while [loading] is back to [false]); [createTokenAllowance]
    completes and [loading], which it set, is still [true]. *)
Lemma convertTokens_leaves_convertLoading_set :
  let env := Sample.env (Some Sample.wallet) true false in
  let w := new_world (Sample.ready "10") in
  (outcome env convertTokens w = Returned tt /\
   convertLoading (state w) = false /\
   convertLoading (state (after env convertTokens w)) = true /\
   loading (state (after env convertTokens w)) = Some false) /\
  (loading (state w) = Some false /\
   loading (state (after env createTokenAllowance w)) = Some true).
Proof. vm_compute. repeat split. Qed.

(** [makeChecks] past its guard: what is left to do ends with
    [state.loading = false]. *)
Lemma makeChecks_clears_loading (env : Env) (w : World) :
  connected env = true ->
  makeChecks_returns_early (params_of (wallet_address env) (state w)) = false ->
  outcome env makeChecks w = Returned tt ->
  loading (state (after env makeChecks w)) = Some false.
Proof.
  intros Hc Hearly. unfold outcome, after.
  destruct (exec env makeChecks w) as [o w'] eqn:Hexec. cbn [fst snd]. intros ->.
  unfold makeChecks in Hexec.
  rewrite exec_bind, exec_getParams, Hc, Hearly in Hexec.
  unfold makeChecks_returns_early in Hearly. cbn in Hearly.
  cbv beta iota in Hexec. unfold params_of in Hexec.
  cbn [Params.sourceTokenAddress Params.sourceTokenDecimals Params.toTokenDecimals
       Params.toTokenAddress Params.fromAddress Params.sourceTokenAmount] in Hexec.
  destruct (sourceToken (state w)) as [a|]; [|discriminate Hearly].
  destruct (toToken (state w)) as [b|];
    [|cbn in Hearly; rewrite !orb_true_r in Hearly; discriminate Hearly].
  cbn [fmap option_fmap option_map] in Hexec.
  rewrite exec_bind, exec_modify in Hexec.
  rewrite exec_bind, exec_request in Hexec.
  destruct (answer env _ _) as [hasAllowance|e]; [|discriminate Hexec].
  rewrite exec_bind, exec_get in Hexec. cbv beta iota zeta in Hexec.
  rewrite exec_bind in Hexec.
  destruct (exec env (if hasAllowance then _ else _) _) as [[u|e] w3];
    [|discriminate Hexec].
  rewrite exec_modify in Hexec. injection Hexec as <-. reflexivity.
Qed.

(** A call that is started runs [getParams] at once. *)
Lemma start_getParams (env : Env) (w : World) (k : Params.t -> Prog unit) :
  connected env = true ->
  start env (p <- getParams ;; k p) w
  = start env (k (params_of (wallet_address env) (state w))) w.
Proof.
  unfold connected, wallet_address, getParams, params_of, ask.
  cbn [bind start]. destruct (account_address (surroundings env)) as [address|];
    [|discriminate].
  cbn [truthy_opt default]. intros ->. reflexivity.
Qed.

(** [sendTransactionForApproval] up to the moment it waits for the
    wallet: the flag is up and the submission is sent. *)
Lemma start_sendTransactionForApproval
    (env : Env) (w : World) (data : TransactionParams.t) :
  connected env = true ->
  state (start env (sendTransactionForApproval data) w)
    = set_transactionLoading (Some true) (state w) /\
  trace (start env (sendTransactionForApproval data) w)
    = trace w ++ [Requested (approval_submission (wallet_address env) data)].
Proof.
  intros Hc. unfold sendTransactionForApproval.
  rewrite start_getParams by exact Hc. split; reflexivity.
Qed.

Lemma start_sendTransactionForConvert
    (env : Env) (w : World) (data : TransactionParams.t) :
  connected env = true ->
  state (start env (sendTransactionForConvert (Some data) ;; Ret tt) w)
    = set_transactionLoading (Some true) (state w) /\
  trace (start env (sendTransactionForConvert (Some data) ;; Ret tt) w)
    = trace w ++ [Requested (convert_submission (wallet_address env) data)].
Proof.
  unfold connected, wallet_address, sendTransactionForConvert, getParams, ask.
  cbn [bind start].
  destruct (account_address (surroundings env)) as [address|]; [|discriminate].
  cbn [truthy_opt default]. intros ->. split; reflexivity.
Qed.

(** [makeChecks], past its guard, up to the moment it waits for the
    allowance: [loading] is up, nothing else has changed, and the
    allowance request is sent. *)
Lemma start_makeChecks (env : Env) (w : World) :
  connected env = true ->
  makeChecks_returns_early (params_of (wallet_address env) (state w)) = false ->
  state (start env makeChecks w) = set_loading (Some true) (state w) /\
  forall a : TokenInfo.t,
    sourceToken (state w) = Some a ->
    trace (start env makeChecks w)
    = trace w ++ [Requested (allowance_request (wallet_address env) a
                               (sourceTokenAmount (state w)))].
Proof.
  intros Hc Hearly. unfold makeChecks.
  rewrite start_getParams by exact Hc. rewrite Hearly.
  unfold makeChecks_returns_early in Hearly. unfold params_of in *.
  cbn [Params.sourceTokenAddress Params.sourceTokenDecimals Params.toTokenDecimals
       Params.toTokenAddress Params.fromAddress Params.sourceTokenAmount] in *.
  destruct (sourceToken (state w)) as [a|]; [|discriminate Hearly].
  destruct (toToken (state w)) as [b|];
    [|cbn in Hearly; rewrite !orb_true_r in Hearly; discriminate Hearly].
  split; [reflexivity|]. intros a' [= <-]. reflexivity.
Qed.

(** C4, amended. [transactionLoading] and [loading] go from loading to
    done. With a wallet connected, [sendTransactionForApproval] and
    [sendTransactionForConvert] (given a transaction) set
    [transactionLoading] to [true] before they ask the wallet: while the
    submission is waited for, the flag is [true], nothing else of the
    state has changed and the submission is the one request sent. They
    return with [transactionLoading] back to [false], whether the
    submission is accepted or rejected; without a wallet they throw before
    setting the flag and change nothing. [makeChecks], past its guard,
    sets [loading] to [true] before it asks for the allowance, and has
    set it back to [false] whenever it returns. [createTokenAllowance],
    past its guard, sets [loading] and leaves it set for [makeChecks], its
    caller, to clear. *)
Theorem loading_flags_are_cleared (env : Env) (w : World) :
  (forall data : TransactionParams.t,
     if connected env then
       (state (start env (sendTransactionForApproval data) w)
          = set_transactionLoading (Some true) (state w) /\
        trace (start env (sendTransactionForApproval data) w)
          = trace w ++ [Requested (approval_submission (wallet_address env) data)]) /\
       outcome env (sendTransactionForApproval data) w = Returned tt /\
       transactionLoading (state (after env (sendTransactionForApproval data) w)) = Some false
     else
       exec env (sendTransactionForApproval data) w = (Thrown no_address, w))
  /\
  (forall data : TransactionParams.t,
     if connected env then
       (state (start env (sendTransactionForConvert (Some data) ;; Ret tt) w)
          = set_transactionLoading (Some true) (state w) /\
        trace (start env (sendTransactionForConvert (Some data) ;; Ret tt) w)
          = trace w ++ [Requested (convert_submission (wallet_address env) data)]) /\
       (exists hash, outcome env (sendTransactionForConvert (Some data)) w = Returned hash) /\
       transactionLoading (state (after env (sendTransactionForConvert (Some data)) w))
         = Some false
     else
       exec env (sendTransactionForConvert (Some data)) w = (Thrown no_address, w))
  /\
  (connected env = true ->
   makeChecks_returns_early (params_of (wallet_address env) (state w)) = false ->
   (state (start env makeChecks w) = set_loading (Some true) (state w) /\
    forall a : TokenInfo.t,
      sourceToken (state w) = Some a ->
      trace (start env makeChecks w)
      = trace w ++ [Requested (allowance_request (wallet_address env) a
                                 (sourceTokenAmount (state w)))]) /\
   (outcome env makeChecks w = Returned tt ->
    loading (state (after env makeChecks w)) = Some false))
  /\
  (forall token : TokenInfo.t,
     connected env = true -> sourceToken (state w) = Some token ->
     loading (state (after env createTokenAllowance w)) = Some true).
Proof.
  split; [|split; [|split]].
  - intros data. destruct (connected env) eqn:Hc.
    + split; [apply start_sendTransactionForApproval; exact Hc|].
      unfold outcome, after. rewrite exec_sendTransactionForApproval by exact Hc.
      cbv zeta. destruct (answer env _ w); split; reflexivity.
    + unfold sendTransactionForApproval. rewrite exec_bind, exec_getParams, Hc. reflexivity.
  - intros data. destruct (connected env) eqn:Hc.
    + split; [apply start_sendTransactionForConvert; exact Hc|].
      unfold outcome, after. rewrite exec_sendTransactionForConvert by exact Hc.
      cbv zeta. destruct (answer env _ w) as [hash|e]; (split; [eexists|]; reflexivity).
    + unfold sendTransactionForConvert. rewrite exec_bind, exec_getParams, Hc. reflexivity.
  - intros Hc Hearly. split; [apply start_makeChecks; assumption|].
    apply makeChecks_clears_loading; assumption.
  - intros token. apply createTokenAllowance_sets_loading.
Qed.

(** A wallet is connected, both tokens are selected, ten units are typed
    and the siblings answer; no flag is up. Each flag is up while the
    procedure waits, and down again when it is done; the one
    [createTokenAllowance] raised stays up. *)
Lemma loading_flags_are_cleared_witness :
  let env := Sample.env (Some Sample.wallet) true false in
  let w := new_world (Sample.ready "10") in
  (loading (state w) = Some false /\ transactionLoading (state w) = Some false) /\
  (transactionLoading (state (start env (sendTransactionForApproval Sample.params) w))
     = Some true /\
   transactionLoading (state (after env (sendTransactionForApproval Sample.params) w))
     = Some false) /\
  (transactionLoading
     (state (start env (sendTransactionForConvert (Some Sample.params) ;; Ret tt) w))
     = Some true /\
   transactionLoading
     (state (after env (sendTransactionForConvert (Some Sample.params)) w))
     = Some false) /\
  (loading (state (start env makeChecks w)) = Some true /\
   trace (start env makeChecks w)
     = [Requested (allowance_request Sample.wallet Sample.usdc "10")] /\
   loading (state (after env makeChecks w)) = Some false) /\
  loading (state (after env createTokenAllowance w)) = Some true.
Proof.
  intros env w.
  destruct (loading_flags_are_cleared env w) as (Happroval & Hconvert & Hchecks & Hallowance).
  destruct (Happroval Sample.params) as ((Hup & _) & _ & Hdown).
  destruct (Hconvert Sample.params) as ((Hup' & _) & _ & Hdown').
  destruct (Hchecks eq_refl eq_refl) as ((Hloading & Hasked) & Hdone).
  split; [split; reflexivity|].
  split; [split; [rewrite Hup; reflexivity | exact Hdown]|].
  split; [split; [rewrite Hup'; reflexivity | exact Hdown']|].
  split; [split; [rewrite Hloading; reflexivity
                 | split; [exact (Hasked Sample.usdc eq_refl) | exact (Hdone eq_refl)]]|].
  exact (Hallowance Sample.usdc eq_refl eq_refl).
Defined.

(* ===================================================================== *)
(** * Further properties *)
(* ===================================================================== *)

(** ** The token list *)

(** The fold of [getTokenList] over the entries of an object keeps the
    entries that are popular and leaves the accumulator elsewhere. *)
Lemma reduce_popular_lookup
    (c : Surroundings) (entries : list (string * TokenInfo.t))
    (acc : gmap string TokenInfo.t) (address : string) :
  NoDup entries.*1 ->
  foldl (fun limitedTokens '(tokenAddress, tokenInfo) =>
           if bool_decide (TokenInfo.symbol tokenInfo ∈ POPULAR_TOKENS c)
           then <[tokenAddress := tokenInfo]> limitedTokens
           else limitedTokens) acc entries
    !! address
  = match (list_to_map entries : gmap string TokenInfo.t) !! address with
    | Some tokenInfo => if is_popular c tokenInfo then Some tokenInfo else acc !! address
    | None => acc !! address
    end.
Proof.
  revert acc. induction entries as [|[a i] entries IH]; intros acc Hnodup.
  - reflexivity.
  - rewrite fmap_cons in Hnodup. apply NoDup_cons in Hnodup as [Hfresh Hnodup].
    cbn [fst] in Hfresh. cbn [foldl].
    rewrite IH by exact Hnodup. cbn [list_to_map foldr fst snd uncurry].
    destruct (decide (a = address)) as [->|Hne].
    + rewrite (not_elem_of_list_to_map_1 entries address Hfresh).
      rewrite lookup_insert_eq. unfold is_popular.
      destruct (bool_decide _); [apply lookup_insert_eq | reflexivity].
    + rewrite (lookup_insert_ne (list_to_map entries) a address) by exact Hne.
      destruct (list_to_map entries !! address) as [j|].
      * destruct (is_popular c j); [reflexivity|].
        destruct (bool_decide _); [apply lookup_insert_ne; exact Hne | reflexivity].
      * destruct (bool_decide _); [apply lookup_insert_ne; exact Hne | reflexivity].
Qed.

Lemma popular_among_lookup
    (c : Surroundings) (tokens : gmap string TokenInfo.t) (address : string) :
  popular_among c tokens !! address
  = match tokens !! address with
    | Some tokenInfo => if is_popular c tokenInfo then Some tokenInfo else None
    | None => None
    end.
Proof.
  unfold popular_among, object_entries.
  rewrite reduce_popular_lookup by apply NoDup_fst_map_to_list.
  rewrite list_to_map_to_list, lookup_empty. reflexivity.
Qed.

(** X1. When the token list arrives, [getTokenList] returns it and stores
    it in [tokens], and [popularTokens] holds exactly the listed tokens
    whose symbol is one of [POPULAR_TOKENS], each under the address it is
    listed under. *)
Theorem getTokenList_popular (env : Env) (w : World) (res : TokenListResponse) :
  answer env Api_getTokenList w = Resolved res ->
  outcome env getTokenList w = Returned (Some (res_tokens res)) /\
  tokens (state (after env getTokenList w)) = Some (res_tokens res) /\
  exists popular : gmap string TokenInfo.t,
    popularTokens (state (after env getTokenList w)) = Some popular /\
    forall (address : string) (tokenInfo : TokenInfo.t),
      popular !! address = Some tokenInfo <->
      res_tokens res !! address = Some tokenInfo /\
      TokenInfo.symbol tokenInfo ∈ POPULAR_TOKENS (surroundings env).
Proof.
  intros Hanswer. unfold outcome, after. rewrite exec_getTokenList, Hanswer. cbn.
  split; [reflexivity|]. split; [reflexivity|].
  exists (popular_among (surroundings env) (res_tokens res)). split; [reflexivity|].
  intros address tokenInfo. rewrite popular_among_lookup.
  destruct (res_tokens res !! address) as [i|]; [|split; [discriminate | intros [? _]; discriminate]].
  unfold is_popular. destruct (bool_decide_reflect (TokenInfo.symbol i ∈ POPULAR_TOKENS (surroundings env))) as [Hin|Hout].
  - split; [intros [= <-]; now split | now intros [? _]].
  - split; [discriminate | intros [[= <-] Hin]; contradiction].
Qed.

(** Three tokens are listed and two of them are popular. *)
Lemma getTokenList_popular_witness :
  let w := new_world initial_state in
  tokens (state (after Scenario.listing getTokenList w)) = Some Scenario.listed /\
  exists popular : gmap string TokenInfo.t,
    popularTokens (state (after Scenario.listing getTokenList w)) = Some popular /\
    popular !! Sample.usdc_address = Some Sample.usdc /\
    popular !! Scenario.shib_address = None.
Proof.
  intros w.
  destruct (getTokenList_popular Scenario.listing w {| res_tokens := Scenario.listed |} eq_refl)
    as (_ & Htokens & popular & Hpopular & Hiff).
  split; [exact Htokens|]. exists popular. split; [exact Hpopular|]. split.
  - apply Hiff. split; [reflexivity|].
    apply (bool_decide_unpack _). vm_compute. reflexivity.
  - destruct (popular !! Scenario.shib_address) as [i|] eqn:Hshib; [|reflexivity].
    apply Hiff in Hshib as [Hlisted Hin]. vm_compute in Hlisted.
    assert (TokenInfo.symbol i = "SHIB") as Hsymbol
      by (apply (f_equal (fmap TokenInfo.symbol)) in Hlisted; cbn in Hlisted; congruence).
    rewrite Hsymbol in Hin. apply list_elem_of_In in Hin. cbn in Hin.
    destruct Hin as [?|[?|[?|[]]]]; discriminate.
Defined.

(** ** The price cache *)

Lemma or_string_truthy (v : option string) (d : string) :
  truthy_string d = true -> truthy_string (or_string v d) = true.
Proof.
  intros Hd. destruct v as [s|]; cbn; [|exact Hd].
  destruct (truthy_string s) eqn:Hs; [exact Hs | exact Hd].
Qed.

(** X2. [getAddressPrice] caches: once it has returned a price for
    [address], a second call returns the same price, sends no request and
    changes nothing. *)
Theorem getAddressPrice_caches (env : Env) (w : World) (address : string) (price : number) :
  outcome env (getAddressPrice address) w = Returned price ->
  exec env (getAddressPrice address) (after env (getAddressPrice address) w)
  = (Returned price, after env (getAddressPrice address) w).
Proof.
  unfold outcome, after. rewrite (exec_getAddressPrice env w).
  destruct (truthy_opt truthy_string (tokensPriceMap (state w) !! address)) eqn:Hstored.
  - cbn [fst snd]. intros [= <-]. rewrite exec_getAddressPrice, Hstored. reflexivity.
  - cbv zeta. destruct (answer env _ w) as [prices|e]; cbn [fst snd]; [|discriminate].
    intros [= <-]. rewrite exec_getAddressPrice. cbn [state with_state log set_tokensPriceMap tokensPriceMap].
    rewrite lookup_insert_eq. cbn [truthy_opt].
    rewrite or_string_truthy by reflexivity. reflexivity.
Qed.

(** Nothing is stored and the price API knows the price of USDC. *)
Lemma getAddressPrice_caches_witness :
  let env := Sample.env (Some Sample.wallet) true false in
  let w := after env (getAddressPrice Sample.usdc_address) (new_world initial_state) in
  trace w = [Requested (Api_getTokenPriceWithAddresses [Sample.usdc_address])] /\
  exec env (getAddressPrice Sample.usdc_address) w = (Returned 1%float, w).
Proof.
  intros env w. split; [reflexivity|].
  exact (getAddressPrice_caches env (new_world initial_state) Sample.usdc_address 1%float eq_refl).
Defined.

(** ** Switching twice *)

(** X3. With both tokens selected, [switchTokens] twice gives the
    selection back (and leaves both amounts empty). With only the source
    token selected, one switch copies it to the other side, and a second
    switch cannot undo that. *)
Theorem switchTokens_twice (env : Env) (w : World) (a : TokenInfo.t) :
  sourceToken (state w) = Some a ->
  let w1 := after env switchTokens w in
  let w2 := after env switchTokens w1 in
  (forall b : TokenInfo.t,
     toToken (state w) = Some b ->
     sourceToken (state w2) = Some a /\ toToken (state w2) = Some b /\
     sourceTokenAmount (state w2) = "" /\ toTokenAmount (state w2) = "")
  /\
  (toToken (state w) = None ->
   sourceToken (state w1) = Some a /\ toToken (state w1) = Some a /\
   sourceToken (state w2) = Some a /\ toToken (state w2) = Some a).
Proof.
  intros Ha. cbv zeta.
  destruct (switchTokens_fields env w) as (_ & Hs1 & Ht1 & _).
  destruct (switchTokens_fields env (after env switchTokens w)) as (_ & Hs2 & Ht2 & Hsa & Hta).
  rewrite Hs2, Ht2, Hs1, Ht1, Ha. split.
  - intros b Hb. rewrite Hb. repeat split; assumption.
  - intros Hnone. rewrite Hnone. repeat split.
Qed.

Lemma switchTokens_twice_witness :
  let env := Sample.env (Some Sample.wallet) true false in
  let w := new_world (Sample.ready "10") in
  sourceToken (state (after env switchTokens (after env switchTokens w))) = Some Sample.usdc /\
  toToken (state (after env switchTokens (after env switchTokens w))) = Some Sample.dai.
Proof.
  intros env w.
  destruct (switchTokens_twice env w Sample.usdc eq_refl) as [Hboth _].
  destruct (Hboth Sample.dai eq_refl) as (Hs & Ht & _). split; assumption.
Defined.

(** ** Selecting a token, and the event loop *)

Lemma exec_setToToken (env : Env) (w : World) (token : TokenInfo.t) :
  exec env (setToToken (Some token)) w =
  let address := hex_string (TokenInfo.address token) in
  let w1 := with_state (set_toToken (Some token) (state w)) w in
  if truthy_opt truthy_string (tokensPriceMap (state w) !! address)
  then (Returned tt,
        with_state (set_toTokenPriceInUSD
                      (parseFloat (or_string (tokensPriceMap (state w) !! address) "0"))
                      (state w1)) w1)
  else (Returned tt, start env (checkToTokenValues address ;; Ret tt) w1).
Proof.
  unfold setToToken. rewrite hex_string_truthy. cbn [negb].
  rewrite exec_bind, exec_modify, exec_bind, exec_get. cbv beta iota zeta.
  cbn [state with_state set_toToken tokensPriceMap].
  destruct (truthy_opt truthy_string _); reflexivity.
Qed.

Lemma exec_setSourceToken (env : Env) (w : World) (token : TokenInfo.t) :
  exec env (setSourceToken (Some token)) w =
  let address := hex_string (TokenInfo.address token) in
  let w1 := with_state (set_sourceToken (Some token) (state w)) w in
  if truthy_opt truthy_string (tokensPriceMap (state w) !! address)
  then (Returned tt, w1)
  else (Returned tt, start env (setTokenPriceToMap address ;; Ret tt) w1).
Proof.
  unfold setSourceToken.
  rewrite exec_bind, exec_modify, exec_bind, exec_get. cbv beta iota zeta.
  rewrite hex_string_truthy. cbn [state with_state set_sourceToken tokensPriceMap andb].
  destruct (truthy_opt truthy_string _); reflexivity.
Qed.

Lemma checkToTokenValues_spawn_free (address : string) :
  spawn_free (checkToTokenValues address ;; Ret tt).
Proof.
  unfold checkToTokenValues, await, setTokenPriceToMap, request, modify. no_spawn.
Qed.

Lemma setTokenPriceToMap_spawn_free (address : string) :
  spawn_free (setTokenPriceToMap address ;; Ret tt).
Proof.
  unfold setTokenPriceToMap, request, modify. no_spawn.
Qed.

Lemma settle_idle (env : Env) (w : World) : pending w = [] -> settle env w = w.
Proof.
  intros Hidle. unfold settle. rewrite Hidle. cbn. now apply clear_pending_idle.
Qed.

(** What the event loop leaves of [checkToTokenValues]. *)
Lemma finish_checkToTokenValues (env : Env) (w : World) (address : string) :
  finish env w (checkToTokenValues address ;; Ret tt) =
  match exec env (setTokenPriceToMap address) w with
  | (Returned price, w1) => with_state (set_toTokenPriceInUSD (parseFloat price) (state w1)) w1
  | (Thrown e, w1) => report e w1
  end.
Proof.
  unfold finish, checkToTokenValues.
  rewrite exec_bind, exec_bind, exec_await.
  destruct (exec env (setTokenPriceToMap address) w) as [[price|e] w1]; reflexivity.
Qed.

Lemma finish_setTokenPriceToMap (env : Env) (w : World) (address : string) :
  finish env w (setTokenPriceToMap address ;; Ret tt) =
  match exec env (setTokenPriceToMap address) w with
  | (Returned _, w1) => w1
  | (Thrown e, w1) => report e w1
  end.
Proof.
  unfold finish. rewrite exec_bind.
  destruct (exec env (setTokenPriceToMap address) w) as [[price|e] w1]; reflexivity.
Qed.

(** X4. [setToToken] and then the event loop, with nothing else waiting.
    The token is selected. When a price is stored for it,
    [toTokenPriceInUSD] is that price and no request is sent. When none
    is, one price request is sent; once it is answered the price (['0']
    when the answer has none) is stored and [toTokenPriceInUSD] is its
    value; if it is rejected, the rejection is handled by nobody and
    [toTokenPriceInUSD] is still what it was for the token selected
    before. *)
Theorem setToToken_then_event_loop (env : Env) (w : World) (token : TokenInfo.t) :
  pending w = [] ->
  let address := hex_string (TokenInfo.address token) in
  let w' := settle env (after env (setToToken (Some token)) w) in
  toToken (state w') = Some token /\
  (forall stored : string,
     tokensPriceMap (state w) !! address = Some stored -> truthy_string stored = true ->
     toTokenPriceInUSD (state w') = parseFloat stored /\ trace w' = trace w)
  /\
  (truthy_opt truthy_string (tokensPriceMap (state w) !! address) = false ->
   (forall prices : gmap string string,
      answer env (Api_getTokenPriceWithAddresses [address]) w = Resolved prices ->
      tokensPriceMap (state w') !! address = Some (or_string (prices !! address) "0") /\
      toTokenPriceInUSD (state w') = parseFloat (or_string (prices !! address) "0") /\
      trace w' = trace w ++ [Requested (Api_getTokenPriceWithAddresses [address])]) /\
   (forall e : JsError,
      answer env (Api_getTokenPriceWithAddresses [address]) w = Rejected e ->
      toTokenPriceInUSD (state w') = toTokenPriceInUSD (state w) /\
      unhandled w' = unhandled w ++ [e])).
Proof.
  intros Hidle. cbv zeta. unfold after. rewrite exec_setToToken. cbv zeta.
  destruct (truthy_opt truthy_string
              (tokensPriceMap (state w) !! hex_string (TokenInfo.address token))) eqn:Hstored;
    cbn [snd].
  - rewrite settle_idle by exact Hidle. split; [reflexivity|]. split.
    + intros stored Hs Ht. rewrite Hs. cbn. rewrite Ht. split; reflexivity.
    + discriminate.
  - rewrite settle_start by (apply checkToTokenValues_spawn_free || exact Hidle).
    rewrite finish_checkToTokenValues, exec_setTokenPriceToMap. cbv zeta.
    rewrite answer_with_state. split; [|split].
    + destruct (answer env _ w) as [prices|e]; [|reflexivity].
      cbn. now destruct (String.eqb _ CURRENT_CHAIN_ADDRESS).
    + intros stored Hs Ht. rewrite Hs in Hstored. cbn in Hstored. congruence.
    + intros _. split.
      * intros prices ->. cbn.
        destruct (String.eqb _ CURRENT_CHAIN_ADDRESS); cbn;
          (split; [apply lookup_insert_eq | split; reflexivity]).
      * intros e ->. split; reflexivity.
Qed.

(** No price is stored: the price API answers, or it is down. *)
Lemma setToToken_then_event_loop_witness :
  let w := new_world initial_state in
  let up := Sample.env (Some Sample.wallet) true false in
  (toToken (state (settle up (after up (setToToken (Some Sample.dai)) w))) = Some Sample.dai /\
   toTokenPriceInUSD (state (settle up (after up (setToToken (Some Sample.dai)) w)))
     = 0.5%float) /\
  unhandled (settle Scenario.no_prices
               (after Scenario.no_prices (setToToken (Some Sample.dai)) w))
    = [Scenario.network_down].
Proof.
  intros w up. split.
  - destruct (setToToken_then_event_loop up w Sample.dai eq_refl) as (Htoken & _ & Hfresh).
    destruct (Hfresh eq_refl) as [Hresolved _].
    destruct (Hresolved Sample.prices eq_refl) as (_ & Hprice & _).
    split; [exact Htoken|]. rewrite Hprice. vm_compute. reflexivity.
  - destruct (setToToken_then_event_loop Scenario.no_prices w Sample.dai eq_refl)
      as (_ & _ & Hfresh).
    destruct (Hfresh eq_refl) as [_ Hrejected].
    exact (proj2 (Hrejected Scenario.network_down eq_refl)).
Defined.

(** X5. [setSourceToken] and then the event loop, with nothing else
    waiting. The token is selected, and [sourceTokenPriceInUSD] is not
    assigned: it is still what it was before the call. A price request is
    sent only when no price is stored for the token; once answered, the
    price (['0'] when the answer has none) is stored under the token's
    address. *)
Theorem setSourceToken_then_event_loop (env : Env) (w : World) (token : TokenInfo.t) :
  pending w = [] ->
  let address := hex_string (TokenInfo.address token) in
  let w' := settle env (after env (setSourceToken (Some token)) w) in
  sourceToken (state w') = Some token /\
  sourceTokenPriceInUSD (state w') = sourceTokenPriceInUSD (state w) /\
  (truthy_opt truthy_string (tokensPriceMap (state w) !! address) = true ->
   trace w' = trace w /\ tokensPriceMap (state w') = tokensPriceMap (state w))
  /\
  (truthy_opt truthy_string (tokensPriceMap (state w) !! address) = false ->
   forall prices : gmap string string,
     answer env (Api_getTokenPriceWithAddresses [address]) w = Resolved prices ->
     tokensPriceMap (state w') !! address = Some (or_string (prices !! address) "0") /\
     trace w' = trace w ++ [Requested (Api_getTokenPriceWithAddresses [address])]).
Proof.
  intros Hidle. cbv zeta. unfold after. rewrite exec_setSourceToken. cbv zeta.
  destruct (truthy_opt truthy_string
              (tokensPriceMap (state w) !! hex_string (TokenInfo.address token))) eqn:Hstored;
    cbn [snd].
  - rewrite settle_idle by exact Hidle.
    split; [reflexivity|]. split; [reflexivity|]. split; [split; reflexivity | discriminate].
  - rewrite settle_start by (apply setTokenPriceToMap_spawn_free || exact Hidle).
    rewrite finish_setTokenPriceToMap, exec_setTokenPriceToMap. cbv zeta.
    rewrite answer_with_state. split; [|split; [|split]].
    + destruct (answer env _ w) as [prices|e]; [|reflexivity].
      cbn. now destruct (String.eqb _ CURRENT_CHAIN_ADDRESS).
    + destruct (answer env _ w) as [prices|e]; [|reflexivity].
      cbn. now destruct (String.eqb _ CURRENT_CHAIN_ADDRESS).
    + discriminate.
    + intros _ prices ->. cbn.
      destruct (String.eqb _ CURRENT_CHAIN_ADDRESS); cbn;
        (split; [apply lookup_insert_eq | reflexivity]).
Qed.

(** DAI is selected as the source in a fresh controller. *)
Lemma setSourceToken_then_event_loop_witness :
  let env := Sample.env (Some Sample.wallet) true false in
  let w := new_world initial_state in
  let w' := settle env (after env (setSourceToken (Some Sample.dai)) w) in
  sourceToken (state w') = Some Sample.dai /\
  sourceTokenPriceInUSD (state w') = 0%float /\
  tokensPriceMap (state w') !! Sample.dai_address = Some "0.5".
Proof.
  intros env w w'.
  destruct (setSourceToken_then_event_loop env w Sample.dai eq_refl)
    as (Htoken & Hprice & _ & Hfresh).
  split; [exact Htoken|]. split; [exact Hprice|].
  exact (proj1 (Hfresh eq_refl Sample.prices eq_refl)).
Defined.

(** ** A submission that is accepted *)

(** X6. [sendTransactionForConvert] when the wallet accepts: it returns
    the transaction hash, [transactionLoading] is back to [false], the
    router is sent to ['Transactions'] and nothing is notified; the
    selection is reset only when the timer set by the call fires: until
    then the tokens are still selected, and afterwards both tokens are
    [undefined] and both amounts ['0']. Neither the call nor the reset
    touches [convertTransaction] or [transactionError]. *)
Theorem sendTransactionForConvert_accepted
    (env : Env) (w : World) (data : TransactionParams.t) (hash : option string) :
  connected env = true ->
  timers w = [] ->
  answer env (convert_submission (wallet_address env) data) w = Resolved hash ->
  let w1 := after env (sendTransactionForConvert (Some data)) w in
  let w2 := fire_timers env w1 in
  outcome env (sendTransactionForConvert (Some data)) w = Returned hash /\
  transactionLoading (state w1) = Some false /\
  trace w1 = trace w ++ [Requested (convert_submission (wallet_address env) data);
                         Emitted (Router_replace "Transactions")] /\
  timers w1 = [(1000%float, resetState)] /\
  (sourceToken (state w1) = sourceToken (state w) /\
   toToken (state w1) = toToken (state w) /\
   sourceTokenAmount (state w1) = sourceTokenAmount (state w)) /\
  (sourceToken (state w2) = None /\ toToken (state w2) = None /\
   sourceTokenAmount (state w2) = "0" /\ toTokenAmount (state w2) = "0" /\
   timers w2 = [] /\ trace w2 = trace w1) /\
  (convertTransaction (state w2) = convertTransaction (state w) /\
   transactionError (state w2) = transactionError (state w)).
Proof.
  intros Hc Htimers Hanswer. cbv zeta. unfold outcome, after.
  rewrite exec_sendTransactionForConvert by exact Hc. cbv zeta. rewrite Hanswer.
  cbn [fst snd]. unfold fire_timers. cbn. rewrite Htimers. cbn.
  rewrite <- app_assoc. repeat split.
Qed.

(** The wallet accepts the sample transaction. *)
Lemma sendTransactionForConvert_accepted_witness :
  let env := Sample.env (Some Sample.wallet) true false in
  let w := new_world (Sample.ready "10") in
  sourceToken (state (after env (sendTransactionForConvert (Some Sample.params)) w))
    = Some Sample.usdc /\
  sourceToken (state (fire_timers env
                        (after env (sendTransactionForConvert (Some Sample.params)) w)))
    = None.
Proof.
  intros env w.
  destruct (sendTransactionForConvert_accepted env w Sample.params _ eq_refl eq_refl eq_refl)
    as (_ & _ & _ & _ & (Hbefore & _) & (Hafter & _) & _).
  split; [exact Hbefore | exact Hafter].
Defined.

(** X7. [sendTransactionForApproval] with a wallet connected. When the
    wallet accepts, [approvalTransaction] becomes [undefined], only the
    submission is sent and nothing is notified, and an error message left
    by an earlier attempt stays in [transactionError]. When the wallet
    refuses, [approvalTransaction] is kept as it was. *)
Theorem sendTransactionForApproval_outcomes
    (env : Env) (w : World) (data : TransactionParams.t) :
  connected env = true ->
  (forall hash : option string,
     answer env (approval_submission (wallet_address env) data) w = Resolved hash ->
     approvalTransaction (state (after env (sendTransactionForApproval data) w)) = None /\
     transactionError (state (after env (sendTransactionForApproval data) w))
       = transactionError (state w) /\
     trace (after env (sendTransactionForApproval data) w)
       = trace w ++ [Requested (approval_submission (wallet_address env) data)])
  /\
  (forall error : JsError,
     answer env (approval_submission (wallet_address env) data) w = Rejected error ->
     approvalTransaction (state (after env (sendTransactionForApproval data) w))
       = approvalTransaction (state w)).
Proof.
  intros Hc. unfold after. rewrite exec_sendTransactionForApproval by exact Hc. cbv zeta.
  split.
  - intros hash ->. repeat split.
  - intros error ->. reflexivity.
Qed.

(** An approval is pending and an earlier attempt failed; the wallet
    accepts, or refuses again. *)
Lemma sendTransactionForApproval_outcomes_witness :
  let accept := Sample.env (Some Sample.wallet) true false in
  let refuse := Sample.env (Some Sample.wallet) true true in
  let w := new_world (set_transactionError (Some "User rejected the request.")
                        (set_approvalTransaction (Some Sample.params) (Sample.ready "10"))) in
  (approvalTransaction (state (after accept (sendTransactionForApproval Sample.params) w))
     = None /\
   transactionError (state (after accept (sendTransactionForApproval Sample.params) w))
     = Some "User rejected the request.") /\
  approvalTransaction (state (after refuse (sendTransactionForApproval Sample.params) w))
    = Some Sample.params.
Proof.
  intros accept refuse w. split.
  - destruct (sendTransactionForApproval_outcomes accept w Sample.params eq_refl)
      as [Haccepted _].
    destruct (Haccepted _ eq_refl) as (H1 & H2 & _). split; [exact H1 | exact H2].
  - destruct (sendTransactionForApproval_outcomes refuse w Sample.params eq_refl)
      as [_ Hrefused].
    exact (Hrefused Sample.user_rejected eq_refl).
Defined.

(** ** The guard of [convertTokens] *)

(** X8. [convertTokens] with a wallet connected. Unless both tokens are
    selected it returns at once: no request is sent and nothing changes.
    With both selected, [convertLoading] is [true] when it ends, whether
    [makeChecks] returned, returned early or threw. *)
Theorem convertTokens_guard (env : Env) (w : World) :
  connected env = true ->
  ((sourceToken (state w) = None \/ toToken (state w) = None) ->
   exec env convertTokens w = (Returned tt, w))
  /\
  (forall a b : TokenInfo.t,
     sourceToken (state w) = Some a -> toToken (state w) = Some b ->
     convertLoading (state (after env convertTokens w)) = true).
Proof.
  intros Hc. split.
  - intros Hmissing. unfold convertTokens.
    rewrite exec_bind, exec_getParams, Hc. unfold params_of.
    cbn [Params.sourceTokenAddress Params.toTokenAddress].
    destruct Hmissing as [-> | ->]; cbn; [reflexivity|].
    now rewrite orb_true_r.
  - intros a b. now apply convertTokens_sets_convertLoading.
Qed.

(** Only USDC is selected; and both tokens are selected while the quote
    API is down. *)
Lemma convertTokens_guard_witness :
  let env := Sample.env (Some Sample.wallet) true false in
  let w := new_world (set_sourceToken (Some Sample.usdc) initial_state) in
  let w' := new_world (Sample.ready "10") in
  exec env convertTokens w = (Returned tt, w) /\
  outcome Scenario.no_quote convertTokens w' = Thrown Scenario.network_down /\
  convertLoading (state (after Scenario.no_quote convertTokens w')) = true.
Proof.
  intros env w w'.
  destruct (convertTokens_guard env w eq_refl) as [Hmissing _].
  destruct (convertTokens_guard Scenario.no_quote w' eq_refl) as [_ Hboth].
  split; [apply Hmissing; right; reflexivity|].
  split; [reflexivity|].
  exact (Hboth Sample.usdc Sample.dai eq_refl eq_refl).
Defined.

(** ** [makeChecks]: how it ends *)

Global Instance stays_loading_preorder : PreOrder stays_loading.
Proof.
  split; [intros s H; exact H|].
  intros s1 s2 s3 H12 H23 H. apply H23, H12, H.
Qed.

(** As [frame], for a relation whose assignments are checked by [side]. *)
Ltac frame_by side :=
  repeat first
    [ apply frames_bind; [apply _ | | intros ?]
    | apply frames_await; [apply _ |]
    | apply frames_ret; apply _
    | apply frames_throw; apply _
    | apply frames_get; apply _
    | apply frames_ask; apply _
    | apply frames_request; apply _
    | apply frames_emit; apply _
    | apply frames_toBigInt; apply _
    | apply frames_modify; [apply _ | intros ?; hnf; side]
    | match goal with
      | |- frames _ (if ?b then _ else _) => destruct b
      | |- frames _ (match ?x with _ => _ end) => destruct x
      end ].

Ltac loading_side := first [intros _; reflexivity | intros H; exact H].

(** [makeChecks] past its guard, as far as the answer about the
    allowance: the rest of the run is left as it is written. *)
Ltac open_makeChecks env w a Hexec Hc Hearly Ha Hb :=
  unfold makeChecks in Hexec;
  rewrite exec_bind, exec_getParams, Hc in Hexec; cbv beta iota in Hexec;
  rewrite Hearly in Hexec; unfold params_of in Hexec;
  cbn [Params.sourceTokenAddress Params.sourceTokenDecimals Params.toTokenDecimals
       Params.toTokenAddress Params.fromAddress Params.sourceTokenAmount] in Hexec;
  rewrite Ha, Hb in Hexec; cbn [fmap option_fmap option_map] in Hexec;
  rewrite exec_bind, exec_modify in Hexec;
  rewrite exec_bind, exec_request in Hexec;
  rewrite answer_with_state in Hexec;
  fold (allowance_request (wallet_address env) a (sourceTokenAmount (state w))) in Hexec.

(** X9. When [makeChecks], past its guard, ends with an error (a request
    is rejected, a value is no integer, ...), [loading] is left [true]:
    only a run that returns sets it back. *)
Theorem makeChecks_error_leaves_loading
    (env : Env) (w : World) (a b : TokenInfo.t) (e : JsError) :
  connected env = true ->
  makeChecks_returns_early (params_of (wallet_address env) (state w)) = false ->
  sourceToken (state w) = Some a -> toToken (state w) = Some b ->
  outcome env makeChecks w = Thrown e ->
  loading (state (after env makeChecks w)) = Some true.
Proof.
  intros Hc Hearly Ha Hb. unfold outcome, after.
  destruct (exec env makeChecks w) as [o w'] eqn:Hexec. cbn [fst snd]. intros ->.
  open_makeChecks env w a Hexec Hc Hearly Ha Hb.
  destruct (answer env _ w) as [hasAllowance|e0].
  - rewrite exec_bind, exec_get in Hexec. cbv beta iota zeta in Hexec.
    rewrite exec_bind in Hexec.
    lazymatch type of Hexec with
    | context [exec env (if hasAllowance then ?p1 else ?p2) ?w1] =>
        assert (frames stays_loading (if hasAllowance then p1 else p2)) as Hrest
          by (destruct hasAllowance;
              unfold createConvert, createTokenAllowance, setToTokenAmountValue,
                setTransactionDetails, getParams;
              frame_by loading_side);
        specialize (Hrest env w1); unfold after in Hrest;
        destruct (exec env (if hasAllowance then p1 else p2) w1) as [[u|e1] w2]
    end.
    + rewrite exec_modify in Hexec. discriminate Hexec.
    + injection Hexec as _ <-. apply Hrest. reflexivity.
  - injection Hexec as _ <-. reflexivity.
Qed.

(** Both tokens are selected, an amount is typed, the allowance is
    granted and the quote API is down. *)
Lemma makeChecks_error_leaves_loading_witness :
  let w := new_world (Sample.ready "10") in
  outcome Scenario.no_quote makeChecks w = Thrown Scenario.network_down /\
  loading (state w) = Some false /\
  loading (state (after Scenario.no_quote makeChecks w)) = Some true.
Proof.
  intros w. split; [reflexivity|]. split; [reflexivity|].
  exact (makeChecks_error_leaves_loading Scenario.no_quote w Sample.usdc Sample.dai
           Scenario.network_down eq_refl eq_refl eq_refl eq_refl eq_refl).
Defined.

(** X10. When [makeChecks], past its guard, returns: if the allowance
    was granted, [approvalTransaction] is [undefined] and
    [convertTransaction] holds a transaction; if it was not,
    [approvalTransaction] holds a transaction and [convertTransaction]
    is what it was before the call (a transaction prepared earlier is not
    cleared). *)
Theorem makeChecks_prepares_one_transaction
    (env : Env) (w : World) (a b : TokenInfo.t) :
  connected env = true ->
  makeChecks_returns_early (params_of (wallet_address env) (state w)) = false ->
  sourceToken (state w) = Some a -> toToken (state w) = Some b ->
  outcome env makeChecks w = Returned tt ->
  (answer env (allowance_request (wallet_address env) a (sourceTokenAmount (state w))) w
     = Resolved true ->
   approvalTransaction (state (after env makeChecks w)) = None /\
   is_Some (convertTransaction (state (after env makeChecks w))))
  /\
  (answer env (allowance_request (wallet_address env) a (sourceTokenAmount (state w))) w
     = Resolved false ->
   is_Some (approvalTransaction (state (after env makeChecks w))) /\
   convertTransaction (state (after env makeChecks w)) = convertTransaction (state w)).
Proof.
  intros Hc Hearly Ha Hb. unfold outcome, after.
  destruct (exec env makeChecks w) as [o w'] eqn:Hexec. cbn [fst snd]. intros ->.
  open_makeChecks env w a Hexec Hc Hearly Ha Hb.
  assert (forall f : ConvertControllerState -> option TransactionParams.t,
            (forall v s, f (set_loading v s) = f s) ->
            (forall v s, f (set_gasPriceInUSD v s) = f s) ->
            (forall v s, f (set_toTokenAmount v s) = f s) ->
            (forall v s, f (set_toTokenPriceInUSD v s) = f s) ->
            (forall v s, f (set_priceImpact v s) = f s) ->
            (forall v s, f (set_maxSlippage v s) = f s) ->
            forall amount decimals address gas gasPrice,
              frames (unchanged f)
                (setToTokenAmountValue amount decimals address ;;
                 setTransactionDetails gas gasPrice)) as Htail.
  { intros f H1 H2 H3 H4 H5 H6 amount decimals address gas gasPrice.
    unfold setToTokenAmountValue, setTransactionDetails, getParams.
    frame_by ltac:(first [apply H1 | apply H2 | apply H3 | apply H4 | apply H5 | apply H6]). }
  split; intros Hanswer; rewrite Hanswer in Hexec;
    rewrite exec_bind, exec_get in Hexec; cbv beta iota zeta in Hexec;
    rewrite exec_bind in Hexec.
  - rewrite exec_bind, exec_modify, exec_bind, exec_await in Hexec.
    assert (frames (unchanged approvalTransaction) createConvert) as Hcreate
      by (unfold createConvert, getParams; frame).
    lazymatch type of Hexec with
    | context [exec env createConvert ?w1] =>
        specialize (Hcreate env w1); unfold after in Hcreate;
        destruct (exec env createConvert w1) as [[transaction|e1] w2]
    end; [|discriminate Hexec].
    rewrite exec_bind, exec_modify in Hexec.
    lazymatch type of Hexec with
    | context [exec env (setToTokenAmountValue ?x ?d ?t ;; setTransactionDetails ?g ?gp) ?w3] =>
        pose proof (Htail approvalTransaction ltac:(reflexivity) ltac:(reflexivity)
                      ltac:(reflexivity) ltac:(reflexivity) ltac:(reflexivity)
                      ltac:(reflexivity) x d t g gp env w3) as Happroval;
        pose proof (Htail convertTransaction ltac:(reflexivity) ltac:(reflexivity)
                      ltac:(reflexivity) ltac:(reflexivity) ltac:(reflexivity)
                      ltac:(reflexivity) x d t g gp env w3) as Hconvert;
        unfold after, unchanged in Happroval, Hconvert;
        destruct (exec env (setToTokenAmountValue x d t ;; setTransactionDetails g gp) w3)
          as [[u|e2] w4]
    end; [|discriminate Hexec].
    rewrite exec_modify in Hexec. injection Hexec as <-.
    cbn [snd state with_state set_loading approvalTransaction convertTransaction] in *.
    split.
    + rewrite Happroval. cbn. unfold unchanged in Hcreate. rewrite Hcreate. reflexivity.
    + rewrite Hconvert. cbn. eexists. reflexivity.
  - rewrite exec_bind, exec_await in Hexec.
    assert (frames (unchanged convertTransaction) createTokenAllowance) as Hcreate
      by (unfold createTokenAllowance, getParams; frame).
    lazymatch type of Hexec with
    | context [exec env createTokenAllowance ?w1] =>
        specialize (Hcreate env w1); unfold after in Hcreate;
        destruct (exec env createTokenAllowance w1) as [[transaction|e1] w2]
    end; [|discriminate Hexec].
    rewrite exec_bind, exec_modify in Hexec.
    lazymatch type of Hexec with
    | context [exec env (setToTokenAmountValue ?x ?d ?t ;; setTransactionDetails ?g ?gp) ?w3] =>
        pose proof (Htail approvalTransaction ltac:(reflexivity) ltac:(reflexivity)
                      ltac:(reflexivity) ltac:(reflexivity) ltac:(reflexivity)
                      ltac:(reflexivity) x d t g gp env w3) as Happroval;
        pose proof (Htail convertTransaction ltac:(reflexivity) ltac:(reflexivity)
                      ltac:(reflexivity) ltac:(reflexivity) ltac:(reflexivity)
                      ltac:(reflexivity) x d t g gp env w3) as Hconvert;
        unfold after, unchanged in Happroval, Hconvert;
        destruct (exec env (setToTokenAmountValue x d t ;; setTransactionDetails g gp) w3)
          as [[u|e2] w4]
    end; [|discriminate Hexec].
    rewrite exec_modify in Hexec. injection Hexec as <-.
    cbn [snd state with_state set_loading approvalTransaction convertTransaction] in *.
    split.
    + rewrite Happroval. cbn. eexists. reflexivity.
    + rewrite Hconvert. cbn. unfold unchanged in Hcreate. rewrite Hcreate. reflexivity.
Qed.

(** An earlier run left a convert transaction, and the allowance is not
    granted now; and a run with the allowance granted. *)
Lemma makeChecks_prepares_one_transaction_witness :
  let granted := Sample.env (Some Sample.wallet) true false in
  let denied := Sample.env (Some Sample.wallet) false false in
  let w := new_world (set_convertTransaction (Some Sample.params)
                        (set_approvalTransaction (Some Sample.params) (Sample.ready "10"))) in
  (approvalTransaction (state (after granted makeChecks w)) = None /\
   is_Some (convertTransaction (state (after granted makeChecks w)))) /\
  (is_Some (approvalTransaction (state (after denied makeChecks w))) /\
   convertTransaction (state (after denied makeChecks w)) = Some Sample.params).
Proof.
  intros granted denied w. split.
  - exact (proj1 (makeChecks_prepares_one_transaction granted w Sample.usdc Sample.dai
                    eq_refl eq_refl eq_refl eq_refl eq_refl) eq_refl).
  - exact (proj2 (makeChecks_prepares_one_transaction denied w Sample.usdc Sample.dai
                    eq_refl eq_refl eq_refl eq_refl eq_refl) eq_refl).
Defined.

(** ** What the checks send *)

Section Emits.

Variable P : Event -> Prop.

Lemma emits_silent {A} (p : Prog A) :
  (forall env w, trace (after env p w) = trace w) -> emits_only P p.
Proof.
  intros Hsame env w. exists []. rewrite Hsame, app_nil_r. split; [reflexivity | constructor].
Qed.

Lemma emits_bind {A B} (p : Prog A) (f : A -> Prog B) :
  emits_only P p -> (forall a, emits_only P (f a)) -> emits_only P (bind p f).
Proof.
  intros Hp Hf env w. destruct (Hp env w) as (events1 & Htrace1 & Hall1).
  unfold after in *. rewrite exec_bind.
  destruct (exec env p w) as [[a|e] w1]; cbn [snd] in *.
  - destruct (Hf a env w1) as (events2 & Htrace2 & Hall2). unfold after in Htrace2.
    exists (events1 ++ events2). rewrite Htrace2, Htrace1, app_assoc.
    split; [reflexivity | now apply Forall_app].
  - exists events1. now split.
Qed.

Lemma emits_request {X} (r : Request X) : P (Requested r) -> emits_only P (request r).
Proof.
  intros Hr env w. exists [Requested r]. unfold after. rewrite exec_request.
  split; [reflexivity | repeat constructor; exact Hr].
Qed.

Lemma emits_await {A} (p : Prog A) : emits_only P p -> emits_only P (await p).
Proof.
  intros Hp env w. unfold after. rewrite exec_await. apply Hp.
Qed.

Lemma emits_toBigInt (v : numeric) : emits_only P (toBigInt v).
Proof.
  apply emits_silent. intros env w. unfold after, toBigInt. now destruct (BigInt v).
Qed.

End Emits.

(** A procedure made of steps that only ask only asks: again the proof
    follows the text. *)
Ltac asks :=
  repeat first
    [ apply emits_bind; [|intros ?]
    | apply emits_await
    | apply emits_toBigInt
    | apply emits_request; exact I
    | apply emits_silent; intros ? ?; reflexivity
    | match goal with
      | |- emits_only _ (if ?b then _ else _) => destruct b
      | |- emits_only _ (match ?x with _ => _ end) => destruct x
      end ].

Lemma makeChecks_asks : emits_only only_asks makeChecks.
Proof.
  unfold makeChecks, createConvert, createTokenAllowance, setToTokenAmountValue,
    setTransactionDetails, getParams.
  asks.
Qed.

(** X11. [convertTokens] and [makeChecks] prepare and never submit:
    whatever the state and whatever the siblings answer, every call they
    make to a sibling is a request to the API or for a gas estimate; no
    transaction is sent to the wallet, nothing is notified and the router
    is not touched. *)
Theorem checks_never_submit (env : Env) (w : World) :
  (exists events : list Event,
     trace (after env convertTokens w) = trace w ++ events /\ Forall only_asks events)
  /\
  (exists events : list Event,
     trace (after env makeChecks w) = trace w ++ events /\ Forall only_asks events).
Proof.
  split; [|apply makeChecks_asks].
  assert (emits_only only_asks convertTokens) as Hconvert.
  { unfold convertTokens, makeChecks, createConvert, createTokenAllowance,
      setToTokenAmountValue, setTransactionDetails, getParams.
    asks. }
  apply Hconvert.
Qed.

(** ** Initialisation that fails *)

(** A call of [initializeState] that throws leaves [initialized] as it
    was, and a call from a state that is not initialised opens with the
    request for the token list. *)
Lemma initializeState_thrown (env : Env) (w : World) (e : JsError) :
  initialized (state w) = false ->
  outcome env initializeState w = Thrown e ->
  initialized (state (after env initializeState w)) = false /\
  exists events : list Event,
    trace (after env initializeState (after env initializeState w))
    = trace (after env initializeState w) ++ Requested Api_getTokenList :: events.
Proof.
  intros Hinit. unfold outcome.
  assert (forall w0, initialized (state w0) = false ->
                     exists events, trace (after env initializeState w0)
                                    = trace w0 ++ Requested Api_getTokenList :: events)
    as Hstart.
  { intros w0 H0. unfold after, initializeState.
    rewrite exec_bind, exec_get. cbv beta iota. rewrite H0. cbn [negb].
    rewrite exec_bind, exec_await, exec_getTokenList. cbv zeta.
    destruct (answer env Api_getTokenList w0) as [res|e0]; [|exists []; reflexivity].
    lazymatch goal with
    | |- context [exec env ?rest ?w1] =>
        assert (emits_only (fun _ => True) rest) as Hrest
          by (unfold getNetworkTokenPrice, getMyTokensWithBalance;
              repeat first
                [ apply emits_bind; [|intros ?]
                | apply emits_await
                | apply emits_request; exact I
                | apply emits_silent; intros ? ?; reflexivity
                | match goal with
                  | |- emits_only _ (match ?x with _ => _ end) => destruct x
                  end ]);
        destruct (Hrest env w1) as (events & Htrace & _)
    end.
    unfold after in Htrace. exists events. rewrite Htrace. cbn.
    now rewrite <- app_assoc. }
  intros Hthrown.
  assert (initialized (state (after env initializeState w)) = false) as Hstill.
  { unfold after in *. unfold initializeState in *.
    rewrite exec_bind, exec_get in *. cbv beta iota in *. rewrite Hinit in *. cbn [negb] in *.
    assert (frames (unchanged initialized) (await getTokenList)) as H1
      by (unfold getTokenList; frame).
    assert (frames (unchanged initialized) (await getNetworkTokenPrice)) as H2
      by (unfold getNetworkTokenPrice; frame).
    assert (frames (unchanged initialized) (await getMyTokensWithBalance)) as H3
      by (unfold getMyTokensWithBalance; frame).
    rewrite exec_bind in *. specialize (H1 env w). unfold after, unchanged in H1.
    destruct (exec env (await getTokenList) w) as [[x1|e1] w1]; cbn [snd] in *;
      [|congruence].
    rewrite exec_bind in *. specialize (H2 env w1). unfold after, unchanged in H2.
    destruct (exec env (await getNetworkTokenPrice) w1) as [[x2|e2] w2]; cbn [snd] in *;
      [|congruence].
    rewrite exec_bind in *. specialize (H3 env w2). unfold after, unchanged in H3.
    destruct (exec env (await getMyTokensWithBalance) w2) as [[x3|e3] w3]; cbn [snd] in *;
      [|congruence].
    rewrite exec_modify in Hthrown. discriminate Hthrown. }
  split; [exact Hstill | apply Hstart; exact Hstill].
Qed.

(** The rejection of any of the three requests is what the call throws. *)
Lemma initializeState_rejected (env : Env) (w : World) (e : JsError) :
  initialized (state w) = false ->
  respond env _ Api_getTokenList (length (trace w)) = Rejected e
  \/ (exists list : TokenListResponse,
        respond env _ Api_getTokenList (length (trace w)) = Resolved list /\
        respond env _ (Api_getTokenPriceWithAddresses [CURRENT_CHAIN_ADDRESS])
          (S (length (trace w))) = Rejected e)
  \/ (exists (list : TokenListResponse) (prices : gmap string string),
        respond env _ Api_getTokenList (length (trace w)) = Resolved list /\
        respond env _ (Api_getTokenPriceWithAddresses [CURRENT_CHAIN_ADDRESS])
          (S (length (trace w))) = Resolved prices /\
        respond env _ Api_getMyTokensWithBalance (S (S (length (trace w)))) = Rejected e) ->
  outcome env initializeState w = Thrown e.
Proof.
  intros Hinit Hrejected. unfold outcome.
  destruct (exec env initializeState w) as [o w'] eqn:Hexec.
  unfold initializeState in Hexec.
  rewrite exec_bind, exec_get in Hexec. cbv beta iota in Hexec.
  rewrite Hinit in Hexec. cbn [negb] in Hexec.
  rewrite exec_bind, exec_await, exec_getTokenList in Hexec. cbv zeta in Hexec.
  unfold answer in Hexec at 1.
  destruct Hrejected as [Hlist | [(list & Hlist & Hprices)
                                 | (list & prices & Hlist & Hprices & Hmine)]];
    rewrite Hlist in Hexec.
  - injection Hexec as <- _. reflexivity.
  - rewrite exec_bind, exec_await, exec_getNetworkTokenPrice in Hexec. cbv zeta in Hexec.
    rewrite answer_with_state, answer_log, Hprices in Hexec.
    injection Hexec as <- _. reflexivity.
  - rewrite exec_bind, exec_await, exec_getNetworkTokenPrice in Hexec. cbv zeta in Hexec.
    rewrite answer_with_state, answer_log, Hprices in Hexec.
    rewrite exec_bind, exec_await, exec_getMyTokensWithBalance in Hexec. cbv zeta in Hexec.
    rewrite answer_with_state, answer_log in Hexec. cbn [trace with_state log] in Hexec.
    rewrite length_app in Hexec. cbn [length] in Hexec.
    rewrite Nat.add_1_r, Hmine in Hexec.
    injection Hexec as <- _. reflexivity.
Qed.

(** X12. When a request of [initializeState] is rejected (the one for
    the token list, or, the list being answered, the one for the price of
    the network token, or, both being answered, the one for the user's
    tokens), the call throws that rejection and [initialized] stays
    [false], so that the next call starts over with the token list. *)
Theorem initializeState_failure (env : Env) (w : World) (e : JsError) :
  initialized (state w) = false ->
  respond env _ Api_getTokenList (length (trace w)) = Rejected e
  \/ (exists list : TokenListResponse,
        respond env _ Api_getTokenList (length (trace w)) = Resolved list /\
        respond env _ (Api_getTokenPriceWithAddresses [CURRENT_CHAIN_ADDRESS])
          (S (length (trace w))) = Rejected e)
  \/ (exists (list : TokenListResponse) (prices : gmap string string),
        respond env _ Api_getTokenList (length (trace w)) = Resolved list /\
        respond env _ (Api_getTokenPriceWithAddresses [CURRENT_CHAIN_ADDRESS])
          (S (length (trace w))) = Resolved prices /\
        respond env _ Api_getMyTokensWithBalance (S (S (length (trace w)))) = Rejected e) ->
  outcome env initializeState w = Thrown e /\
  initialized (state (after env initializeState w)) = false /\
  exists events : list Event,
    trace (after env initializeState (after env initializeState w))
    = trace (after env initializeState w) ++ Requested Api_getTokenList :: events.
Proof.
  intros Hinit Hrejected.
  pose proof (initializeState_rejected env w e Hinit Hrejected) as Hthrown.
  split; [exact Hthrown|].
  exact (initializeState_thrown env w e Hinit Hthrown).
Qed.

(** The price API is down: the token list is answered and stored, the
    price request is rejected, and the controller is not initialised. *)
Lemma initializeState_failure_witness :
  let w := new_world initial_state in
  outcome Scenario.no_prices initializeState w = Thrown Scenario.network_down /\
  is_Some (tokens (state (after Scenario.no_prices initializeState w))) /\
  initialized (state (after Scenario.no_prices initializeState w)) = false.
Proof.
  intros w.
  destruct (initializeState_failure Scenario.no_prices w Scenario.network_down eq_refl)
    as (Hthrown & Hflag & _).
  { right. left. eexists. split; reflexivity. }
  split; [exact Hthrown|]. split; [eexists; reflexivity | exact Hflag].
Defined.

(** ** Numbers that are no numbers *)

Lemma is_nan_Prim2SF (x : number) : is_nan x = true <-> Prim2SF x = S754_nan.
Proof.
  unfold is_nan. rewrite FloatAxioms.eqb_spec. unfold SFeqb.
  destruct (Prim2SF x) as [s| s| |s m e]; cbn.
  - split; discriminate.
  - destruct s; split; discriminate.
  - split; reflexivity.
  - rewrite Z.compare_refl, Pos.compare_cont_refl.
    destruct s; cbn; split; discriminate.
Qed.

Lemma is_nan_mul_l (x y : number) : is_nan x = true -> is_nan (x * y)%float = true.
Proof.
  intros Hnan. apply is_nan_Prim2SF in Hnan. apply is_nan_Prim2SF.
  rewrite FloatAxioms.mul_spec, Hnan. reflexivity.
Qed.

Lemma truthy_number_nan (x : number) : is_nan x = true -> truthy_number x = false.
Proof.
  intros Hnan. unfold truthy_number. rewrite Hnan, orb_true_r. reflexivity.
Qed.

(** Any number divided by zero prints as no finite number. *)
Lemma divided_by_zero_text (x : number) :
  not_finite_text (Number_toString (x / 0)%float) = true.
Proof.
  unfold Number_toString. rewrite FloatAxioms.div_spec.
  change (Prim2SF 0%float) with (S754_zero false).
  destruct (Prim2SF x) as [s| s| |s m e]; cbn; try reflexivity; destruct s; reflexivity.
Qed.

(** ** The amount to receive *)

(** X13. [setToTokenAmountValue] does not depend on [toTokenDecimals] or
    on what [ConnectionController.formatUnits] returns: the amount
    formatted from them is overwritten before the procedure ends. Two
    runs that differ only in these end in the same state with the same
    outcome. *)
Theorem setToTokenAmountValue_ignores_formatting
    (env1 env2 : Env) (w : World) (amount address : string)
    (decimals1 decimals2 : number) :
  exec env1 (setToTokenAmountValue amount decimals1 address) w
  = exec env2 (setToTokenAmountValue amount decimals2 address) w.
Proof.
  unfold setToTokenAmountValue.
  destruct (negb (truthy_string address) || negb (truthy_string amount));
    [reflexivity|].
  rewrite !exec_bind. unfold toBigInt.
  destruct (BigInt (of_string amount)); reflexivity.
Qed.

Lemma or_string_absent (v : option string) (d : string) :
  truthy_opt truthy_string v = false -> or_string v d = d.
Proof.
  destruct v as [s|]; cbn; [|reflexivity]. now intros ->.
Qed.

(** X14. [setToTokenAmountValue] for a token without a stored price (as
    after [getMyTokensWithBalance] replaced the prices by those of the
    user's tokens): the price is taken as [0], so [toTokenPriceInUSD]
    becomes [0] and the amount, a division by zero, is stored as
    ['Infinity'], ['-Infinity'] or ['NaN']. *)
Theorem setToTokenAmountValue_without_price
    (env : Env) (w : World) (amount address : string)
    (decimals : number) (units : bigint) :
  truthy_string address = true ->
  truthy_string amount = true ->
  BigInt (of_string amount) = Some units ->
  truthy_opt truthy_string (tokensPriceMap (state w) !! address) = false ->
  outcome env (setToTokenAmountValue amount decimals address) w = Returned tt /\
  toTokenPriceInUSD (state (after env (setToTokenAmountValue amount decimals address) w))
    = 0%float /\
  not_finite_text
    (toTokenAmount (state (after env (setToTokenAmountValue amount decimals address) w)))
    = true.
Proof.
  intros Haddress Hamount Hunits Hprice. unfold outcome, after, setToTokenAmountValue.
  rewrite Haddress, Hamount. cbn [negb orb].
  rewrite exec_bind. unfold toBigInt. rewrite Hunits. cbn.
  rewrite (or_string_absent _ "0" Hprice), parseFloat_zero.
  split; [reflexivity|]. split; [reflexivity|]. apply divided_by_zero_text.
Qed.

(** The prices are those of the user's tokens, DAI is not among them. *)
Lemma setToTokenAmountValue_without_price_witness :
  let env := Sample.env (Some Sample.wallet) true false in
  let w := new_world (set_tokensPriceMap (TokenInfoWithBalance.price <$> Sample.my_tokens)
                        (Sample.ready "10")) in
  toTokenPriceInUSD
    (state (after env (setToTokenAmountValue "20000000000" 18 Sample.dai_address) w))
    = 0%float /\
  not_finite_text
    (toTokenAmount
       (state (after env (setToTokenAmountValue "20000000000" 18 Sample.dai_address) w)))
    = true /\
  toTokenAmount (state (after env (setToTokenAmountValue "20000000000" 18 Sample.dai_address) w))
    = "Infinity".
Proof.
  intros env w.
  destruct (setToTokenAmountValue_without_price env w "20000000000" Sample.dai_address 18
              20000000000 eq_refl eq_refl eq_refl eq_refl) as (_ & Hprice & Htext).
  split; [exact Hprice|]. split; [exact Htext|]. vm_compute. reflexivity.
Defined.

(** ** The price difference *)

(** X15. [calculatePriceDifference]: when an amount is no number (the
    initial [''], a word), the difference is [0] with direction ['none'];
    and the direction tells the sign of the percentage: ['up'] only with
    a percentage above zero, ['down'] only with one below zero. *)
Theorem calculatePriceDifference_direction (s : ConvertControllerState) :
  (is_numeric_string (sourceTokenAmount s) = false \/
   is_numeric_string (toTokenAmount s) = false ->
   calculatePriceDifference s = (0%float, none))
  /\
  (snd (calculatePriceDifference s) = up ->
   (0 <? fst (calculatePriceDifference s))%float = true)
  /\
  (snd (calculatePriceDifference s) = down ->
   (fst (calculatePriceDifference s) <? 0)%float = true).
Proof.
  unfold calculatePriceDifference, is_numeric_string. split; [|split].
  - intros [Hnan | Hnan]; apply negb_false_iff in Hnan.
    + rewrite (truthy_number_nan _ (is_nan_mul_l _ (sourceTokenPriceInUSD s) Hnan)).
      reflexivity.
    + rewrite (truthy_number_nan _ (is_nan_mul_l _ (toTokenPriceInUSD s) Hnan)).
      now rewrite orb_true_r.
  - destruct (negb _ || negb _); cbn [fst snd]; [discriminate|].
    destruct (0 <? _)%float eqn:Hup; [reflexivity|].
    destruct (_ <? 0)%float; discriminate.
  - destruct (negb _ || negb _); cbn [fst snd]; [discriminate|].
    destruct (0 <? _)%float eqn:Hup; [discriminate|].
    destruct (_ <? 0)%float eqn:Hdown; [reflexivity | discriminate].
Qed.

(** Nothing is typed yet; ten USDC at 1 against 10 DAI at 0.5; and the
    other way round. *)
Lemma calculatePriceDifference_direction_witness :
  calculatePriceDifference (Sample.ready "") = (0%float, none) /\
  calculatePriceDifference (set_toTokenAmount "10" (Sample.ready "10")) = (100%float, up) /\
  (0 <? fst (calculatePriceDifference (set_toTokenAmount "10" (Sample.ready "10"))))%float
    = true /\
  snd (calculatePriceDifference (set_toTokenAmount "40" (Sample.ready "10"))) = down /\
  (fst (calculatePriceDifference (set_toTokenAmount "40" (Sample.ready "10"))) <? 0)%float
    = true.
Proof.
  split; [|split; [|split; [|split]]].
  - apply (calculatePriceDifference_direction (Sample.ready "")). left. reflexivity.
  - vm_compute. reflexivity.
  - apply (calculatePriceDifference_direction (set_toTokenAmount "10" (Sample.ready "10"))).
    vm_compute. reflexivity.
  - vm_compute. reflexivity.
  - apply (calculatePriceDifference_direction (set_toTokenAmount "40" (Sample.ready "10"))).
    vm_compute. reflexivity.
Defined.

(** ** Typing an amount, and the event loop *)

Lemma exec_getAddressPrice_amount
    (env : Env) (w : World) (address amount : string) :
  exec env (getAddressPrice address) (with_state (set_sourceTokenAmount amount (state w)) w)
  = (fst (exec env (getAddressPrice address) w),
     with_state (set_sourceTokenAmount amount (state (snd (exec env (getAddressPrice address) w))))
       (snd (exec env (getAddressPrice address) w))).
Proof.
  rewrite !exec_getAddressPrice. cbn [state with_state set_sourceTokenAmount tokensPriceMap].
  destruct (truthy_opt truthy_string (tokensPriceMap (state w) !! address)); [reflexivity|].
  cbv zeta. rewrite answer_with_state. destruct (answer env _ w); reflexivity.
Qed.

(** X16. [setSourceTokenAmount] and then the event loop, with a wallet
    connected, a source token selected and nothing else waiting: the
    amount typed is stored, the price [getAddressPrice] gives for the
    source token is in [sourceTokenPriceInUSD], and [inputError] is
    ['Insufficient balance'] exactly when the balance stored for the
    token, valued at that price, is below the amount valued at it. *)
Theorem setSourceTokenAmount_runs_the_check
    (env : Env) (w : World) (amount : string) (token : TokenInfo.t) (price : number) :
  connected env = true ->
  sourceToken (state w) = Some token ->
  pending w = [] ->
  outcome env (getAddressPrice (hex_string (TokenInfo.address token))) w = Returned price ->
  let address := hex_string (TokenInfo.address token) in
  let w' := settle env (after env (setSourceTokenAmount amount) w) in
  sourceTokenAmount (state w') = amount /\
  sourceTokenPriceInUSD (state w') = price /\
  inputError (state w')
    = (if insufficient_balance (balance_of (state w) address) amount price
       then Some "Insufficient balance" else None) /\
  unhandled w' = unhandled w.
Proof.
  intros Hc Htoken Hidle Hprice. cbv zeta.
  rewrite (setSourceTokenAmount_settled env w amount token Hc Htoken Hidle).
  unfold finish. rewrite exec_bind, exec_checkSourceTokenValues, exec_getAddressPrice_amount.
  unfold outcome in Hprice.
  destruct (exec env (getAddressPrice (hex_string (TokenInfo.address token))) w)
    as [o w1] eqn:Hget.
  cbn [fst snd] in *. subst o. cbv zeta.
  assert (sourceTokenAmount (state w1) = sourceTokenAmount (state w) /\
          unhandled w1 = unhandled w) as [Hamount Hunhandled].
  { rewrite exec_getAddressPrice in Hget.
    destruct (truthy_opt truthy_string _); [injection Hget as _ <-; now split|].
    cbv zeta in Hget. destruct (answer env _ w); injection Hget as _ <-; now split. }
  change (balance_of (with_state (set_sourceTokenAmount amount (state w)) w).(state))
    with (balance_of (state w)).
  destruct (insufficient_balance _ amount price); cbn; repeat split; assumption.
Qed.

(** The user holds 100 USDC and types 1000. *)
Lemma setSourceTokenAmount_runs_the_check_witness :
  let env := Sample.env (Some Sample.wallet) true false in
  let w := new_world (Sample.ready "10") in
  sourceTokenAmount (state (settle env (after env (setSourceTokenAmount "1000") w))) = "1000" /\
  inputError (state (settle env (after env (setSourceTokenAmount "1000") w)))
    = Some "Insufficient balance".
Proof.
  intros env w.
  destruct (setSourceTokenAmount_runs_the_check env w "1000" Sample.usdc 1%float
              eq_refl eq_refl eq_refl eq_refl) as (Hamount & _ & Herror & _).
  split; [exact Hamount | exact Herror].
Defined.

(** ** Procedures that assign one field *)

(** X17. [setGasFee] either stores the fee or changes nothing: when it
    returns, [gasFee] is the integer [res.instant.maxFeePerGas] stands
    for and nothing else has changed; when it throws (the request is
    rejected, or the fee is no integer), the state is as before. *)
Theorem setGasFee_all_or_nothing (env : Env) (w : World) :
  match exec env setGasFee w with
  | (Returned _, w') =>
      exists (res : GasPriceResponse) (fee : bigint),
        answer env Api_getGasPrice w = Resolved res /\
        BigInt (instant_maxFeePerGas res) = Some fee /\
        state w' = set_gasFee fee (state w)
  | (Thrown e, w') =>
      state w' = state w /\
      (answer env Api_getGasPrice w = Rejected e \/
       exists res : GasPriceResponse,
         answer env Api_getGasPrice w = Resolved res /\
         BigInt (instant_maxFeePerGas res) = None /\
         e = BigIntError (instant_maxFeePerGas res))
  end.
Proof.
  unfold setGasFee. rewrite exec_bind, exec_request.
  destruct (answer env Api_getGasPrice w) as [res|e]; [|split; [reflexivity | now left]].
  rewrite exec_bind. unfold toBigInt.
  destruct (BigInt (instant_maxFeePerGas res)) as [fee|] eqn:Hfee; cbn.
  - exists res, fee. repeat split. exact Hfee.
  - split; [reflexivity|]. right. exists res. repeat split. exact Hfee.
Qed.

Global Instance at_most_gas_price_preorder : PreOrder at_most_gas_price.
Proof.
  split; [intros s; now left|].
  intros s1 s2 s3 [-> | [g1 ->]] [-> | [g2 ->]].
  - now left.
  - right. now exists g2.
  - right. now exists g1.
  - right. now exists g2.
Qed.

Global Instance at_most_loading_preorder : PreOrder at_most_loading.
Proof.
  split; [intros s; now left|].
  intros s1 s2 s3 [-> | ->] [-> | ->].
  - now left.
  - now right.
  - now right.
  - now right.
Qed.

Lemma createConvert_frames : frames at_most_gas_price createConvert.
Proof.
  unfold createConvert, getParams.
  frame_by ltac:(right; eexists; reflexivity).
Qed.

Lemma createTokenAllowance_frames : frames at_most_loading createTokenAllowance.
Proof.
  unfold createTokenAllowance, getParams.
  frame_by ltac:(right; reflexivity).
Qed.

(** X18. The two procedures that build a transaction leave the state
    alone but for one field each, however they end: [createConvert]
    changes [gasPriceInUSD] at most, and [createTokenAllowance] does
    nothing but set [loading] to [true]. In particular neither stores the
    transaction it builds: that is left to [makeChecks]. *)
Theorem builders_assign_one_field (env : Env) (w : World) :
  (state (after env createConvert w) = state w \/
   exists g : option number,
     state (after env createConvert w) = set_gasPriceInUSD g (state w))
  /\
  (state (after env createTokenAllowance w) = state w \/
   state (after env createTokenAllowance w) = set_loading (Some true) (state w)).
Proof.
  split; [apply createConvert_frames | apply createTokenAllowance_frames].
Qed.

(** ** The prices after initialisation *)

(** X19. After an [initializeState] whose requests are all answered,
    with the user's tokens among the answers: [networkPrice] is the price
    fetched for the network token (['0'] when there was none), but
    [tokensPriceMap] holds the prices of the user's tokens only, since it
    is replaced after the network price was stored in it: the network
    token has a stored price only if the user holds it. *)
Theorem initializeState_prices
    (env : Env) (w : World) (list : TokenListResponse) (prices : gmap string string)
    (mine : gmap string TokenInfoWithBalance.t) :
  initialized (state w) = false ->
  respond env _ Api_getTokenList (length (trace w)) = Resolved list ->
  respond env _ (Api_getTokenPriceWithAddresses [CURRENT_CHAIN_ADDRESS])
    (S (length (trace w))) = Resolved prices ->
  respond env _ Api_getMyTokensWithBalance (S (S (length (trace w)))) = Resolved (Some mine) ->
  networkPrice (state (after env initializeState w))
    = or_string (prices !! CURRENT_CHAIN_ADDRESS) "0" /\
  tokensPriceMap (state (after env initializeState w))
    = TokenInfoWithBalance.price <$> mine /\
  (mine !! CURRENT_CHAIN_ADDRESS = None ->
   tokensPriceMap (state (after env initializeState w)) !! CURRENT_CHAIN_ADDRESS = None).
Proof.
  intros Hinit Hlist Hprices Hmine. unfold after.
  destruct (exec env initializeState w) as [o w'] eqn:Hexec.
  unfold initializeState in Hexec.
  rewrite exec_bind, exec_get in Hexec. cbv beta iota in Hexec.
  rewrite Hinit in Hexec. cbn [negb] in Hexec.
  rewrite exec_bind, exec_await, exec_getTokenList in Hexec. cbv zeta in Hexec.
  unfold answer in Hexec at 1. rewrite Hlist in Hexec.
  rewrite exec_bind, exec_await, exec_getNetworkTokenPrice in Hexec. cbv zeta in Hexec.
  rewrite answer_with_state, answer_log, Hprices in Hexec.
  rewrite exec_bind, exec_await, exec_getMyTokensWithBalance in Hexec. cbv zeta in Hexec.
  rewrite answer_with_state, answer_log in Hexec. cbn [trace with_state log] in Hexec.
  rewrite length_app in Hexec. cbn [length] in Hexec.
  rewrite Nat.add_1_r, Hmine in Hexec.
  cbn in Hexec. injection Hexec as <- <-. cbn.
  split; [reflexivity|]. split; [reflexivity|].
  intros Habsent. now rewrite lookup_fmap, Habsent.
Qed.

(** A fresh controller: the user holds USDC only. *)
Lemma initializeState_prices_witness :
  let env := Sample.env (Some Sample.wallet) true false in
  let w := new_world initial_state in
  networkPrice (state (after env initializeState w)) = "0" /\
  tokensPriceMap (state (after env initializeState w)) !! Sample.usdc_address = Some "1" /\
  tokensPriceMap (state (after env initializeState w)) !! CURRENT_CHAIN_ADDRESS = None.
Proof.
  intros env w.
  destruct (initializeState_prices env w _ Sample.prices Sample.my_tokens
              eq_refl eq_refl eq_refl eq_refl) as (Hnetwork & Hmap & Hgone).
  split; [exact Hnetwork|]. split; [rewrite Hmap; reflexivity | exact (Hgone eq_refl)].
Defined.

(** ** Values that are no integers *)

(** X20. The amount [getToAmount] computes is handed to [BigInt]: when
    its text is no integer literal (a price ratio so large that the
    number prints with an exponent, ['Infinity'], ['NaN']),
    [setToTokenAmountValue] throws what [BigInt] throws and leaves the
    state as it is. *)
Theorem setToTokenAmountValue_not_an_integer
    (env : Env) (w : World) (decimals : number) (address : string) :
  truthy_string address = true ->
  BigInt (of_string (getToAmount (state w))) = None ->
  exec env (setToTokenAmountValue (getToAmount (state w)) decimals address) w
  = (Thrown (BigIntError (of_string (getToAmount (state w)))), w).
Proof.
  intros Haddress Hbig. unfold setToTokenAmountValue. rewrite Haddress.
  destruct (truthy_string (getToAmount (state w))) eqn:Hamount.
  - cbn [negb orb]. rewrite exec_bind. unfold toBigInt. rewrite Hbig. reflexivity.
  - destruct (getToAmount (state w)); [|discriminate Hamount].
    vm_compute in Hbig. discriminate Hbig.
Qed.

(** A source token at 60000 dollars against one at a billionth of a
    dollar. *)
Lemma setToTokenAmountValue_not_an_integer_witness :
  let env := Sample.env (Some Sample.wallet) true false in
  let w := new_world Scenario.far_apart in
  getToAmount (state w) = "5.9999999999999995e+23" /\
  outcome env (setToTokenAmountValue (getToAmount (state w)) 18 Sample.dai_address) w
    = Thrown {| error_name := "SyntaxError"; message := ""; shortMessage := None |} /\
  outcome env makeChecks w
    = Thrown {| error_name := "SyntaxError"; message := ""; shortMessage := None |}.
Proof.
  intros env w. split; [vm_compute; reflexivity|]. split.
  - unfold outcome.
    rewrite (setToTokenAmountValue_not_an_integer env w 18 Sample.dai_address eq_refl eq_refl).
    reflexivity.
  - vm_compute. reflexivity.
Defined.

(** ** The guard of [makeChecks] *)

Lemma nan_is_not_zero (x : number) : is_nan x = true -> (x =? 0)%float = false.
Proof.
  intros Hnan. apply is_nan_Prim2SF in Hnan. rewrite FloatAxioms.eqb_spec, Hnan. reflexivity.
Qed.

(** X21. The guard of [makeChecks], with a wallet connected and both
    tokens selected. It returns at once, with no request sent and nothing
    changed, when the amount is empty, when the amount parses to zero, or
    when either token has [0] (or [NaN]) decimals: a token without
    decimals is never checked. An amount that is no number at all is not
    caught by the guard: the allowance is requested for it. *)
Theorem makeChecks_guard (env : Env) (w : World) (a b : TokenInfo.t) :
  connected env = true ->
  sourceToken (state w) = Some a -> toToken (state w) = Some b ->
  (sourceTokenAmount (state w) = ""
   \/ (parseFloat (sourceTokenAmount (state w)) =? 0)%float = true
   \/ truthy_number (TokenInfo.decimals a) = false
   \/ truthy_number (TokenInfo.decimals b) = false ->
   exec env makeChecks w = (Returned tt, w))
  /\
  (truthy_string (sourceTokenAmount (state w)) = true ->
   is_numeric_string (sourceTokenAmount (state w)) = false ->
   truthy_number (TokenInfo.decimals a) = true ->
   truthy_number (TokenInfo.decimals b) = true ->
   exists events : list Event,
     trace (after env makeChecks w)
     = trace w ++ Requested (allowance_request (wallet_address env) a
                               (sourceTokenAmount (state w))) :: events).
Proof.
  intros Hc Ha Hb. split.
  - intros Hcase.
    assert (makeChecks_returns_early (params_of (wallet_address env) (state w)) = true)
      as Hearly.
    { unfold makeChecks_returns_early, params_of.
      cbn [Params.sourceTokenAddress Params.sourceTokenDecimals Params.toTokenDecimals
           Params.toTokenAddress Params.sourceTokenAmount].
      rewrite Ha, Hb. cbn [fmap option_fmap option_map truthy_opt].
      rewrite !hex_string_truthy. cbn [negb orb].
      destruct Hcase as [-> | [-> | [-> | ->]]]; cbn [truthy_string negb orb];
        rewrite ?orb_true_r; reflexivity. }
    unfold makeChecks. rewrite exec_bind, exec_getParams, Hc. cbv beta iota.
    rewrite Hearly. reflexivity.
  - intros Hamount Hnan Hda Hdb. unfold is_numeric_string in Hnan.
    apply negb_false_iff in Hnan.
    assert (makeChecks_returns_early (params_of (wallet_address env) (state w)) = false)
      as Hearly.
    { unfold makeChecks_returns_early, params_of.
      cbn [Params.sourceTokenAddress Params.sourceTokenDecimals Params.toTokenDecimals
           Params.toTokenAddress Params.sourceTokenAmount].
      rewrite Ha, Hb. cbn [fmap option_fmap option_map truthy_opt].
      rewrite !hex_string_truthy, Hamount, Hda, Hdb, (nan_is_not_zero _ Hnan).
      reflexivity. }
    unfold after. destruct (exec env makeChecks w) as [o w'] eqn:Hexec.
    open_makeChecks env w a Hexec Hc Hearly Ha Hb.
    destruct (answer env _ w) as [hasAllowance|e].
    + rewrite exec_bind, exec_get in Hexec. cbv beta iota zeta in Hexec.
      lazymatch type of Hexec with
      | exec env ?rest ?w1 = _ =>
          assert (emits_only (fun _ => True) rest) as Hrest
            by (unfold createConvert, createTokenAllowance, setToTokenAmountValue,
                  setTransactionDetails, getParams;
                repeat first
                  [ apply emits_bind; [|intros ?]
                  | apply emits_await
                  | apply emits_toBigInt
                  | apply emits_request; exact I
                  | apply emits_silent; intros ? ?; reflexivity
                  | match goal with
                    | |- emits_only _ (if ?c then _ else _) => destruct c
                    | |- emits_only _ (match ?x with _ => _ end) => destruct x
                    end ]);
          destruct (Hrest env w1) as (events & Htrace & _)
      end.
      unfold after in Htrace. rewrite Hexec in Htrace. cbn [snd] in *.
      exists events. rewrite Htrace. cbn. now rewrite <- app_assoc.
    + injection Hexec as _ <-. exists []. reflexivity.
Qed.

(** A ticket without decimals is selected as the source; and the amount
    typed is a word. *)
Lemma makeChecks_guard_witness :
  let env := Sample.env (Some Sample.wallet) true false in
  let w := new_world (set_sourceToken (Some Scenario.whole) (Sample.ready "10")) in
  let w' := new_world (Sample.ready "abc") in
  exec env makeChecks w = (Returned tt, w) /\
  exists events : list Event,
    trace (after env makeChecks w')
    = Requested (allowance_request Sample.wallet Sample.usdc "abc") :: events.
Proof.
  intros env w w'. split.
  - apply (makeChecks_guard env w Scenario.whole Sample.dai eq_refl eq_refl eq_refl).
    right. right. left. reflexivity.
  - exact (proj2 (makeChecks_guard env w' Sample.usdc Sample.dai eq_refl eq_refl eq_refl)
             eq_refl eq_refl eq_refl eq_refl).
Defined.
